(** * Accelerometer driver (klippy/extras/adxl345.py, klippy/extras/lis2dw.py)

    A shallow embedding of the sample decoder, the sequence reconciler, the
    measurement session, the probe self-calibration, the probe moves and the
    G-code commands of the ADXL345 driver, and of the regression-mode decoder
    and the batch processing of the LIS2DW driver.

    Python integers are [Z]; [bytes] payloads are [list byte]; Python floats
    are an abstract carrier [F] with the operations the source applies to
    them (class [Float], class [FloatMath]); the carrier provided is
    binary64 ([PrimFloat.float]), on which the model runs as the interpreter
    does, the exact value of a finite float being a rational.  Mutable
    objects are records threaded through a state and exception monad;
    everything the driver sends to the bus, the firmware or the console is
    appended to a trace, and everything it reads back is a function of that
    trace.  The commands run on the driver's objects with
    the calls to the toolhead, the reactor, the file writer and the console
    recorded beside them (record [Printer]). *)

From Stdlib Require Import String Ascii DecimalString.
From Stdlib.Strings Require Import Byte.
From Stdlib Require Import ZArith List Bool Lia Lqa.
From Stdlib Require Import QArith Qround Sorted.
From Stdlib Require Import PrimFloat SpecFloat FloatOps.
Import ListNotations.
Local Open Scope Z_scope.

Set Implicit Arguments.

(** ** Python exceptions and results *)

Inductive exn : Type :=
| IndexError
| ZeroDivisionError
| AttributeError
| KeyError
| UnboundLocalError
| ValueError
| OverflowError
| CommandError (msg : string).

Inductive result (A : Type) : Type :=
| Ok (a : A)
| Raise (e : exn).
Arguments Ok {A} a.
Arguments Raise {A} e.

Definition is_ok {A} (r : result A) : bool :=
  match r with Ok _ => true | Raise _ => false end.

(** ** Floating-point operations used by the drivers *)

(** The operations of Python's [float] that the decoders use.  [of_int] is
    the implicit conversion of an [int] operand in mixed arithmetic,
    [of_dec] a decimal literal of the source, [fround x n] is
    [round(x, n)], [ftruthy x] the truth value of [x]. *)
Class Float (F : Type) : Type := {
  of_int : Z -> F;
  of_dec : Q -> F;
  fadd : F -> F -> F;
  fsub : F -> F -> F;
  fmul : F -> F -> F;
  fdiv : F -> F -> F;
  fround : F -> Z -> F;
  ftruthy : F -> bool
}.

(** The further operations of the calibration code: unary minus, [abs],
    [math.sqrt], [x**2], [a > b] written [fltb b a], [int(round(x))] and
    [int(x)]; the last four raise on some operands. *)
Class FloatMath (F : Type) `{Float F} : Type := {
  fneg : F -> F;
  fabs : F -> F;
  fltb : F -> F -> bool;
  fsqrt : F -> result F;
  fsquare : F -> result F;
  fround_int : F -> result Z;
  ftrunc : F -> result Z
}.

(** ** Constants of adxl345.py *)

Definition REG_DEVID : Z := 0x00.
Definition REG_BW_RATE : Z := 0x2C.
Definition REG_POWER_CTL : Z := 0x2D.
Definition REG_DATA_FORMAT : Z := 0x31.
Definition REG_FIFO_CTL : Z := 0x38.
Definition REG_MOD_READ : Z := 0x80.
Definition REG_THRESH_TAP : Z := 0x1D.
Definition REG_DUR : Z := 0x21.
Definition REG_INT_MAP : Z := 0x2F.
Definition REG_TAP_AXES : Z := 0x2A.
Definition REG_OFSX : Z := 0x1E.
Definition REG_OFSY : Z := 0x1F.
Definition REG_OFSZ : Z := 0x20.
Definition REG_INT_ENABLE : Z := 0x2E.
Definition REG_INT_SOURCE : Z := 0x30.

Definition ADXL345_DEV_ID : Z := 0xe5.

(** [QUERY_RATES[rate]]; a missing key raises [KeyError]. *)
Definition QUERY_RATES (rate : Z) : result Z :=
  if rate =? 25 then Ok 0x8 else
  if rate =? 50 then Ok 0x9 else
  if rate =? 100 then Ok 0xa else
  if rate =? 200 then Ok 0xb else
  if rate =? 400 then Ok 0xc else
  if rate =? 800 then Ok 0xd else
  if rate =? 1600 then Ok 0xe else
  if rate =? 3200 then Ok 0xf else Raise KeyError.

(** The cap of [_handle_adxl345_data] on the number of buffered blocks. *)
Definition MAX_RAW_SAMPLES : Z := 300000.

(** ** Data model *)

(** The source index of an axis-map entry: the [am] table of
    [ADXL345.__init__] only holds 0, 1 and 2. *)
Inductive axis_pos : Type := Pos0 | Pos1 | Pos2.

Definition pos_index (p : axis_pos) : nat :=
  match p with Pos0 => 0%nat | Pos1 => 1%nat | Pos2 => 2%nat end.

(** One buffered block: the extended sequence number and the payload. *)
Abbreviation RawBlock := (Z * list byte)%type.

Definition byte_val (b : byte) : Z := Z.of_N (Byte.to_N b).

(** [len(data)//6]. *)
Definition sample_count (data : list byte) : Z := Z.of_nat (length data) / 6.

Section Driver.

Context {F : Type} `{FloatMath F}.

Definition AxesMap : Type := ((axis_pos * F) * (axis_pos * F) * (axis_pos * F))%type.

(** [Accel_Measurement = namedtuple(time, accel_x, accel_y, accel_z)]. *)
Record Accel_Measurement : Type := mkAccel {
  time : F;
  accel_x : F;
  accel_y : F;
  accel_z : F
}.

(** The attributes of [ADXL345] that the measurement code reads or writes. *)
Record ADXL345 : Type := mkADXL345 {
  query_rate : Z;
  last_tx_time : F;
  data_rate : Z;
  axes_map : AxesMap;
  raw_samples : list RawBlock;
  last_sequence : Z;
  samples_start1 : F;
  samples_start2 : F
}.

(** ** Sequence reconciler *)

(** [sequence = (last_sequence & ~0xffff) | sequence;
     if sequence < last_sequence: sequence += 0x10000]. *)
Definition extend_sequence (last sequence : Z) : Z :=
  let sequence := Z.lor (Z.land last (Z.lnot 0xffff)) sequence in
  if sequence <? last then sequence + 0x10000 else sequence.

(** [ADXL345._convert_sequence]. *)
Definition convert_sequence (self : ADXL345) (sequence : Z) : Z :=
  extend_sequence (last_sequence self) sequence.

(** [ADXL345._handle_adxl345_data], with [params] the pair of
    [params['sequence']] and [params['data']]. *)
Definition handle_adxl345_data (self : ADXL345) (params : Z * list byte) : ADXL345 :=
  let last := last_sequence self in
  let sequence := extend_sequence last (fst params) in
  let raw := raw_samples self in
  {| query_rate := query_rate self;
     last_tx_time := last_tx_time self;
     data_rate := data_rate self;
     axes_map := axes_map self;
     raw_samples :=
       if Z.of_nat (length raw) >=? MAX_RAW_SAMPLES then raw
       else raw ++ [(sequence, snd params)];
     last_sequence := sequence;
     samples_start1 := samples_start1 self;
     samples_start2 := samples_start2 self |}.

(** The handler run over the messages of a session, in arrival order. *)
Definition handle_all (self : ADXL345) (msgs : list (Z * list byte)) : ADXL345 :=
  fold_left handle_adxl345_data msgs self.

(** The value of [last_sequence] after each message. *)
Fixpoint sequence_history (self : ADXL345) (msgs : list (Z * list byte)) : list Z :=
  match msgs with
  | [] => []
  | m :: rest =>
      let self' := handle_adxl345_data self m in
      last_sequence self' :: sequence_history self' rest
  end.

(** The firmware's view: block number [t] is sent with its low 16 bits. *)
Definition observe (blk : Z * list byte) : Z * list byte :=
  (fst blk mod 0x10000, snd blk).

(** Consecutive true block counts are less than one wrap period apart. *)
Fixpoint within_one_wrap (prev : Z) (counts : list Z) : Prop :=
  match counts with
  | [] => True
  | t :: rest => prev <= t < prev + 0x10000 /\ within_one_wrap t rest
  end.
(** The counts of a history never go down. *)
Fixpoint nondecreasing (prev : Z) (l : list Z) : Prop :=
  match l with
  | [] => True
  | x :: rest => prev <= x /\ nondecreasing x rest
  end.

(** ** State and exception monad

    A Python method mutates its objects and may raise; what it had already
    written stays written.  [M S A] is a computation on a state [S] that
    returns an [A] or raises. *)

Definition M (S A : Type) : Type := S -> result A * S.

Definition ret {S A : Type} (a : A) : M S A := fun s => (Ok a, s).

Definition raise {S A : Type} (e : exn) : M S A := fun s => (Raise e, s).

Definition bind {S A B : Type} (m : M S A) (k : A -> M S B) : M S B :=
  fun s =>
    match m s with
    | (Ok a, s') => k a s'
    | (Raise e, s') => (Raise e, s')
    end.

Definition get {S : Type} : M S S := fun s => (Ok s, s).

Definition put {S : Type} (s : S) : M S unit := fun _ => (Ok tt, s).

Definition lift {S A : Type} (r : result A) : M S A := fun s => (r, s).

Notation "x <- m ;; k" := (bind m (fun x => k))
  (at level 61, m at next level, right associativity).
Notation "m ;; k" := (bind m (fun _ => k))
  (at level 61, right associativity).

(** [for x in l: body(x)]. *)
Fixpoint for_each {S A : Type} (l : list A) (body : A -> M S unit) : M S unit :=
  match l with
  | [] => ret tt
  | x :: rest => body x ;; for_each rest body
  end.

(** [range(n)]. *)
Definition range (n : Z) : list Z := map Z.of_nat (seq 0 (Z.to_nat n)).

(** [l[i]] for a list and a non-negative index. *)
Definition getitem {A : Type} (l : list A) (i : Z) : result A :=
  match nth_error l (Z.to_nat i) with
  | Some a => Ok a
  | None => Raise IndexError
  end.

(** [l[i] = v] for a non-negative index: the list with position [i]
    replaced, [IndexError] when [i] is not a position of [l]. *)
Fixpoint setitem {A : Type} (l : list A) (i : nat) (v : A) : result (list A) :=
  match l, i with
  | [], _ => Raise IndexError
  | _ :: rest, O => Ok (v :: rest)
  | x :: rest, S i' =>
      match setitem rest i' v with
      | Ok rest' => Ok (x :: rest')
      | Raise e => Raise e
      end
  end.

(** [a / b] on floats: a zero divisor raises. *)
Definition py_div (a b : F) : result F :=
  if ftruthy b then Ok (fdiv a b) else Raise ZeroDivisionError.

(** [a / n] with [n] an [int]. *)
Definition py_div_int (a : F) (n : Z) : result F :=
  if n =? 0 then Raise ZeroDivisionError else Ok (fdiv a (of_int n)).

(** ** Sample results (class ADXL345Results) *)

(** [raw_samples] is [None] until [setup_data] stores the blocks; the last
    four attributes exist only once [setup_data] has created them. *)
Record ADXL345Results : Type := mkResults {
  res_raw_samples : option (list RawBlock);
  samples : list (option Accel_Measurement);
  drops : Z;
  overflows : Z;
  time_per_sample : F;
  start_range : F;
  end_range : F;
  res_axes_map : option AxesMap;
  start2_time : option F;
  total_count : option Z;
  seq_to_time : option F
}.

(** [ADXL345Results.__init__]. *)
Definition ADXL345Results_init : ADXL345Results :=
  {| res_raw_samples := None;
     samples := [];
     drops := 0;
     overflows := 0;
     time_per_sample := of_dec 0;
     start_range := of_dec 0;
     end_range := of_dec 0;
     res_axes_map := None;
     start2_time := None;
     total_count := None;
     seq_to_time := None |}.

(** [(end_sequence - 1) * 8 + len(raw_samples[-1][1]) // 6]. *)
Definition expected_count (raw : list RawBlock) (end_sequence : Z) : Z :=
  (end_sequence - 1) * 8 + sample_count (snd (last raw (0, []))).

(** [sum([len(data)//6 for _, data in raw_samples])]. *)
Definition received_count (raw : list RawBlock) : Z :=
  fold_left Z.add (map (fun blk => sample_count (snd blk)) raw) 0.

(** [ADXL345Results.setup_data].  The division by [total_count], an [int],
    raises when it is zero; the attributes assigned before it stay. *)
Definition setup_data (axes : AxesMap) (raw : list RawBlock)
    (end_sequence overflows_ : Z) (start1_time start2_time_ end1_time end2_time : F)
    : M ADXL345Results unit :=
  fun self =>
    match raw with
    | [] => (Ok tt, self)
    | _ :: _ =>
      if end_sequence =? 0 then (Ok tt, self) else
      let total := expected_count raw end_sequence in
      let self1 :=
        {| res_raw_samples := Some raw;
           samples := samples self;
           drops := drops self;
           overflows := overflows_;
           time_per_sample := time_per_sample self;
           start_range := fsub start2_time_ start1_time;
           end_range := fsub end2_time end1_time;
           res_axes_map := Some axes;
           start2_time := Some start2_time_;
           total_count := Some total;
           seq_to_time := seq_to_time self |} in
      let total_time := fsub end2_time start2_time_ in
      if total =? 0 then (Raise ZeroDivisionError, self1) else
      let tps := fdiv total_time (of_int total) in
      let actual_count := received_count raw in
      (Ok tt,
       {| res_raw_samples := Some raw;
          samples := samples self;
          drops := total - actual_count;
          overflows := overflows_;
          time_per_sample := tps;
          start_range := fsub start2_time_ start1_time;
          end_range := fsub end2_time end1_time;
          res_axes_map := Some axes;
          start2_time := Some start2_time_;
          total_count := Some total;
          seq_to_time := Some (fmul tps (of_dec 8)) |})
    end.

(** [(d[i] | (d[i+1] << 8)) - ((d[i+1] & 0x80) << 9)]. *)
Definition le16_signed (lo hi : byte) : Z :=
  Z.lor (byte_val lo) (Z.shiftl (byte_val hi) 8)
  - Z.shiftl (Z.land (byte_val hi) 0x80) 9.

(** [[... for i in range(0, count-1, 2)]]: one value per complete byte
    pair, a trailing odd byte left out. *)
Fixpoint sdata_of (d : list byte) : list Z :=
  match d with
  | lo :: hi :: rest => le16_signed lo hi :: sdata_of rest
  | _ => []
  end.

(** An attribute that [setup_data] has not created. *)
Definition attr {S A : Type} (a : option A) : M S A :=
  match a with
  | Some v => ret v
  | None => raise AttributeError
  end.

(** The loop state of [decode_samples]: the preallocated [samples] list
    and [actual_count]. *)
Definition DecodeState : Type := (list (option Accel_Measurement) * Z)%type.

(** The body of the inner loop of [decode_samples], for one [i]. *)
Definition decode_sample (axes : AxesMap) (tps seq_time : F) (sdata : list Z) (i : Z)
    : M DecodeState unit :=
  let '((x_pos, x_scale), (y_pos, y_scale), (z_pos, z_scale)) := axes in
  let samp_time := fadd seq_time (fmul (of_int i) tps) in
  xr <- lift (getitem sdata (i * 3 + Z.of_nat (pos_index x_pos))) ;;
  yr <- lift (getitem sdata (i * 3 + Z.of_nat (pos_index y_pos))) ;;
  zr <- lift (getitem sdata (i * 3 + Z.of_nat (pos_index z_pos))) ;;
  let x := fmul (of_int xr) x_scale in
  let y := fmul (of_int yr) y_scale in
  let z := fmul (of_int zr) z_scale in
  st <- get ;;
  samples' <- lift (setitem (fst st) (Z.to_nat (snd st)) (Some (mkAccel samp_time x y z))) ;;
  put (samples', snd st + 1).

(** The body of the outer loop of [decode_samples], for one block. *)
Definition decode_block (axes : AxesMap) (start2 s2t tps : F) (blk : RawBlock)
    : M DecodeState unit :=
  let '(seq, data) := blk in
  let count := Z.of_nat (length data) in
  let sdata := sdata_of data in
  let seq_time := fadd start2 (fmul (of_int seq) s2t) in
  for_each (range (count / 6)) (decode_sample axes tps seq_time sdata).

Definition set_samples (self : ADXL345Results) (l : list (option Accel_Measurement))
    : ADXL345Results :=
  {| res_raw_samples := res_raw_samples self;
     samples := l;
     drops := drops self;
     overflows := overflows self;
     time_per_sample := time_per_sample self;
     start_range := start_range self;
     end_range := end_range self;
     res_axes_map := res_axes_map self;
     start2_time := start2_time self;
     total_count := total_count self;
     seq_to_time := seq_to_time self |}.

(** [ADXL345Results.decode_samples].  [self.samples] is the list the loop
    writes into, so it holds what was written when a write raises. *)
Definition decode_samples : M ADXL345Results (list (option Accel_Measurement)) :=
  fun self =>
    match res_raw_samples self with
    | None | Some [] => (Ok (samples self), self)
    | Some raw =>
      match res_axes_map self, total_count self with
      | Some axes, Some total =>
          let prealloc := repeat None (Z.to_nat total) in
          match start2_time self, seq_to_time self with
          | Some start2, Some s2t =>
              match for_each raw (decode_block axes start2 s2t (time_per_sample self))
                      (prealloc, 0) with
              | (Ok _, (filled, actual_count)) =>
                  let l := firstn (Z.to_nat actual_count) filled in
                  (Ok l, set_samples self l)
              | (Raise e, (filled, _)) => (Raise e, set_samples self filled)
              end
          | _, _ => (Raise AttributeError, set_samples self prealloc)
          end
      | _, _ => (Raise AttributeError, self)
      end
    end.

(** *** What the decoder is to produce *)

(** The measurement of sample [i] of a block whose 16-bit values are
    [sdata] and whose first sample is at [seq_time]. *)
Definition sample_of (axes : AxesMap) (tps seq_time : F) (sdata : list Z) (i : Z)
    : Accel_Measurement :=
  let '((x_pos, x_scale), (y_pos, y_scale), (z_pos, z_scale)) := axes in
  let value p := nth (Z.to_nat (i * 3 + Z.of_nat (pos_index p))) sdata 0 in
  mkAccel (fadd seq_time (fmul (of_int i) tps))
          (fmul (of_int (value x_pos)) x_scale)
          (fmul (of_int (value y_pos)) y_scale)
          (fmul (of_int (value z_pos)) z_scale).

(** The measurements of the complete 6-byte groups of one block. *)
Definition decoded_block (axes : AxesMap) (start2 s2t tps : F) (blk : RawBlock)
    : list Accel_Measurement :=
  map (sample_of axes tps (fadd start2 (fmul (of_int (fst blk)) s2t)) (sdata_of (snd blk)))
      (range (sample_count (snd blk))).

(** The measurements of a session, block after block. *)
Definition decoded (axes : AxesMap) (start2 s2t tps : F) (raw : list RawBlock)
    : list Accel_Measurement :=
  flat_map (decoded_block axes start2 s2t tps) raw.



(** ** The bus, the firmware and the host services

    [bus], [mcu], the toolhead and the reactor are collaborators of the
    driver.  What the driver sends them is recorded, in order, as a list of
    events; what they answer is a function of the events so far. *)

(** The answer to [query_adxl345_end_cmd.send]. *)
Record EndParams : Type := mkEndParams {
  end1_clock : Z;
  end2_clock : Z;
  limit_count : Z;
  end_sequence_lo : Z
}.

(** An unsolicited firmware message: [adxl345_start] or [adxl345_data]. *)
Inductive Incoming : Type :=
| Adxl345Start (start1_clock start2_clock : Z)
| Adxl345Data (sequence : Z) (data : list byte).

(** What [_offset_axes] reports through [msg_func]. *)
Inductive CalibrationMsg : Type :=
| FreefallRetrying (measured : F) (retries_left : Z)
| FreefallAborting (measured : F)
| NoiseRetrying (noise : F) (retries_left : Z)
| NoiseAborting (noise : F)
| SuccessfullyCalibrated.

Inductive Event : Type :=
| SpiSend (data : list Z) (minclock : Z)
| SpiTransfer (data : list Z)
| QueryAdxl345 (args : list Z) (reqclock : Z)
| QueryAdxl345End (args : list Z) (minclock : Z)
| GetLastMoveTime
| RegisterCallback (retries : Z) (waketime : F)
| LogFinished (total : Z)
| Respond (to_gcode : bool) (msg : CalibrationMsg).

Class Collaborators : Type := {
  oid : Z;
  (** [params['response']] of [spi.spi_transfer(data)] *)
  spi_transfer_response : list Event -> list Z -> list Z;
  (** the [adxl345_end] answer to the stop query *)
  query_end_response : list Event -> EndParams;
  (** the unsolicited messages handled before the next timer callback *)
  arrivals : list Event -> list Incoming;
  (** [toolhead.get_last_move_time()] *)
  last_move_time : list Event -> F;
  (** [reactor.monotonic()] *)
  monotonic : list Event -> F;
  print_time_to_clock : F -> Z;
  seconds_to_clock : F -> Z;
  clock_to_print_time : Z -> F;
  clock32_to_clock64 : Z -> Z
}.

Context {env : Collaborators}.

(** The attributes of [ADXL345EndstopWrapper] that calibration uses. *)
Record ADXL345EndstopWrapper : Type := mkWrapper {
  calibrated : bool;
  inverted : bool;
  int_map : Z;
  tap_thresh : F;
  tap_dur : F;
  wrapper_axes_map : AxesMap
}.

(** The driver's objects, the timer callbacks registered with the reactor
    and not yet run (the arguments [gcmd is not None] and [retries] of each
    pending [_offset_axes]), and the trace of the interactions, oldest
    first. *)
Record System : Type := mkSystem {
  adxl345 : ADXL345;
  endstop : ADXL345EndstopWrapper;
  timers : list (bool * Z);
  trace : list Event
}.

Definition emit (e : Event) : M System unit :=
  fun s => (Ok tt, {| adxl345 := adxl345 s; endstop := endstop s;
                      timers := timers s; trace := trace s ++ [e] |}).

Definition get_adxl345 : M System ADXL345 := fun s => (Ok (adxl345 s), s).

Definition set_adxl345 (a : ADXL345) : M System unit :=
  fun s => (Ok tt, {| adxl345 := a; endstop := endstop s;
                      timers := timers s; trace := trace s |}).

Definition set_timers (l : list (bool * Z)) : M System unit :=
  fun s => (Ok tt, {| adxl345 := adxl345 s; endstop := endstop s;
                      timers := l; trace := trace s |}).

Definition get_endstop : M System ADXL345EndstopWrapper :=
  fun s => (Ok (endstop s), s).

Definition set_calibrated (b : bool) : M System unit :=
  fun s =>
    let w := endstop s in
    (Ok tt, {| adxl345 := adxl345 s;
               endstop := {| calibrated := b; inverted := inverted w;
                             int_map := int_map w; tap_thresh := tap_thresh w;
                             tap_dur := tap_dur w;
                             wrapper_axes_map := wrapper_axes_map w |};
               timers := timers s;
               trace := trace s |}).

(** [ADXL345.read_reg]. *)
Definition read_reg (reg : Z) : M System Z :=
  let data := [Z.lor reg REG_MOD_READ; 0x00] in
  s <- get ;;
  emit (SpiTransfer data) ;;
  lift (getitem (spi_transfer_response (trace s) data) 1).

(** [ADXL345.set_reg]. *)
Definition set_reg (reg val minclock : Z) : M System unit :=
  emit (SpiSend [reg; Z.land val 0xFF] minclock) ;;
  stored_val <- read_reg reg ;;
  if negb (stored_val =? val)
  then raise (CommandError "Failed to set ADXL345 register")
  else ret tt.

(** [ADXL345.is_initialized]; [and] reads the second register only when
    the first comparison holds. *)
Definition is_initialized : M System bool :=
  dev_id <- read_reg REG_DEVID ;;
  if dev_id =? ADXL345_DEV_ID
  then (fmt <- read_reg REG_DATA_FORMAT ;; ret (negb (Z.land fmt 0xB =? 0)))
  else ret false.

(** [ADXL345.initialize]. *)
Definition initialize : M System unit :=
  set_reg REG_POWER_CTL 0x00 0 ;;
  dev_id <- read_reg REG_DEVID ;;
  if negb (dev_id =? ADXL345_DEV_ID)
  then raise (CommandError "Invalid adxl345 id")
  else set_reg REG_DATA_FORMAT 0x0B 0.

(** [ADXL345.is_measuring]. *)
Definition is_measuring (a : ADXL345) : bool := query_rate a >? 0.

(** [ADXL345._clock_to_print_time]. *)
Definition clock_to_print_time_ (clock : Z) : F :=
  clock_to_print_time (clock32_to_clock64 clock).

(** [ADXL345._handle_adxl345_start]. *)
Definition handle_adxl345_start (self : ADXL345) (start1_clock start2_clock : Z) : ADXL345 :=
  {| query_rate := query_rate self;
     last_tx_time := last_tx_time self;
     data_rate := data_rate self;
     axes_map := axes_map self;
     raw_samples := raw_samples self;
     last_sequence := last_sequence self;
     samples_start1 := clock_to_print_time_ start1_clock;
     samples_start2 := clock_to_print_time_ start2_clock |}.

(** [ADXL345.start_measurements(rate)]; [None] is the default argument. *)
Definition start_measurements (rate : option Z) : M System unit :=
  self <- get_adxl345 ;;
  if is_measuring self then ret tt else
  let rate := match rate with
              | Some r => if r =? 0 then data_rate self else r
              | None => data_rate self
              end in
  init <- is_initialized ;;
  (if init then ret tt else initialize) ;;
  let clock := if ftruthy (last_tx_time self)
               then print_time_to_clock (last_tx_time self) else 0 in
  set_reg REG_POWER_CTL 0x00 clock ;;
  set_reg REG_FIFO_CTL 0x00 0 ;;
  code <- lift (QUERY_RATES rate) ;;
  set_reg REG_BW_RATE code 0 ;;
  set_reg REG_FIFO_CTL 0x80 0 ;;
  s <- get ;;
  emit GetLastMoveTime ;;
  let print_time := last_move_time (trace s) in
  let reqclock := print_time_to_clock print_time in
  rest <- lift (py_div_int (of_dec 4) rate) ;;
  let rest_ticks := seconds_to_clock rest in
  set_adxl345 {| query_rate := rate;
                 last_tx_time := print_time;
                 data_rate := data_rate self;
                 axes_map := axes_map self;
                 raw_samples := [];
                 last_sequence := 0;
                 samples_start1 := print_time;
                 samples_start2 := print_time |} ;;
  emit (QueryAdxl345 [oid; reqclock; rest_ticks] reqclock).

(** [ADXL345.finish_measurements]. *)
Definition finish_measurements : M System ADXL345Results :=
  self <- get_adxl345 ;;
  if negb (is_measuring self) then ret ADXL345Results_init else
  s <- get ;;
  emit GetLastMoveTime ;;
  let print_time := last_move_time (trace s) in
  let clock := print_time_to_clock print_time in
  s <- get ;;
  emit (QueryAdxl345End [oid; 0; 0] clock) ;;
  let params := query_end_response (trace s) in
  let raw := raw_samples self in
  set_adxl345 {| query_rate := 0;
                 last_tx_time := print_time;
                 data_rate := data_rate self;
                 axes_map := axes_map self;
                 raw_samples := [];
                 last_sequence := last_sequence self;
                 samples_start1 := samples_start1 self;
                 samples_start2 := samples_start2 self |} ;;
  let end1_time := clock_to_print_time_ (end1_clock params) in
  let end2_time := clock_to_print_time_ (end2_clock params) in
  let end_sequence := convert_sequence self (end_sequence_lo params) in
  let overflows_ := limit_count params in
  match setup_data (axes_map self) raw end_sequence overflows_
          (samples_start1 self) (samples_start2 self) end1_time end2_time
          ADXL345Results_init with
  | (Raise e, _) => raise e
  | (Ok _, res) =>
      total <- attr (total_count res) ;;
      emit (LogFinished total) ;;
      ret res
  end.

(** The reader thread handing one firmware message to its handler. *)
Definition dispatch (m : Incoming) : M System unit :=
  self <- get_adxl345 ;;
  match m with
  | Adxl345Start c1 c2 => set_adxl345 (handle_adxl345_start self c1 c2)
  | Adxl345Data sequence data => set_adxl345 (handle_adxl345_data self (sequence, data))
  end.

(** ** Probe self-calibration (class ADXL345EndstopWrapper) *)

Definition FREEFALL_ACCEL : F := fmul (of_dec 9.80665) (of_dec 1000).
Definition SCALE : F := fmul (of_dec 0.0039) FREEFALL_ACCEL.
Definition DUR_SCALE : F := of_dec 0.000625.
Definition TAP_SCALE : F := fmul (of_dec 0.0625) FREEFALL_ACCEL.
Definition OFS_SCALE : F := fmul (of_dec 0.0156) FREEFALL_ACCEL.
Definition PROBE_CALIBRATION_TIME : F := of_dec 1.

(** The [retries=3] default of [calibrate]. *)
Definition DEFAULT_RETRIES : Z := 3.

(** [self.ofs_regs[pos]] with [ofs_regs = (REG_OFSX, REG_OFSY, REG_OFSZ)]. *)
Definition ofs_regs (p : axis_pos) : Z :=
  match p with Pos0 => REG_OFSX | Pos1 => REG_OFSY | Pos2 => REG_OFSZ end.

(** [self.axes_map[axis]] for [axis] in [(0, 1, 2)]. *)
Definition axes_entry (m : AxesMap) (axis : axis_pos) : axis_pos * F :=
  let '(ex, ey, ez) := m in
  match axis with Pos0 => ex | Pos1 => ey | Pos2 => ez end.

(** [[s.field for s in samples]]; a [None] entry has no attribute. *)
Fixpoint field_of (field : Accel_Measurement -> F)
    (l : list (option Accel_Measurement)) : result (list F) :=
  match l with
  | [] => Ok []
  | None :: _ => Raise AttributeError
  | Some s :: rest =>
      match field_of field rest with
      | Ok vs => Ok (field s :: vs)
      | Raise e => Raise e
      end
  end.

(** [sum(vs)]: the additions start from the integer 0. *)
Definition py_sum (vs : list F) : F := fold_left fadd vs (of_int 0).

(** [sum(vs) / len(samples)]. *)
Definition mean (vs : list F) : result F :=
  py_div_int (py_sum vs) (Z.of_nat (length vs)).

(** [max] keeps its current candidate unless the next item is greater. *)
Definition py_max_from (m : F) (vs : list F) : F :=
  fold_left (fun m x => if fltb m x then x else m) vs m.

(** [max(vs)] of a list; the empty list raises. *)
Definition py_max (vs : list F) : result F :=
  match vs with
  | [] => Raise ValueError
  | v :: rest => Ok (py_max_from v rest)
  end.

(** The outcome of the two tolerance tests of [_offset_axes]. *)
Inductive Verdict : Type :=
| BadFreefall (measured : F)
| BadNoise (noise : F)
| Within (x_ofs y_ofs z_ofs : F).

Definition bind_result {A B : Type} (r : result A) (k : A -> result B) : result B :=
  match r with Ok a => k a | Raise e => Raise e end.

(** The measurements of [_offset_axes] up to its second test: the per-axis
    means, the magnitude test against [FREEFALL_ACCEL] and the noise test
    against [tap_thresh]. *)
Definition tolerance_check (thresh : F) (samples_ : list (option Accel_Measurement))
    : result Verdict :=
  bind_result (field_of accel_x samples_) (fun xs =>
  bind_result (mean xs) (fun x_ofs =>
  bind_result (field_of accel_y samples_) (fun ys =>
  bind_result (mean ys) (fun y_ofs =>
  bind_result (field_of accel_z samples_) (fun zs =>
  bind_result (mean zs) (fun z_ofs =>
  bind_result (fsquare x_ofs) (fun x2 =>
  bind_result (fsquare y_ofs) (fun y2 =>
  bind_result (fsquare z_ofs) (fun z2 =>
  bind_result (fsqrt (fadd (fadd x2 y2) z2)) (fun meas_freefall_accel =>
  if fltb (fmul FREEFALL_ACCEL (of_dec 0.5))
          (fabs (fsub meas_freefall_accel FREEFALL_ACCEL))
  then Ok (BadFreefall meas_freefall_accel)
  else
  bind_result (py_max (map (fun v => fabs (fsub v x_ofs)) xs)) (fun x_m =>
  bind_result (py_max (map (fun v => fabs (fsub v y_ofs)) ys)) (fun y_m =>
  bind_result (py_max (map (fun v => fabs (fsub v z_ofs)) zs)) (fun z_m =>
  let accel_noise := py_max_from x_m [y_m; z_m] in
  if fltb thresh accel_noise
  then Ok (BadNoise accel_noise)
  else Ok (Within x_ofs y_ofs z_ofs)))))))))))))).

(** [0xFF & int(round(-ofs / axes_map[axis][1] * (SCALE / OFS_SCALE)))]. *)
Definition offset_value (ofs axis_scale : F) : result Z :=
  bind_result (py_div (fneg ofs) axis_scale) (fun q =>
  bind_result (py_div SCALE OFS_SCALE) (fun ratio =>
  bind_result (fround_int (fmul q ratio)) (fun rounded =>
  Ok (Z.land 0xFF rounded)))).

(** One iteration of the last loop of [_offset_axes]. *)
Definition write_offset (axes : AxesMap) (ofs_axis : F * axis_pos) : M System unit :=
  let '(ofs, axis) := ofs_axis in
  let ofs_reg := ofs_regs (fst (axes_entry axes axis)) in
  ofs_val <- lift (offset_value ofs (snd (axes_entry axes axis))) ;;
  set_reg ofs_reg ofs_val 0.

(** [ADXL345EndstopWrapper.calibrate(gcmd, retries)]; [gcmd] tells whether
    a G-code command is attached, [None] for [retries] is the default. *)
Definition calibrate (gcmd : bool) (retries : option Z) : M System unit :=
  let retries := match retries with Some r => r | None => DEFAULT_RETRIES end in
  init <- is_initialized ;;
  (if init then ret tt else initialize) ;;
  set_reg REG_POWER_CTL 0x00 0 ;;
  w <- get_endstop ;;
  (if inverted w then set_reg REG_DATA_FORMAT 0x2B 0 else ret tt) ;;
  set_reg REG_INT_MAP (int_map w) 0 ;;
  set_reg REG_TAP_AXES 0x7 0 ;;
  thresh <- lift (bind_result (py_div (tap_thresh w) TAP_SCALE) ftrunc) ;;
  set_reg REG_THRESH_TAP thresh 0 ;;
  dur <- lift (bind_result (py_div (tap_dur w) DUR_SCALE) ftrunc) ;;
  set_reg REG_DUR dur 0 ;;
  for_each [REG_OFSX; REG_OFSY; REG_OFSZ] (fun reg => set_reg reg 0x00 0) ;;
  start_measurements None ;;
  s <- get ;;
  emit (RegisterCallback retries (fadd (monotonic (trace s)) PROBE_CALIBRATION_TIME)) ;;
  set_timers (timers s ++ [(gcmd, retries)]).

(** The retry-or-abort branch shared by the two tests of [_offset_axes]. *)
Definition retry_or_abort (gcmd : bool) (retries : Z) (retrying aborting : CalibrationMsg)
    : M System unit :=
  if retries >? 0
  then emit (Respond gcmd retrying) ;; calibrate gcmd (Some (retries - 1))
  else emit (Respond gcmd aborting).

(** [_offset_axes] from the decoded samples on. *)
Definition process_samples (gcmd : bool) (retries : Z)
    (samples_ : list (option Accel_Measurement)) : M System unit :=
  w <- get_endstop ;;
  verdict <- lift (tolerance_check (tap_thresh w) samples_) ;;
  match verdict with
  | BadFreefall measured =>
      retry_or_abort gcmd retries
        (FreefallRetrying measured (retries - 1)) (FreefallAborting measured)
  | BadNoise noise =>
      retry_or_abort gcmd retries
        (NoiseRetrying noise (retries - 1)) (NoiseAborting noise)
  | Within x_ofs y_ofs z_ofs =>
      for_each [(x_ofs, Pos0); (y_ofs, Pos1); (z_ofs, Pos2)]
        (write_offset (wrapper_axes_map w)) ;;
      emit (Respond gcmd SuccessfullyCalibrated) ;;
      set_calibrated true
  end.

(** [ADXL345EndstopWrapper._offset_axes(gcmd, retries)]. *)
Definition offset_axes (gcmd : bool) (retries : Z) : M System unit :=
  res <- finish_measurements ;;
  samples_ <- lift (fst (decode_samples res)) ;;
  process_samples gcmd retries samples_.

(** The reactor: while a timer is pending, the messages that arrived are
    handled and the oldest timer runs; at most [fuel] timers are run. *)
Fixpoint reactor_run (fuel : nat) : M System unit :=
  match fuel with
  | O => ret tt
  | S fuel' =>
      s <- get ;;
      match timers s with
      | [] => ret tt
      | (gcmd, retries) :: pending =>
          set_timers pending ;;
          for_each (arrivals (trace s)) dispatch ;;
          offset_axes gcmd retries ;;
          reactor_run fuel'
      end
  end.

(** The offset of the specification, before it is cut to a byte:
    [round(-mean / axisScale * (decodeScale / registerScale))]. *)
Definition offset_rounding (ofs axis_scale : F) : result Z :=
  bind_result (py_div (fneg ofs) axis_scale) (fun q =>
  bind_result (py_div SCALE OFS_SCALE) (fun ratio =>
  fround_int (fmul q ratio))).

(** [sum([s.field for s in samples]) / len(samples)]. *)
Definition sample_mean (field : Accel_Measurement -> F)
    (samples_ : list (option Accel_Measurement)) : result F :=
  bind_result (field_of field samples_) mean.

(** [math.sqrt(x_ofs**2 + y_ofs**2 + z_ofs**2)], the magnitude of the mean
    vector. *)
Definition freefall_magnitude (x_ofs y_ofs z_ofs : F) : result F :=
  bind_result (fsquare x_ofs) (fun x2 =>
  bind_result (fsquare y_ofs) (fun y2 =>
  bind_result (fsquare z_ofs) (fun z2 =>
  fsqrt (fadd (fadd x2 y2) z2)))).

(** The magnitude differs from standard gravity by more than half of it:
    [abs(meas - FREEFALL_ACCEL) > FREEFALL_ACCEL * 0.5]. *)
Definition off_by_half (measured : F) : bool :=
  fltb (fmul FREEFALL_ACCEL (of_dec 0.5)) (fabs (fsub measured FREEFALL_ACCEL)).

(** The peak deviation of one axis from its mean:
    [max([abs(s.field - ofs) for s in samples])]. *)
Definition sample_peak (field : Accel_Measurement -> F)
    (samples_ : list (option Accel_Measurement)) (ofs : F) : result F :=
  bind_result (field_of field samples_) (fun vs =>
  py_max (map (fun v => fabs (fsub v ofs)) vs)).

(** The retry-or-abort step for a magnitude out of tolerance, and for
    noise above the threshold. *)
Definition freefall_step (gcmd : bool) (retries : Z) (measured : F) : M System unit :=
  if retries >? 0
  then emit (Respond gcmd (FreefallRetrying measured (retries - 1))) ;;
       calibrate gcmd (Some (retries - 1))
  else emit (Respond gcmd (FreefallAborting measured)).

Definition noise_step (gcmd : bool) (retries : Z) (noise : F) : M System unit :=
  if retries >? 0
  then emit (Respond gcmd (NoiseRetrying noise (retries - 1))) ;;
       calibrate gcmd (Some (retries - 1))
  else emit (Respond gcmd (NoiseAborting noise)).

(** *** What a trace tells about a calibration *)

(** The three kinds of report of [_offset_axes]. *)
Inductive Report : Type :=
| Retrying (retries_left : Z)
| Aborting
| Succeeded.

Definition report_of (e : Event) : list Report :=
  match e with
  | Respond _ (FreefallRetrying _ n) => [Retrying n]
  | Respond _ (NoiseRetrying _ n) => [Retrying n]
  | Respond _ (FreefallAborting _) => [Aborting]
  | Respond _ (NoiseAborting _) => [Aborting]
  | Respond _ SuccessfullyCalibrated => [Succeeded]
  | _ => []
  end.

(** The reports of a trace, in order. *)
Definition reports (tr : list Event) : list Report := flat_map report_of tr.

(** The number of measurement attempts of a trace: every attempt ends
    with the registration of its [_offset_axes] callback. *)
Definition attempts (tr : list Event) : nat :=
  length (filter (fun e => match e with RegisterCallback _ _ => true | _ => false end) tr).

(** The register writes of a trace: the register and the byte sent. *)
Definition register_writes (tr : list Event) : list (Z * Z) :=
  flat_map (fun e => match e with SpiSend [reg; val] _ => [(reg, val)] | _ => [] end) tr.

(** The retry reports of [k] consecutive failures from the budget
    [retries]: [retries - 1], [retries - 2], ... *)
Fixpoint countdown (retries : Z) (k : nat) : list Report :=
  match k with
  | O => []
  | S k' => Retrying (retries - 1) :: countdown (retries - 1) k'
  end.

(** [self.calibrate(gcmd, retries)] followed by the reactor running the
    callbacks it leads to. *)
Definition calibration (gcmd : bool) (retries : option Z) (fuel : nat) : M System unit :=
  calibrate gcmd retries ;; reactor_run fuel.

(** A computation is quiet when it leaves the probe object and the timers
    alone and adds neither a report nor a callback to the trace. *)
Definition quiet {A : Type} (m : M System A) : Prop :=
  forall s,
    endstop (snd (m s)) = endstop s
    /\ timers (snd (m s)) = timers s
    /\ exists added, trace (snd (m s)) = trace s ++ added
                     /\ reports added = [] /\ attempts added = 0%nat.

(** A computation schedules an attempt when, without a report and without
    touching the probe object, it ends by registering one callback with the
    arguments [(gcmd, retries)], or raises before it has registered any. *)
Definition schedules (gcmd : bool) (retries : Z) (m : M System unit) : Prop :=
  forall s,
    endstop (snd (m s)) = endstop s
    /\ exists added, trace (snd (m s)) = trace s ++ added
                     /\ reports added = []
                     /\ match fst (m s) with
                        | Ok _ => attempts added = 1%nat
                                  /\ timers (snd (m s)) = timers s ++ [(gcmd, retries)]
                        | Raise _ => attempts added = 0%nat
                                     /\ timers (snd (m s)) = timers s
                        end.

(** What one run of [_offset_axes(gcmd, retries)] from [s] can come to:
    an exception, no callback registered; a retry report and the next attempt scheduled with one
    retry less, when [retries] is positive; an abort report, when it is
    not; or a success report with the probe marked calibrated. *)
Definition attempt_outcome (gcmd : bool) (retries : Z) (s : System)
    (out : result unit * System) : Prop :=
  exists added,
    trace (snd out) = trace s ++ added
    /\ match fst out with
       | Raise _ => attempts added = 0%nat
       | Ok _ =>
           (0 < retries /\ reports added = [Retrying (retries - 1)]
            /\ attempts added = 1%nat
            /\ timers (snd out) = timers s ++ [(gcmd, retries - 1)]
            /\ endstop (snd out) = endstop s)
           \/ (retries <= 0 /\ reports added = [Aborting]
               /\ attempts added = 0%nat
               /\ timers (snd out) = timers s
               /\ endstop (snd out) = endstop s)
           \/ (reports added = [Succeeded]
               /\ attempts added = 0%nat
               /\ timers (snd out) = timers s
               /\ calibrated (endstop (snd out)) = true)
       end.

(** What the reactor, started in [s] with the callback of budget
    [retries] pending, can come to: at most [retries] further attempts,
    and, when nothing raises, [k] retry reports counting down from
    [retries - 1] followed by one final report, an abort only after all
    [retries] retries and with the probe object as it was, or a success
    with the probe marked calibrated. *)
Definition run_outcome (retries : Z) (s : System) (out : result unit * System) : Prop :=
  exists added,
    trace (snd out) = trace s ++ added
    /\ (attempts added <= Z.to_nat retries)%nat
    /\ (fst out = Ok tt ->
        timers (snd out) = []
        /\ exists (k : nat) (final : Report),
             Z.of_nat k <= retries
             /\ reports added = countdown retries k ++ [final]
             /\ attempts added = k
             /\ match final with
                | Aborting => Z.of_nat k = retries /\ endstop (snd out) = endstop s
                | Succeeded => calibrated (endstop (snd out)) = true
                | Retrying _ => False
                end).

End Driver.

Notation "x <- m ;; k" := (bind m (fun x => k))
  (at level 61, m at next level, right associativity).
Notation "m ;; k" := (bind m (fun _ => k))
  (at level 61, right associativity).

Arguments AxesMap : clear implicits.
Arguments Accel_Measurement : clear implicits.
Arguments ADXL345 : clear implicits.
Arguments ADXL345Results : clear implicits.
Arguments DecodeState : clear implicits.
Arguments CalibrationMsg : clear implicits.
Arguments Event : clear implicits.
Arguments Collaborators : clear implicits.
Arguments ADXL345EndstopWrapper : clear implicits.
Arguments System : clear implicits.
Arguments Verdict : clear implicits.

(** ** Regression-mode decoder (lis2dw.py, LIS2DW._extract_samples) *)

Module LIS2DW.

Section Extract.

Context {F : Type} `{Float F}.

Definition BYTES_PER_SAMPLE : Z := 6.
Definition SAMPLES_PER_BLOCK : Z := 8.

(** A published sample, the tuple [(ptime, x, y, z)]. *)
Definition Sample : Type := (F * F * F * F)%type.

(** What [clock_sync.get_time_translation()] returns; [bulk_sensor] is a
    collaborator, so the three values are inputs. *)
Record TimeTranslation : Type := mkTranslation {
  time_base : F;
  chip_base : F;
  inv_freq : F
}.

(** The local variables of [_extract_samples] that the loops assign; [i]
    is unbound until the inner loop has run once. *)
Record Locals : Type := mkLocals {
  samples : list (option Sample);
  count : Z;
  seq : Z;
  i : option Z
}.

(** [((high << 8) | low) - ((high & 0x80) << 9)]. *)
Definition merge (low high : byte) : Z :=
  Z.lor (Z.shiftl (byte_val high) 8) (byte_val low)
  - Z.shiftl (Z.land (byte_val high) 0x80) 9.

(** [raw_xyz[pos]]. *)
Definition raw_at (raw_xyz : Z * Z * Z) (p : axis_pos) : Z :=
  let '(rx, ry, rz) := raw_xyz in
  match p with Pos0 => rx | Pos1 => ry | Pos2 => rz end.

(** [ptime] of tick [i] of a message: [round(time_base + (msg_cdiff + i) * inv_freq, 6)]. *)
Definition ptime_of (tr : TimeTranslation) (msg_cdiff : F) (i_ : Z) : F :=
  fround (fadd (time_base tr) (fmul (fadd msg_cdiff (of_int i_)) (inv_freq tr))) 6.

(** The body of the inner loop for one [i]. *)
Definition extract_sample (axes : (axis_pos * F) * (axis_pos * F) * (axis_pos * F))
    (tr : TimeTranslation) (d : list byte) (msg_cdiff : F) (i_ : Z) : M Locals unit :=
  fun st =>
    let st := {| samples := samples st; count := count st; seq := seq st; i := Some i_ |} in
    let '((x_pos, x_scale), (y_pos, y_scale), (z_pos, z_scale)) := axes in
    let d_xyz := firstn (Z.to_nat ((i_ + 1) * BYTES_PER_SAMPLE) - Z.to_nat (i_ * BYTES_PER_SAMPLE))
                   (skipn (Z.to_nat (i_ * BYTES_PER_SAMPLE)) d) in
    match d_xyz with
    | [xlow; xhigh; ylow; yhigh; zlow; zhigh] =>
        let raw_xyz := (merge xlow xhigh, merge ylow yhigh, merge zlow zhigh) in
        let x := fround (fmul (of_int (raw_at raw_xyz x_pos)) x_scale) 6 in
        let y := fround (fmul (of_int (raw_at raw_xyz y_pos)) y_scale) 6 in
        let z := fround (fmul (of_int (raw_at raw_xyz z_pos)) z_scale) 6 in
        let ptime := ptime_of tr msg_cdiff i_ in
        match setitem (samples st) (Z.to_nat (count st)) (Some (ptime, x, y, z)) with
        | Ok samples' =>
            (Ok tt, {| samples := samples'; count := count st + 1;
                       seq := seq st; i := Some i_ |})
        | Raise e => (Raise e, st)
        end
    | _ => (Raise ValueError, st)
    end.

(** The extended sequence number of a message:
    [seq_diff = (sequence - last_sequence) & 0xffff;
     seq_diff -= (seq_diff & 0x8000) << 1;
     seq = last_sequence + seq_diff]. *)
Definition message_seq (last_sequence sequence : Z) : Z :=
  let seq_diff := Z.land (sequence - last_sequence) 0xffff in
  let seq_diff := seq_diff - Z.shiftl (Z.land seq_diff 0x8000) 1 in
  last_sequence + seq_diff.

(** The body of the outer loop for one message. *)
Definition extract_message (axes : (axis_pos * F) * (axis_pos * F) * (axis_pos * F))
    (tr : TimeTranslation) (last_sequence : Z) (params : Z * list byte) : M Locals unit :=
  fun st =>
    let seq_ := message_seq last_sequence (fst params) in
    let d := snd params in
    let msg_cdiff := fsub (of_int (seq_ * SAMPLES_PER_BLOCK)) (chip_base tr) in
    for_each (range (Z.of_nat (length d) / BYTES_PER_SAMPLE))
      (extract_sample axes tr d msg_cdiff)
      {| samples := samples st; count := count st; seq := seq_; i := i st |}.

(** [LIS2DW._extract_samples]: the published samples and the argument of
    [clock_sync.set_last_chip_clock]. *)
Definition extract_samples (axes : (axis_pos * F) * (axis_pos * F) * (axis_pos * F))
    (last_sequence : Z) (tr : TimeTranslation) (raw_samples : list (Z * list byte))
    : result (list (option Sample) * Z) :=
  let init := {| samples := repeat None (Z.to_nat (Z.of_nat (length raw_samples) * SAMPLES_PER_BLOCK));
                 count := 0; seq := 0; i := None |} in
  match for_each raw_samples (extract_message axes tr last_sequence) init with
  | (Raise e, _) => Raise e
  | (Ok _, st) =>
      match i st with
      | None => Raise UnboundLocalError
      | Some i_ =>
          Ok (firstn (Z.to_nat (count st)) (samples st), seq st * SAMPLES_PER_BLOCK + i_)
      end
  end.

(** *** What the decoder is to publish *)

Definition byte_at (d : list byte) (k : nat) : byte := nth k d x00.

(** The three raw values of the 6-byte group [i_] of a payload. *)
Definition raw_xyz_at (d : list byte) (i_ : Z) : Z * Z * Z :=
  let k := Z.to_nat (i_ * BYTES_PER_SAMPLE) in
  (merge (byte_at d k) (byte_at d (k + 1)),
   merge (byte_at d (k + 2)) (byte_at d (k + 3)),
   merge (byte_at d (k + 4)) (byte_at d (k + 5))).

Definition published_sample (axes : (axis_pos * F) * (axis_pos * F) * (axis_pos * F))
    (tr : TimeTranslation) (d : list byte) (msg_cdiff : F) (i_ : Z) : Sample :=
  let '((x_pos, x_scale), (y_pos, y_scale), (z_pos, z_scale)) := axes in
  (ptime_of tr msg_cdiff i_,
   fround (fmul (of_int (raw_at (raw_xyz_at d i_) x_pos)) x_scale) 6,
   fround (fmul (of_int (raw_at (raw_xyz_at d i_) y_pos)) y_scale) 6,
   fround (fmul (of_int (raw_at (raw_xyz_at d i_) z_pos)) z_scale) 6).

(** The samples of the complete groups of one message. *)
Definition published_message (axes : (axis_pos * F) * (axis_pos * F) * (axis_pos * F))
    (tr : TimeTranslation) (last_sequence : Z) (params : Z * list byte) : list Sample :=
  let seq_ := message_seq last_sequence (fst params) in
  map (published_sample axes tr (snd params)
         (fsub (of_int (seq_ * SAMPLES_PER_BLOCK)) (chip_base tr)))
      (range (sample_count (snd params))).

Definition published (axes : (axis_pos * F) * (axis_pos * F) * (axis_pos * F))
    (tr : TimeTranslation) (last_sequence : Z) (raw_samples : list (Z * list byte))
    : list Sample :=
  flat_map (published_message axes tr last_sequence) raw_samples.

(** The values of [seq] and [i] when the loops end. *)
Definition final_seq (last_sequence : Z) (seq0 : Z) (raw_samples : list (Z * list byte)) : Z :=
  fold_left (fun _ params => message_seq last_sequence (fst params)) raw_samples seq0.

Definition final_i (i0 : option Z) (raw_samples : list (Z * list byte)) : option Z :=
  fold_left (fun acc params =>
               if 0 <? sample_count (snd params)
               then Some (sample_count (snd params) - 1) else acc)
            raw_samples i0.

End Extract.

Arguments Sample : clear implicits.
Arguments TimeTranslation : clear implicits.
Arguments Locals : clear implicits.

End LIS2DW.

(** ** Batch processing (lis2dw.py, LIS2DW._process_batch) *)

Module LIS2DWBatch.

Import LIS2DW.

Section Batch.

Context {F : Type} `{Float F}.

(** The dict [_process_batch] returns when it has samples: the values of
    its keys ['data'], ['errors'] and ['overflows']. *)
Record Batch : Type := mkBatch {
  batch_data : list (option (Sample F));
  batch_errors : Z;
  batch_overflows : Z
}.

(** [LIS2DW._process_batch] from [bulk_queue.pull_samples()] on.
    [bulk_sensor] is a collaborator: what [pull_samples],
    [get_last_sequence], [get_time_translation] and
    [get_last_limit_count] return are inputs.  The result is the dict
    returned, [None] for [{}], and the argument of
    [clock_sync.set_last_chip_clock] when [_extract_samples] got to call
    it. *)
Definition process_batch (axes : (axis_pos * F) * (axis_pos * F) * (axis_pos * F))
    (last_sequence : Z) (tr : TimeTranslation F) (last_error_count last_limit_count : Z)
    (raw_samples : list (Z * list byte)) : result (option Batch * option Z) :=
  match raw_samples with
  | [] => Ok (None, None)
  | _ :: _ =>
      match extract_samples axes last_sequence tr raw_samples with
      | Raise e => Raise e
      | Ok (samples_, chip_clock) =>
          match samples_ with
          | [] => Ok (None, Some chip_clock)
          | _ :: _ =>
              Ok (Some {| batch_data := samples_;
                          batch_errors := last_error_count;
                          batch_overflows := last_limit_count |},
                  Some chip_clock)
          end
      end
  end.

End Batch.

Arguments Batch : clear implicits.

End LIS2DWBatch.

(** ** Well-formed sessions *)

(** The blocks are in sequence order from [lo] on, each number used at
    most once, and no block holds more than the eight samples of a full
    block. *)
Fixpoint ordered_from (lo : Z) (raw : list RawBlock) : bool :=
  match raw with
  | [] => true
  | (sequence, data) :: rest =>
      (lo <=? sequence) && (sample_count data <=? 8) && ordered_from (sequence + 1) rest
  end.

(** A finished session is well formed when its blocks are in sequence
    order and the final sequence number reported by the firmware, the
    number of the next block it would send, lies beyond the last block
    received. *)
Definition well_formed_session (raw : list RawBlock) (end_sequence : Z) : bool :=
  ordered_from 0 raw && (fst (last raw (-1, [])) <? end_sequence).

(** The blocks [0 .. n-1]. *)
Definition numbered (payloads : list (list byte)) : list RawBlock :=
  combine (map Z.of_nat (seq 0 (length payloads))) payloads.

(** ** The probe moves and the G-code commands *)

Section Commands.

Context {F : Type} `{FloatMath F} {env : Collaborators F}.

Definition ADXL345_REST_TIME : F := of_dec 0.01.

(** The state [s] with [added] appended to its trace. *)
Definition extend (s : System F) (added : list (Event F)) : System F :=
  {| adxl345 := adxl345 s; endstop := endstop s; timers := timers s;
     trace := trace s ++ added |}.

(** The exceptions of a bus access: a response too short to index, and
    the command error of a failed check. *)
Definition bus_error (e : exn) : Prop :=
  e = IndexError \/ exists msg, e = CommandError msg.

(** The bus transfer of [read_reg(reg)]. *)
Definition reading (reg : Z) : Event F := SpiTransfer [Z.lor reg REG_MOD_READ; 0x00].

(** The loop of [_try_clear_tap] with [tries] iterations left. *)
Fixpoint try_clear_tap_from (tries : nat) : M (System F) bool :=
  match tries with
  | O => ret false
  | S tries' =>
      val <- read_reg REG_INT_SOURCE ;;
      if Z.land val 0x40 =? 0 then ret true else try_clear_tap_from tries'
  end.

(** [ADXL345EndstopWrapper._try_clear_tap]. *)
Definition try_clear_tap : M (System F) bool := try_clear_tap_from 8.

(** What the read of [REG_INT_SOURCE] number [j] (from 0) of a
    [_try_clear_tap] started in [s] returns. *)
Definition tap_source (s : System F) (j : nat) : result Z :=
  getitem (spi_transfer_response (trace s ++ repeat (reading REG_INT_SOURCE) j)
             [Z.lor REG_INT_SOURCE REG_MOD_READ; 0x00]) 1.

(** Read number [j] shows the tap interrupt still pending. *)
Definition tap_pending (s : System F) (j : nat) : Prop :=
  exists val, tap_source s j = Ok val /\ Z.land val 0x40 <> 0.

(** What [gcmd.respond_info] is given. *)
Inductive Reply : Type :=
| MeasurementsStarted
| MeasurementsStopped
| WritingRawData (filename : string)
| QueryValues (x y z : F)
| RegisterValue (reg val : Z).

(** The calls of the command layer to the toolhead, the reactor, the
    file writer and the console. *)
Inductive HostCall : Type :=
| FlushStepGeneration
| Dwell (delay : F)
| Pause (waketime : F)
| WriteToFile (filename : string) (res : ADXL345Results F)
| RespondInfo (msg : Reply).

(** The driver's objects with the name of the chip ([self.name]) and the
    calls to the host so far, oldest first, each with the length of the
    trace when it was made. *)
Record Printer : Type := mkPrinter {
  system : System F;
  chip_name : string;
  host_calls : list (nat * HostCall)
}.

(** What the host answers.  [pause_return] is the event time that
    [reactor.pause] returns and [pause_arrivals] the firmware messages
    handled while it waits, both after the [Pause] call was recorded;
    [strftime] is [time.strftime("%Y%m%d_%H%M%S")]; [char_isalnum] tells
    the characters that [str.isalnum] accepts. *)
Class Host : Type := {
  pause_return : list (Event F) -> list (nat * HostCall) -> F;
  pause_arrivals : list (Event F) -> list (nat * HostCall) -> list Incoming;
  strftime : list (Event F) -> list (nat * HostCall) -> string;
  char_isalnum : ascii -> bool
}.

Context {host : Host}.

(** The parameters of a G-code command as [gcmd.get], [gcmd.get_int] and
    [gcmd.get_float] hand them over: [None] for a parameter that is not
    given, an error for one that [gcmd] rejects. *)
Record GCodeCommand : Type := mkGCodeCommand {
  param_NAME : option string;
  param_RATE : option (result Z);
  param_REG : result Z;
  param_VAL : result Z;
  param_TAP_THRESH : option (result F)
}.

(** A firmware message that carries samples. *)
Definition is_data (m : Incoming) : bool :=
  match m with Adxl345Data _ _ => true | Adxl345Start _ _ => false end.

(** A method of the driver run on the printer's objects. *)
Definition run {A : Type} (m : M (System F) A) : M Printer A :=
  fun p =>
    let out := m (system p) in
    (fst out, {| system := snd out; chip_name := chip_name p;
                 host_calls := host_calls p |}).

Definition tell (c : HostCall) : M Printer unit :=
  fun p =>
    (Ok tt, {| system := system p; chip_name := chip_name p;
               host_calls := host_calls p ++ [(length (trace (system p)), c)] |}).

(** [toolhead.get_last_move_time()]. *)
Definition get_last_move_time : M (System F) F :=
  s <- get ;;
  emit GetLastMoveTime ;;
  ret (last_move_time (trace s)).

(** [ADXL345EndstopWrapper.probe_prepare]. *)
Definition probe_prepare : M Printer unit :=
  p <- get ;;
  if negb (calibrated (endstop (system p)))
  then raise (CommandError
                "ADXL345 probe failed calibration, retry with ACCEL_PROBE_CALIBRATE command")
  else
  tell FlushStepGeneration ;;
  run (print_time <- get_last_move_time ;;
       let clock := print_time_to_clock (fadd print_time ADXL345_REST_TIME) in
       init <- is_initialized ;;
       (if init then ret tt else initialize) ;;
       set_reg REG_INT_ENABLE 0x00 clock ;;
       read_reg REG_INT_SOURCE ;;
       set_reg REG_INT_ENABLE 0x40 clock ;;
       self <- get_adxl345 ;;
       (if is_measuring self then ret tt else set_reg REG_POWER_CTL 0x08 clock) ;;
       cleared <- try_clear_tap ;;
       if cleared then ret tt
       else raise (CommandError "ADXL345 tap triggered before move, too sensitive?")).

(** [ADXL345EndstopWrapper.probe_finish]. *)
Definition probe_finish : M Printer unit :=
  tell (Dwell ADXL345_REST_TIME) ;;
  run (print_time <- get_last_move_time ;;
       let clock := print_time_to_clock print_time in
       set_reg REG_INT_ENABLE 0x00 clock ;;
       self <- get_adxl345 ;;
       (if is_measuring self then ret tt else set_reg REG_POWER_CTL 0x00 0) ;;
       cleared <- try_clear_tap ;;
       if cleared then ret tt
       else raise (CommandError "ADXL345 tap triggered after move, too sensitive?")).

(** [ADXL345EndstopWrapper.cmd_ACCEL_PROBE_CALIBRATE]. *)
Definition cmd_ACCEL_PROBE_CALIBRATE : M Printer unit :=
  run (calibrate true None).

(** [s.replace(c, '')] for a one-character [c]. *)
Fixpoint remove_char (c : ascii) (s : string) : string :=
  match s with
  | EmptyString => EmptyString
  | String a rest =>
      if Ascii.eqb a c then remove_char c rest else String a (remove_char c rest)
  end.

Fixpoint all_alnum (s : string) : bool :=
  match s with
  | EmptyString => true
  | String a rest => char_isalnum a && all_alnum rest
  end.

(** [s.isalnum()]: every character is alphanumeric and there is at least
    one. *)
Definition isalnum (s : string) : bool :=
  match s with
  | EmptyString => false
  | String _ _ => all_alnum s
  end.

(** The file name of [end_query]. *)
Definition csv_filename (chip name : string) : string :=
  if String.eqb chip "default"
  then ("/tmp/adxl345-" ++ name ++ ".csv")%string
  else ("/tmp/adxl345-" ++ chip ++ "-" ++ name ++ ".csv")%string.

(** [ADXL345.end_query].  [write_to_file] hands the results to a process
    of its own, which formats and writes them. *)
Definition end_query (name : string) : M Printer unit :=
  p <- get ;;
  if negb (is_measuring (adxl345 (system p))) then ret tt else
  res <- run finish_measurements ;;
  let filename := csv_filename (chip_name p) name in
  tell (WriteToFile filename res) ;;
  tell (RespondInfo (WritingRawData filename)).

(** ["%d" % (n,)]. *)
Definition format_d (n : Z) : string := NilZero.string_of_int (Z.to_int n).

(** [ADXL345.cmd_ACCELEROMETER_MEASURE]. *)
Definition cmd_ACCELEROMETER_MEASURE (gcmd : GCodeCommand) : M Printer unit :=
  p <- get ;;
  if is_measuring (adxl345 (system p)) then
    let name := match param_NAME gcmd with
                | Some n => n
                | None => strftime (trace (system p)) (host_calls p)
                end in
    if negb (isalnum (remove_char "_" (remove_char "-" name)))
    then raise (CommandError "Invalid adxl345 NAME parameter")
    else
    end_query name ;;
    tell (RespondInfo MeasurementsStopped)
  else
    rate <- lift (match param_RATE gcmd with
                  | Some r => r
                  | None => Ok (data_rate (adxl345 (system p)))
                  end) ;;
    if negb (is_ok (QUERY_RATES rate))
    then raise (CommandError ("Not a valid adxl345 query rate: " ++ format_d rate))
    else
    run (start_measurements (Some rate)) ;;
    tell (RespondInfo MeasurementsStarted).

(** How a call of [cmd_ACCELEROMETER_QUERY] that raises none of the
    exceptions of [exn] ends: with its reply sent; still in its wait loop
    when the pauses the model allows it are used up; or with the
    [TypeError] of unpacking a [None] entry. *)
Inductive QueryEnd : Type :=
| Replied
| StillWaiting
| TypeError.

(** The wait loop of [cmd_ACCELEROMETER_QUERY], for at most [pauses]
    pauses: [true] when [raw_samples] is no longer empty.  The firmware
    messages are handled while the reactor pauses. *)
Fixpoint query_wait (pauses : nat) (starttime eventtime : F) : M Printer bool :=
  p <- get ;;
  match raw_samples (adxl345 (system p)) with
  | _ :: _ => ret true
  | [] =>
      match pauses with
      | O => ret false
      | S pauses' =>
          tell (Pause (fadd eventtime (of_dec 0.1))) ;;
          p1 <- get ;;
          run (for_each (pause_arrivals (trace (system p1)) (host_calls p1)) dispatch) ;;
          let eventtime := pause_return (trace (system p1)) (host_calls p1) in
          if fltb (fadd starttime (of_dec 3)) eventtime
          then run finish_measurements ;;
               raise (CommandError "Timeout reading adxl345 data")
          else query_wait pauses' starttime eventtime
      end
  end.

(** [ADXL345.cmd_ACCELEROMETER_QUERY]. *)
Definition cmd_ACCELEROMETER_QUERY (pauses : nat) : M Printer QueryEnd :=
  p <- get ;;
  if is_measuring (adxl345 (system p))
  then raise (CommandError "adxl345 measurements in progress")
  else
  run (start_measurements None) ;;
  p1 <- get ;;
  let starttime := monotonic (trace (system p1)) in
  ready <- query_wait pauses starttime starttime ;;
  if negb ready then ret StillWaiting else
  result_ <- run finish_measurements ;;
  values <- lift (fst (decode_samples result_)) ;;
  match rev values with
  | [] => raise IndexError
  | None :: _ => ret TypeError
  | Some m :: _ =>
      tell (RespondInfo (QueryValues (accel_x m) (accel_y m) (accel_z m))) ;;
      ret Replied
  end.

(** [ADXL345.cmd_ADXL345_DEBUG_READ]. *)
Definition cmd_ADXL345_DEBUG_READ (gcmd : GCodeCommand) : M Printer unit :=
  p <- get ;;
  if is_measuring (adxl345 (system p))
  then raise (CommandError "adxl345 measurements in progress")
  else
  reg <- lift (param_REG gcmd) ;;
  val <- run (read_reg reg) ;;
  tell (RespondInfo (RegisterValue reg val)).

(** [ADXL345.cmd_ADXL345_DEBUG_WRITE]. *)
Definition cmd_ADXL345_DEBUG_WRITE (gcmd : GCodeCommand) : M Printer unit :=
  p <- get ;;
  if is_measuring (adxl345 (system p))
  then raise (CommandError "adxl345 measurements in progress")
  else
  reg <- lift (param_REG gcmd) ;;
  val <- lift (param_VAL gcmd) ;;
  run (set_reg reg val 0).

End Commands.

Arguments Reply : clear implicits.
Arguments HostCall : clear implicits.
Arguments Printer : clear implicits.
Arguments Host : clear implicits.
Arguments GCodeCommand : clear implicits.

(** ** Exact values: the formulas of the specification on the rationals *)

(** Rounding a rational to the nearest integer, halves to the even one, as
    [round] does. *)
Definition round_half_even (q : Q) : Z :=
  let f := Qfloor q in
  match Qcompare (q - inject_Z f) (1 # 2) with
  | Lt => f
  | Gt => f + 1
  | Eq => if Z.even f then f else f + 1
  end.

(** [round(q, n)] on a rational: the nearest multiple of [10**-n]. *)
Definition round_digits (q : Q) (n : Z) : Q :=
  if 0 <=? n
  then inject_Z (round_half_even (q * inject_Z (10 ^ n))) / inject_Z (10 ^ n)
  else inject_Z (round_half_even (q / inject_Z (10 ^ (- n)))) * inject_Z (10 ^ (- n)).



(** The regression-mode timestamp of the specification:
    [timeBase + (tickIndex - chipBase) * inverseFrequency]. *)
Definition exact_tick_time (time_base chip_base inv_freq : Q) (tick : Z) : Q :=
  (time_base + (inject_Z tick - chip_base) * inv_freq)%Q.

(** ** Binary64: the carrier of the interpreter *)

Module Binary64.

(** The exact value of a finite float. *)
Definition value (x : float) : option Q :=
  match Prim2SF x with
  | S754_zero _ => Some 0%Q
  | S754_finite s m e =>
      let n := if s then Z.neg m else Z.pos m in
      Some (if 0 <=? e then inject_Z (n * 2 ^ e) else (n # Z.to_pos (2 ^ (- e))))
  | _ => None
  end.

(** The float nearest to a rational, ties to even: the quotient is taken
    with at least 56 significant bits and a sticky bit before the final
    rounding. *)
Definition Q2SF (q : Q) : spec_float :=
  let n := Qnum q in
  let d := Z.pos (Qden q) in
  if n =? 0 then S754_zero false else
  let a := Z.abs n in
  let k := Z.max 0 (57 + Z.log2 d - Z.log2 a) in
  let qt := (a * 2 ^ k) / d in
  let sticky := if (a * 2 ^ k) mod d =? 0 then 0 else 1 in
  binary_normalize prec emax (Z.sgn n * (2 * qt + sticky)) (- k - 1) false.

Definition of_Q (q : Q) : float := SF2Prim (Q2SF q).

Definition is_finite (x : float) : bool :=
  match value x with Some _ => true | None => false end.

(** The sign bit of a float. *)
Definition is_negative (x : float) : bool :=
  match Prim2SF x with
  | S754_zero s | S754_infinity s | S754_finite s _ _ => s
  | S754_nan => false
  end.

(** The float that a decimal [q] written with the sign [negative] is
    converted to: the float nearest to [q], a zero with the sign as
    written. *)
Definition decimal_float (negative : bool) (q : Q) : float :=
  if Qnum q =? 0 then (if negative then neg_zero else zero) else of_Q q.

(** [round(x, n)]: the exact value of [x] is rounded to [n] decimal
    places, halves to the even digit, and the decimal is converted back with
    the sign of [x], so that [round(-0.0, 6)] is [-0.0]; an infinity or a
    NaN is returned as it is.  The drivers round to six places only. *)
Definition round_float (x : float) (n : Z) : float :=
  match value x with
  | Some v => decimal_float (is_negative x) (round_digits v n)
  | None => x
  end.

(** The float [x] is finite and its exact value is [q]. *)
Definition has_value (x : float) (q : Q) : Prop :=
  match value x with
  | Some v => (v == q)%Q
  | None => False
  end.


(** [y] is [x] rounded to six decimal places: for a finite [x] there is a
    decimal [n / 10**6] within half a unit of the sixth place of the exact
    value of [x], and [y] is the float that this decimal is converted to;
    an infinity or a NaN is left as it is. *)
Definition rounded_six (x y : float) : Prop :=
  match value x with
  | Some v =>
      exists n : Z,
        (v - (1 # 2000000) <= n # 1000000 <= v + (1 # 2000000))%Q
        /\ y = decimal_float (is_negative x) (n # 1000000)
  | None => y = x
  end.

(** The float [x] is finite and its exact value is within [eps] of [q]. *)
Definition within (eps : Q) (x : float) (q : Q) : Prop :=
  match value x with
  | Some v => (q - eps <= v <= q + eps)%Q
  | None => False
  end.




(** [int(round(x))] (Python 3: halves go to the even integer). *)
Definition round_int (x : float) : result Z :=
  match value x with
  | Some v => Ok (round_half_even v)
  | None => Raise (if PrimFloat.is_nan x then ValueError else OverflowError)
  end.

(** [int(x)]: truncation towards zero. *)
Definition trunc (x : float) : result Z :=
  match value x with
  | Some v => Ok (Z.quot (Qnum v) (Z.pos (Qden v)))
  | None => Raise (if PrimFloat.is_nan x then ValueError else OverflowError)
  end.

(** [x**2]: the rounded square, [OverflowError] when it is out of range. *)
Definition square (x : float) : result float :=
  let y := PrimFloat.mul x x in
  if is_finite x && negb (is_finite y) then Raise OverflowError else Ok y.

(** [math.sqrt(x)]: a negative operand is a domain error. *)
Definition sqrt_ (x : float) : result float :=
  if PrimFloat.ltb x PrimFloat.zero then Raise ValueError else Ok (PrimFloat.sqrt x).

#[export] Instance Float_binary64 : Float float := {|
  of_int := fun z => of_Q (inject_Z z);
  of_dec := of_Q;
  fadd := PrimFloat.add;
  fsub := PrimFloat.sub;
  fmul := PrimFloat.mul;
  fdiv := PrimFloat.div;
  fround := round_float;
  ftruthy := fun x => negb (PrimFloat.eqb x PrimFloat.zero)
|}.

#[export] Instance FloatMath_binary64 : @FloatMath float Float_binary64 := {|
  fneg := PrimFloat.opp;
  fabs := PrimFloat.abs;
  fltb := PrimFloat.ltb;
  fsqrt := sqrt_;
  fsquare := square;
  fround_int := round_int;
  ftrunc := trunc
|}.

(** *** A chip that answers: registers read back what was written *)

(** The value last sent to [reg], or what the register holds at power-up
    (the device id in [REG_DEVID], zero elsewhere). *)
Fixpoint register_value (reg : Z) (tr : list (Event float)) : Z :=
  match tr with
  | [] => if reg =? REG_DEVID then ADXL345_DEV_ID else 0
  | SpiSend [r; v] _ :: older => if r =? reg then v else register_value reg older
  | _ :: older => register_value reg older
  end.

(** A host with a 1 MHz firmware clock and a toolhead at rest, a chip whose
    registers hold what is written to them, and a firmware that delivers
    [msgs] during every settling interval and answers every stop query
    with [endp]. *)
Definition bench (msgs : list Incoming) (endp : EndParams) : Collaborators float := {|
  oid := 0;
  spi_transfer_response := fun tr data =>
    match data with
    | addr :: _ => [0; register_value (Z.land addr 0x7F) (rev tr)]
    | [] => []
    end;
  query_end_response := fun _ => endp;
  arrivals := fun _ => msgs;
  last_move_time := fun _ => of_Q 10;
  monotonic := fun _ => of_Q 100;
  print_time_to_clock := fun t =>
    match trunc (PrimFloat.mul t (of_Q 1000000)) with Ok c => c | Raise _ => 0 end;
  seconds_to_clock := fun t =>
    match trunc (PrimFloat.mul t (of_Q 1000000)) with Ok c => c | Raise _ => 0 end;
  clock_to_print_time := fun c => PrimFloat.div (of_Q (inject_Z c)) (of_Q 1000000);
  clock32_to_clock64 := fun c => c
|}.

(** The payload of a full block: eight samples with the same raw
    [(x, y, z)], each as two bytes, low byte first. *)
Definition sample_bytes (x y z : byte * byte) : list byte :=
  [fst x; snd x; fst y; snd y; fst z; snd z].

Definition full_block (x y z : byte * byte) : list byte :=
  concat (repeat (sample_bytes x y z) 8).

(** Sixteen blocks, numbered from 0, of the same sample. *)
Definition steady_stream (x y z : byte * byte) : list Incoming :=
  Adxl345Start 10100000 10100100
  :: map (fun n => Adxl345Data (Z.of_nat n) (full_block x y z)) (seq 0 16).

Definition steady_end : EndParams :=
  {| end1_clock := 10180000; end2_clock := 10180100; limit_count := 0;
     end_sequence_lo := 16 |}.

(** A chip at rest, its third axis along gravity: raw [(0, 0, 256)]. *)
Definition at_rest : Collaborators float :=
  bench (steady_stream (x00, x00) (x00, x00) (x00, x01)) steady_end.

(** A chip that reports zero on every axis. *)
Definition all_zero : Collaborators float :=
  bench (steady_stream (x00, x00) (x00, x00) (x00, x00)) steady_end.

Definition default_axes : AxesMap float :=
  ((Pos0, SCALE), (Pos1, SCALE), (Pos2, SCALE)).

(** The objects as [ADXL345.__init__] and [ADXL345EndstopWrapper.__init__]
    leave them with the default configuration. *)
Definition power_on : System float :=
  {| adxl345 := {| query_rate := 0; last_tx_time := of_Q 0; data_rate := 3200;
                   axes_map := default_axes; raw_samples := []; last_sequence := 0;
                   samples_start1 := of_Q 0; samples_start2 := of_Q 0 |};
     endstop := {| calibrated := false; inverted := false; int_map := 0;
                   tap_thresh := of_Q 5000; tap_dur := of_Q 0.01;
                   wrapper_axes_map := default_axes |};
     timers := [];
     trace := [] |}.

(** The session of the chip at rest as [finish_measurements] hands it to
    the decoder, and its decoded samples. *)
Definition rest_results : ADXL345Results float :=
  snd (setup_data default_axes
         (numbered (repeat (full_block (x00, x00) (x00, x00) (x00, x01)) 16))
         16 0 (of_Q 10.1) (of_Q 10.1001) (of_Q 10.18) (of_Q 10.1801)
         ADXL345Results_init).

Definition rest_samples : list (option (Accel_Measurement float)) :=
  match fst (decode_samples rest_results) with
  | Ok l => l
  | Raise _ => []
  end.

(** The driver in the middle of a session. *)
Definition measuring : System float :=
  snd (start_measurements (env := at_rest) None power_on).

(** The mean of the third axis over the session at rest. *)
Definition rest_mean_z : float :=
  match sample_mean (@accel_z float) rest_samples with
  | Ok z => z
  | Raise _ => of_Q 0
  end.

(** Block counts that cross the 16-bit boundary twice. *)
Definition wrapping_blocks : list RawBlock :=
  [(0, []); (1, []); (65535, []); (65536, []); (131000, [])].

(** A session that lost block 1 and ends with a block of two samples. *)
Definition gapped_session : list RawBlock :=
  [(0, full_block (x01, x00) (x02, x00) (x03, x00));
   (2, full_block (x01, x00) (x02, x00) (x03, x00));
   (3, sample_bytes (x01, x00) (x02, x00) (x03, x00)
       ++ sample_bytes (x04, x00) (x05, x00) (x06, x00))].

(** A driver whose buffer has reached the cap. *)
Definition full_buffer : ADXL345 float :=
  {| query_rate := 3200; last_tx_time := of_Q 10; data_rate := 3200;
     axes_map := default_axes;
     raw_samples := repeat (0, []) (Z.to_nat MAX_RAW_SAMPLES);
     last_sequence := 70000;
     samples_start1 := of_Q 10; samples_start2 := of_Q 10 |}.

(** The end-to-end scenario of the specification: a session at rate 1600
    fed ten blocks of eight samples whose first axis ramps from 0 to 79. *)
Definition ramp_byte (v : nat) : byte :=
  match Byte.of_N (N.of_nat v) with Some b => b | None => x00 end.

Definition ramp_block (n : nat) : list byte :=
  flat_map (fun i => sample_bytes (ramp_byte (8 * n + i), x00) (x00, x00) (x00, x01))
           (seq 0 8).

Definition ramp_stream : list Incoming :=
  Adxl345Start 10100000 10100100
  :: map (fun n => Adxl345Data (Z.of_nat n) (ramp_block n)) (seq 0 10).

Definition ramp_bench : Collaborators float :=
  bench ramp_stream
    {| end1_clock := 10150000; end2_clock := 10150100; limit_count := 0;
       end_sequence_lo := 10 |}.

Definition end_to_end : result (list (option (Accel_Measurement float))) :=
  fst ((start_measurements (env := ramp_bench) (Some 1600) ;;
        s <- get ;;
        for_each (arrivals (Collaborators := ramp_bench) (trace s))
                 (dispatch (env := ramp_bench)) ;;
        res <- finish_measurements (env := ramp_bench) ;;
        lift (fst (decode_samples res))) power_on).

Definition end_to_end_samples : list (Accel_Measurement float) :=
  match end_to_end with
  | Ok l => flat_map (fun smp => match smp with Some m => [m] | None => [] end) l
  | Raise _ => []
  end.

Fixpoint increasingb (l : list float) : bool :=
  match l with
  | a :: (b :: _) as rest => PrimFloat.ltb a b && increasingb rest
  | _ => true
  end.

(** *** The command layer on the bench *)

(** The characters that [str.isalnum] accepts among the ASCII ones. *)
Definition ascii_isalnum (c : ascii) : bool :=
  let n := nat_of_ascii c in
  ((48 <=? n) && (n <=? 57) || (65 <=? n) && (n <=? 90) || (97 <=? n) && (n <=? 122))%nat.

(** A reactor that handles [msgs] during every pause and returns from it
    at [wake], and a wall clock that stands still. *)
Definition bench_host (msgs : list Incoming) (wake : float) : Host float := {|
  pause_return := fun _ _ => wake;
  pause_arrivals := fun _ _ => msgs;
  strftime := fun _ _ => "20240101_120000"%string;
  char_isalnum := ascii_isalnum
|}.

(** A reactor that hands over the session of the chip at rest during the
    first pause. *)
Definition prompt_host : Host float :=
  bench_host (steady_stream (x00, x00) (x00, x00) (x00, x01)) (of_Q 100.1).

(** A reactor to which no message arrives, back from its pause after the
    three seconds. *)
Definition silent_host : Host float := bench_host [] (of_Q 104).

(** The printer with the objects [s], the chip under its default name. *)
Definition printer (s : System float) : Printer float :=
  {| system := s; chip_name := "default"; host_calls := [] |}.

(** The printer after a self-calibration on the chip at rest. *)
Definition calibrated_printer : Printer float :=
  printer (snd (calibration (env := at_rest) false None 4 power_on)).

(** The parameters of a command given without any, those of
    [ACCELEROMETER_MEASURE NAME=run-1_a], of [ACCELEROMETER_MEASURE
    RATE=1234] and of [ADXL345_DEBUG_WRITE REG=0x2d VAL=8]. *)
Definition no_params : GCodeCommand float :=
  {| param_NAME := None; param_RATE := None;
     param_REG := Raise (CommandError "missing REG");
     param_VAL := Raise (CommandError "missing VAL");
     param_TAP_THRESH := None |}.

Definition named_run : GCodeCommand float :=
  {| param_NAME := Some "run-1_a"%string; param_RATE := None;
     param_REG := param_REG no_params; param_VAL := param_VAL no_params;
     param_TAP_THRESH := None |}.

Definition rate_1234 : GCodeCommand float :=
  {| param_NAME := None; param_RATE := Some (Ok 1234);
     param_REG := param_REG no_params; param_VAL := param_VAL no_params;
     param_TAP_THRESH := None |}.

Definition write_power_ctl : GCodeCommand float :=
  {| param_NAME := None; param_RATE := None;
     param_REG := Ok REG_POWER_CTL; param_VAL := Ok 8;
     param_TAP_THRESH := None |}.

(** *** Sessions and batches to try the decoders on *)

Definition unit_axes : AxesMap float :=
  ((Pos0, of_Q 1), (Pos1, of_Q (-1)), (Pos2, of_Q (1 # 2))).








(** A batch of the LIS2DW of two messages, the second with a trailing
    byte, a batch of one message of nine complete groups, and a clock fit
    at 1600 Hz. *)
Definition short_session : list (Z * list byte) :=
  [(0, [x01; x00; x02; x00; x03; x00; x04; x00; x05; x00; x06; x00]);
   (2, [x01; x00; x02; x00; x03; x00; xff])].

Definition nine_groups : list (Z * list byte) := [(0, repeat x00 54)].

Definition fit_1600 : LIS2DW.TimeTranslation float :=
  {| LIS2DW.time_base := of_Q 100;
     LIS2DW.chip_base := of_Q (7 # 2);
     LIS2DW.inv_freq := of_Q (1 # 1600) |}.

(** What [_process_batch] and [_extract_samples] make of the short
    session. *)
Definition short_batch : option (LIS2DWBatch.Batch float) * option Z :=
  match LIS2DWBatch.process_batch unit_axes 0 fit_1600 0 0 short_session with
  | Ok out => out
  | Raise _ => (None, None)
  end.

Definition short_extract : list (option (LIS2DW.Sample float)) * Z :=
  match LIS2DW.extract_samples unit_axes 0 fit_1600 short_session with
  | Ok out => out
  | Raise _ => ([], 0)
  end.

(** A clock fit at 2048 Hz whose time base, [100 + 1/128], is halfway
    between two decimals of six places, and whose chip base is [2**-49]
    below tick 8. *)
Definition fit_tie : LIS2DW.TimeTranslation float :=
  {| LIS2DW.time_base := of_Q (12801 # 128);
     LIS2DW.chip_base := of_Q (inject_Z 8 - (1 # 562949953421312));
     LIS2DW.inv_freq := of_Q (1 # 2048) |}.

Definition tick_8 : list (Z * list byte) := [(1, [x00; x00; x00; x00; x00; x00])].

End Binary64.

(** * Properties *)

(** ** Sequence reconciler *)

Lemma land_lnot_ffff (last : Z) :
  Z.land last (Z.lnot 0xffff) = 0x10000 * (last / 0x10000).
Proof.
  rewrite <- Z.ldiff_land.
  change 0xffff with (Z.ones 16).
  rewrite Z.ldiff_ones_r by lia.
  rewrite Z.shiftr_div_pow2, Z.shiftl_mul_pow2 by lia.
  change (2 ^ 16) with 0x10000. lia.
Qed.

Lemma lor_high_low (q r : Z) :
  0 <= r < 0x10000 -> Z.lor (0x10000 * q) r = 0x10000 * q + r.
Proof.
  intros Hr.
  assert (Hdisj : Z.land (0x10000 * q) r = 0).
  { apply Z.bits_inj'. intros n Hn.
    rewrite Z.land_spec, Z.bits_0.
    destruct (Z.lt_ge_cases n 16) as [Hlt | Hge].
    - replace (0x10000 * q) with (q * 2 ^ 16) by (change (2 ^ 16) with 0x10000; lia).
      rewrite Z.mul_pow2_bits_low by lia. reflexivity.
    - replace (Z.testbit r n) with false; [apply andb_false_r|].
      symmetry. destruct (Z.eq_dec r 0) as [-> | Hnz]; [apply Z.bits_0|].
      apply Z.bits_above_log2; [lia|].
      assert (Z.log2 r < 16) by (apply Z.log2_lt_pow2; [lia | change (2 ^ 16) with 0x10000; lia]).
      lia. }
  rewrite <- (Z.add_lor_land (0x10000 * q) r), Hdisj. lia.
Qed.

(** The extension step in arithmetic terms. *)
Lemma extend_sequence_arith (last sequence : Z) :
  0 <= sequence < 0x10000 ->
  extend_sequence last sequence =
    let s := 0x10000 * (last / 0x10000) + sequence in
    if s <? last then s + 0x10000 else s.
Proof.
  intros Hs. unfold extend_sequence.
  rewrite land_lnot_ffff, lor_high_low by assumption. reflexivity.
Qed.

Lemma extend_sequence_bounds (last sequence : Z) :
  0 <= sequence < 0x10000 ->
  last <= extend_sequence last sequence < last + 0x10000.
Proof.
  intros Hs. rewrite extend_sequence_arith by assumption. cbv zeta.
  pose proof (Z.div_mod last 0x10000 ltac:(lia)) as Hdm.
  pose proof (Z.mod_pos_bound last 0x10000 ltac:(lia)) as Hm.
  destruct (Z.ltb_spec (0x10000 * (last / 0x10000) + sequence) last); lia.
Qed.

Lemma extend_sequence_exact (last t : Z) :
  last <= t < last + 0x10000 ->
  extend_sequence last (t mod 0x10000) = t.
Proof.
  intros Ht.
  pose proof (Z.mod_pos_bound t 0x10000 ltac:(lia)) as Hm.
  pose proof (extend_sequence_bounds last Hm) as Hb.
  assert (Hcong : (extend_sequence last (t mod 0x10000)) mod 0x10000 = t mod 0x10000).
  { rewrite extend_sequence_arith by assumption. cbv zeta.
    destruct (Z.ltb_spec (0x10000 * (last / 0x10000) + t mod 0x10000) last).
    - replace (0x10000 * (last / 0x10000) + t mod 0x10000 + 0x10000)
        with (t mod 0x10000 + (last / 0x10000 + 1) * 0x10000) by lia.
      rewrite Z.mod_add by lia. apply Z.mod_mod. lia.
    - replace (0x10000 * (last / 0x10000) + t mod 0x10000)
        with (t mod 0x10000 + (last / 0x10000) * 0x10000) by lia.
      rewrite Z.mod_add by lia. apply Z.mod_mod. lia. }
  set (e := extend_sequence last (t mod 0x10000)) in *.
  pose proof (Z.div_mod e 0x10000 ltac:(lia)) as He.
  pose proof (Z.div_mod t 0x10000 ltac:(lia)) as Ht'.
  assert (e / 0x10000 = t / 0x10000) by nia.
  nia.
Qed.

Lemma last_cons_default {A : Type} (x : A) (l : list A) (y d : A) :
  last (y :: x :: l) d = last (x :: l) y.
Proof.
  revert x. induction l as [| z l IH]; intro x; [reflexivity|].
  change (last (y :: x :: z :: l) d) with (last (x :: z :: l) d).
  change (last (x :: z :: l) d) with (last (z :: l) d).
  change (last (x :: z :: l) y) with (last (z :: l) y).
  destruct l as [| w l']; [reflexivity|].
  pose proof (IH z) as IHz.
  change (last (y :: z :: w :: l') d) with (last (z :: w :: l') d) in IHz.
  exact IHz.
Qed.

Section DriverProofs.

Context {F : Type} `{FloatMath F}.

Lemma last_sequence_handle (self : ADXL345 F) (m : Z * list byte) :
  last_sequence (handle_adxl345_data self m) = extend_sequence (last_sequence self) (fst m).
Proof. reflexivity. Qed.

Lemma sequence_history_exact (blocks : list (Z * list byte)) :
  forall self : ADXL345 F,
    within_one_wrap (last_sequence self) (map fst blocks) ->
    sequence_history self (map observe blocks) = map fst blocks.
Proof.
  induction blocks as [| b rest IH]; intros self Hw; [reflexivity|].
  destruct Hw as [Hb Hrest]. cbn [map sequence_history].
  rewrite last_sequence_handle. cbn [observe fst].
  rewrite extend_sequence_exact by assumption.
  f_equal. apply IH. rewrite last_sequence_handle. cbn [observe fst].
  rewrite extend_sequence_exact; assumption.
Qed.

Lemma handle_all_last_sequence (blocks : list (Z * list byte)) :
  forall self : ADXL345 F,
    within_one_wrap (last_sequence self) (map fst blocks) ->
    last_sequence (handle_all self (map observe blocks))
    = last (map fst blocks) (last_sequence self).
Proof.
  induction blocks as [| b rest IH]; intros self Hw; [reflexivity|].
  destruct Hw as [Hb Hrest]. unfold handle_all in *. cbn [map fold_left].
  rewrite IH; rewrite last_sequence_handle; cbn [observe fst];
    rewrite extend_sequence_exact by assumption; [|assumption].
  destruct rest as [| b' rest']; [reflexivity|].
  cbn [map]. symmetry. apply (last_cons_default (fst b') (map fst rest')).
Qed.

Lemma sequence_history_nondecreasing (msgs : list (Z * list byte)) :
  forall self : ADXL345 F,
    Forall (fun m => 0 <= fst m < 0x10000) msgs ->
    nondecreasing (last_sequence self) (sequence_history self msgs).
Proof.
  induction msgs as [| m rest IH]; intros self Hall; [exact I|].
  inversion Hall as [| ? ? Hm Hrest]; subst. cbn [sequence_history nondecreasing].
  split; [|apply IH; assumption].
  rewrite last_sequence_handle. apply extend_sequence_bounds. assumption.
Qed.

Lemma observe_u16 (blocks : list (Z * list byte)) :
  Forall (fun m => 0 <= fst m < 0x10000) (map observe blocks).
Proof.
  induction blocks as [| b rest IH]; constructor; [|assumption].
  cbn [observe fst]. apply Z.mod_pos_bound. lia.
Qed.

(** C1. For every sequence of true block counts in which consecutive counts
    are less than one wrap period (65536) apart, feeding the handler the
    16-bit observations of these counts makes [last_sequence] equal to the
    true count after every message, so the extended counter is
    non-decreasing along the session; for every 16-bit observation
    whatsoever one extension step never lowers [last_sequence], and
    [_convert_sequence] computes the same extension. *)
Theorem sequence_extension_recovers_count :
  forall (self : ADXL345 F) (blocks : list (Z * list byte)),
    within_one_wrap (last_sequence self) (map fst blocks) ->
    sequence_history self (map observe blocks) = map fst blocks
    /\ last_sequence (handle_all self (map observe blocks))
       = last (map fst blocks) (last_sequence self)
    /\ nondecreasing (last_sequence self) (sequence_history self (map observe blocks))
    /\ (forall (other : ADXL345 F) (m : Z * list byte),
          0 <= fst m < 0x10000 ->
          last_sequence other <= last_sequence (handle_adxl345_data other m)
          /\ convert_sequence other (fst m) = last_sequence (handle_adxl345_data other m)).
Proof.
  intros self blocks Hw. repeat split.
  - apply sequence_history_exact; assumption.
  - apply handle_all_last_sequence; assumption.
  - apply sequence_history_nondecreasing, observe_u16.
  - rewrite last_sequence_handle. apply extend_sequence_bounds. assumption.
Qed.

(** ** Raw-block buffer *)

Lemma raw_samples_handle (self : ADXL345 F) (m : Z * list byte) :
  raw_samples (handle_adxl345_data self m) =
    if Z.of_nat (length (raw_samples self)) >=? MAX_RAW_SAMPLES
    then raw_samples self
    else raw_samples self ++ [(extend_sequence (last_sequence self) (fst m), snd m)].
Proof. reflexivity. Qed.

Lemma handle_at_cap (self : ADXL345 F) (m : Z * list byte) :
  MAX_RAW_SAMPLES <= Z.of_nat (length (raw_samples self)) ->
  raw_samples (handle_adxl345_data self m) = raw_samples self.
Proof.
  intros Hfull. rewrite raw_samples_handle.
  destruct (Z.geb_spec (Z.of_nat (length (raw_samples self))) MAX_RAW_SAMPLES); [reflexivity | lia].
Qed.

Lemma handle_below_cap (self : ADXL345 F) (m : Z * list byte) :
  Z.of_nat (length (raw_samples self)) < MAX_RAW_SAMPLES ->
  raw_samples (handle_adxl345_data self m)
  = raw_samples self ++ [(extend_sequence (last_sequence self) (fst m), snd m)].
Proof.
  intros Hroom. rewrite raw_samples_handle.
  destruct (Z.geb_spec (Z.of_nat (length (raw_samples self))) MAX_RAW_SAMPLES); [lia | reflexivity].
Qed.

Lemma handle_all_at_cap (msgs : list (Z * list byte)) :
  forall self : ADXL345 F,
    MAX_RAW_SAMPLES <= Z.of_nat (length (raw_samples self)) ->
    raw_samples (handle_all self msgs) = raw_samples self.
Proof.
  induction msgs as [| m rest IH]; intros self Hfull; [reflexivity|].
  unfold handle_all in *. cbn [fold_left].
  rewrite IH; rewrite handle_at_cap by assumption; [reflexivity | assumption].
Qed.

Lemma handle_all_length (msgs : list (Z * list byte)) :
  forall self : ADXL345 F,
    Z.of_nat (length (raw_samples self)) <= MAX_RAW_SAMPLES ->
    Z.of_nat (length (raw_samples (handle_all self msgs)))
    = Z.min MAX_RAW_SAMPLES (Z.of_nat (length (raw_samples self)) + Z.of_nat (length msgs)).
Proof.
  induction msgs as [| m rest IH]; intros self Hle.
  - cbn [handle_all fold_left length]. lia.
  - unfold handle_all in *. cbn [fold_left length].
    destruct (Z.eq_dec (Z.of_nat (length (raw_samples self))) MAX_RAW_SAMPLES) as [Heq | Hne].
    + rewrite IH; rewrite handle_at_cap by lia; lia.
    + rewrite IH; rewrite handle_below_cap by lia; rewrite length_app; cbn [length]; lia.
Qed.

(** What the buffer holds after a session whose counts are recovered: the
    blocks themselves, up to the cap. *)
Lemma handle_all_buffer (blocks : list (Z * list byte)) :
  forall self : ADXL345 F,
    within_one_wrap (last_sequence self) (map fst blocks) ->
    Z.of_nat (length (raw_samples self)) <= MAX_RAW_SAMPLES ->
    raw_samples (handle_all self (map observe blocks))
    = raw_samples self
      ++ firstn (Z.to_nat (MAX_RAW_SAMPLES - Z.of_nat (length (raw_samples self)))) blocks.
Proof.
  induction blocks as [| b rest IH]; intros self Hw Hle.
  - cbn [map handle_all fold_left]. rewrite firstn_nil, app_nil_r. reflexivity.
  - destruct Hw as [Hb Hrest]. unfold handle_all in *. cbn [map fold_left].
    assert (Hseq : last_sequence (handle_adxl345_data self (observe b)) = fst b).
    { rewrite last_sequence_handle. cbn [observe fst]. apply extend_sequence_exact; assumption. }
    destruct (Z.eq_dec (Z.of_nat (length (raw_samples self))) MAX_RAW_SAMPLES) as [Heq | Hne].
    + rewrite IH; rewrite ?Hseq; rewrite ?handle_at_cap by lia; try assumption.
      replace (Z.to_nat (MAX_RAW_SAMPLES - Z.of_nat (length (raw_samples self)))) with 0%nat by lia.
      reflexivity.
    + rewrite IH; rewrite ?Hseq; rewrite ?handle_below_cap by lia; try assumption.
      * rewrite length_app. cbn [length observe fst snd].
        rewrite extend_sequence_exact by assumption.
        replace (Z.to_nat (MAX_RAW_SAMPLES - Z.of_nat (length (raw_samples self))))
          with (S (Z.to_nat (MAX_RAW_SAMPLES - Z.of_nat (length (raw_samples self) + 1)))) by lia.
        cbn [firstn]. rewrite <- app_assoc. cbn [app]. destruct b; reflexivity.
      * rewrite length_app. cbn [length]. lia.
Qed.

(** ** Drop accounting *)

Lemma fold_left_add_acc (l : list Z) :
  forall a, fold_left Z.add l a = a + fold_left Z.add l 0.
Proof.
  induction l as [| x l IH]; intro a; cbn [fold_left]; [lia|].
  rewrite (IH (a + x)), (IH (0 + x)). lia.
Qed.

Lemma received_count_cons (b : RawBlock) (raw : list RawBlock) :
  received_count (b :: raw) = sample_count (snd b) + received_count raw.
Proof.
  unfold received_count. cbn [map fold_left]. rewrite fold_left_add_acc. lia.
Qed.

Lemma received_count_app (l1 l2 : list RawBlock) :
  received_count (l1 ++ l2) = received_count l1 + received_count l2.
Proof.
  induction l1 as [| b l1 IH]; [reflexivity|].
  cbn [app]. rewrite !received_count_cons, IH. lia.
Qed.

Lemma sample_count_nonneg (data : list byte) : 0 <= sample_count data.
Proof. unfold sample_count. apply Z.div_pos; lia. Qed.

Lemma received_count_nonneg (raw : list RawBlock) : 0 <= received_count raw.
Proof.
  induction raw as [| b raw IH]; [reflexivity|].
  rewrite received_count_cons. pose proof (sample_count_nonneg (snd b)). lia.
Qed.

Lemma last_default {A : Type} (l : list A) (d d' : A) :
  l <> [] -> last l d = last l d'.
Proof.
  induction l as [| x l IH]; intro Hne; [congruence|].
  destruct l as [| y l']; [reflexivity|].
  change (last (x :: y :: l') d) with (last (y :: l') d).
  change (last (x :: y :: l') d') with (last (y :: l') d').
  apply IH. discriminate.
Qed.

(** Blocks in sequence order hold no more samples than their numbers
    leave room for. *)
Lemma ordered_from_received (raw : list RawBlock) :
  forall (lo : Z) (d : RawBlock),
    raw <> [] ->
    ordered_from lo raw = true ->
    lo <= fst (last raw d)
    /\ received_count raw <= 8 * (fst (last raw d) - lo) + sample_count (snd (last raw d)).
Proof.
  induction raw as [| [sequence data] rest IH]; intros lo d Hne Hord; [congruence|].
  cbn [ordered_from] in Hord.
  apply andb_true_iff in Hord as [Hord Hrest].
  apply andb_true_iff in Hord as [Hlo Hfull].
  apply Z.leb_le in Hlo. apply Z.leb_le in Hfull.
  destruct rest as [| b' rest'].
  - cbn [last fst snd]. rewrite received_count_cons. cbn [snd].
    change (received_count []) with 0. lia.
  - change (last ((sequence, data) :: b' :: rest') d) with (last (b' :: rest') d).
    rewrite received_count_cons. cbn [snd].
    destruct (IH (sequence + 1) d ltac:(discriminate) Hrest) as [Hlast Hcount].
    lia.
Qed.

Lemma well_formed_received (raw : list RawBlock) (end_sequence : Z) :
  raw <> [] ->
  well_formed_session raw end_sequence = true ->
  received_count raw <= expected_count raw end_sequence
  /\ 0 <= expected_count raw end_sequence.
Proof.
  intros Hne Hwf. unfold well_formed_session in Hwf.
  apply andb_true_iff in Hwf as [Hord Hend]. apply Z.ltb_lt in Hend.
  rewrite (@last_default RawBlock raw (-1, []) (0, []) Hne) in Hend.
  destruct (@ordered_from_received raw 0 (0, []) Hne Hord) as [Hlo Hcount].
  unfold expected_count.
  pose proof (sample_count_nonneg (snd (last raw (0, [])))).
  pose proof (received_count_nonneg raw). lia.
Qed.

(** C2. For every well-formed finished session (blocks in sequence order
    with at most eight samples each, final sequence number beyond the last
    received block), the drop count that [setup_data] computes is greater
    than or equal to zero; when the session is not empty and its expected
    total is not zero, [setup_data] returns and the drop count is
    [total_count - actual_count], with [total_count = (end_sequence - 1) * 8
    + len(last payload) // 6] and [actual_count] the sum of
    [len(payload) // 6] over the buffered blocks. *)
Theorem drops_nonnegative :
  forall (axes : AxesMap F) (raw : list RawBlock) (end_sequence overflows_ : Z)
         (start1_time start2_time_ end1_time end2_time : F),
    well_formed_session raw end_sequence = true ->
    let out := setup_data axes raw end_sequence overflows_
                 start1_time start2_time_ end1_time end2_time ADXL345Results_init in
    0 <= drops (snd out)
    /\ (raw <> [] -> end_sequence <> 0 -> expected_count raw end_sequence <> 0 ->
        fst out = Ok tt
        /\ total_count (snd out) = Some (expected_count raw end_sequence)
        /\ drops (snd out) = expected_count raw end_sequence - received_count raw).
Proof.
  intros axes raw end_sequence overflows_ s1 s2 e1 e2 Hwf. cbv zeta.
  unfold setup_data.
  destruct raw as [| b rest]; [split; [cbn; lia | congruence]|].
  destruct (@well_formed_received (b :: rest) end_sequence ltac:(discriminate) Hwf)
    as [Hle Hpos].
  destruct (Z.eqb_spec end_sequence 0) as [Hz | Hnz]; [split; [cbn; lia | congruence]|].
  destruct (Z.eqb_spec (expected_count (b :: rest) end_sequence) 0) as [Ht | Ht].
  - split; [cbn; lia | congruence].
  - cbn [fst snd drops total_count]. split; [lia|]. intros _ _ _. repeat split.
Qed.

(** ** A session of full blocks *)

Lemma combine_fst {A B : Type} (l1 : list A) :
  forall l2 : list B, length l1 = length l2 -> map fst (combine l1 l2) = l1.
Proof.
  induction l1 as [| a l1 IH]; intros [| b l2] Hlen; try discriminate; [reflexivity|].
  cbn [combine map fst]. f_equal. apply IH. injection Hlen as Hlen. exact Hlen.
Qed.

Lemma combine_snd {A B : Type} (l1 : list A) :
  forall l2 : list B, length l1 = length l2 -> map snd (combine l1 l2) = l2.
Proof.
  induction l1 as [| a l1 IH]; intros [| b l2] Hlen; try discriminate; [reflexivity|].
  cbn [combine map snd]. f_equal. apply IH. injection Hlen as Hlen. exact Hlen.
Qed.

Lemma numbered_fst (payloads : list (list byte)) :
  map fst (numbered payloads) = map Z.of_nat (seq 0 (length payloads)).
Proof.
  unfold numbered. apply combine_fst. rewrite length_map, length_seq. reflexivity.
Qed.

Lemma numbered_snd (payloads : list (list byte)) :
  map snd (numbered payloads) = payloads.
Proof.
  unfold numbered. apply combine_snd. rewrite length_map, length_seq. reflexivity.
Qed.

Lemma numbered_length (payloads : list (list byte)) :
  length (numbered payloads) = length payloads.
Proof.
  unfold numbered. rewrite length_combine, length_map, length_seq. apply Nat.min_id.
Qed.

Lemma within_one_wrap_seq (n : nat) :
  forall (k : nat) (prev : Z),
    prev <= Z.of_nat k < prev + 0x10000 ->
    within_one_wrap prev (map Z.of_nat (seq k n)).
Proof.
  induction n as [| n IH]; intros k prev Hk; [exact I|].
  cbn [seq map within_one_wrap]. split; [assumption|]. apply IH. lia.
Qed.

Lemma last_seq (n k : nat) (d : Z) :
  last (map Z.of_nat (seq k (S n))) d = Z.of_nat (k + n).
Proof.
  rewrite seq_S, map_app. cbn [map]. apply last_last.
Qed.

Lemma Forall_last {A : Type} (P : A -> Prop) (l : list A) (d : A) :
  l <> [] -> Forall P l -> P (last l d).
Proof.
  induction l as [| x l IH]; intros Hne Hall; [congruence|].
  inversion Hall as [| ? ? Hx Hl]; subst.
  destruct l as [| y l']; [exact Hx|].
  change (last (x :: y :: l') d) with (last (y :: l') d). apply IH; [discriminate | exact Hl].
Qed.

Lemma Forall_firstn_of {A : Type} (P : A -> Prop) (k : nat) (l : list A) :
  Forall P l -> Forall P (firstn k l).
Proof.
  intro Hall. rewrite <- (firstn_skipn k l) in Hall.
  apply Forall_app in Hall. exact (proj1 Hall).
Qed.

Lemma received_count_full (raw : list RawBlock) :
  Forall (fun blk => sample_count (snd blk) = 8) raw ->
  received_count raw = 8 * Z.of_nat (length raw).
Proof.
  induction raw as [| b raw IH]; intro Hall; [reflexivity|].
  inversion Hall as [| ? ? Hb Hraw]; subst.
  rewrite received_count_cons, Hb, IH by assumption. cbn [length]. lia.
Qed.

Lemma numbered_full (payloads : list (list byte)) :
  Forall (fun d => length d = 48%nat) payloads ->
  Forall (fun blk : RawBlock => sample_count (snd blk) = 8) (numbered payloads).
Proof.
  intro Hall. apply Forall_map with (f := snd) (P := fun d => sample_count d = 8).
  rewrite numbered_snd.
  eapply Forall_impl; [|exact Hall]. intros d Hd. unfold sample_count. rewrite Hd. reflexivity.
Qed.

(** A session of [n] full blocks numbered from 0, received from a fresh
    start and closed by the firmware's final sequence number [n]: the
    drop count is eight samples for every block the cap discarded. *)
Lemma capped_session_drops (self : ADXL345 F) (payloads : list (list byte))
    (axes : AxesMap F) (overflows_ : Z) (s1 s2 e1 e2 : F) :
  raw_samples self = [] -> last_sequence self = 0 ->
  payloads <> [] -> Forall (fun d => length d = 48%nat) payloads ->
  let n := Z.of_nat (length payloads) in
  let self' := handle_all self (map observe (numbered payloads)) in
  let out := setup_data axes (raw_samples self') (convert_sequence self' (n mod 0x10000))
               overflows_ s1 s2 e1 e2 ADXL345Results_init in
  fst out = Ok tt
  /\ drops (snd out) = 8 * (n - Z.of_nat (length (raw_samples self'))).
Proof.
  intros Hraw Hlast Hne Hfull n self' out.
  assert (Hn : exists n', length payloads = S n').
  { destruct payloads; [congruence | eexists; reflexivity]. }
  destruct Hn as [n' Hn'].
  assert (Hwrap : within_one_wrap (last_sequence self) (map fst (numbered payloads))).
  { rewrite numbered_fst, Hlast. apply within_one_wrap_seq. cbn. lia. }
  assert (Hseq : last_sequence self' = n - 1).
  { subst self'. rewrite handle_all_last_sequence by assumption.
    rewrite numbered_fst, Hn', last_seq. subst n. rewrite Hn'. lia. }
  assert (Hbuf : raw_samples self' = firstn (Z.to_nat MAX_RAW_SAMPLES) (numbered payloads)).
  { subst self'.
    rewrite handle_all_buffer
      by first [assumption | rewrite Hraw; unfold MAX_RAW_SAMPLES; cbn; lia].
    rewrite Hraw. cbn [app length]. f_equal. }
  assert (Hend : convert_sequence self' (n mod 0x10000) = n).
  { unfold convert_sequence. rewrite Hseq. apply extend_sequence_exact. lia. }
  assert (Hfull' : Forall (fun blk : RawBlock => sample_count (snd blk) = 8) (raw_samples self')).
  { rewrite Hbuf. apply Forall_firstn_of, numbered_full. assumption. }
  assert (Hne' : raw_samples self' <> []).
  { rewrite Hbuf. intro Hnil. apply (f_equal (@length RawBlock)) in Hnil.
    rewrite length_firstn, numbered_length, Hn' in Hnil. cbn in Hnil.
    unfold MAX_RAW_SAMPLES in Hnil. lia. }
  assert (Htotal : expected_count (raw_samples self') n = 8 * n).
  { unfold expected_count.
    rewrite (Forall_last (P := fun blk : RawBlock => sample_count (snd blk) = 8) (0, []) Hne' Hfull').
    lia. }
  subst out. rewrite Hend. unfold setup_data.
  destruct (raw_samples self') as [| b rest] eqn:Hrs; [congruence|].
  destruct (Z.eqb_spec n 0) as [Hz | Hnz]; [subst n; lia|].
  rewrite Htotal.
  destruct (Z.eqb_spec (8 * n) 0) as [Hz | _]; [lia|].
  cbn [fst snd drops]. split; [reflexivity|].
  rewrite (received_count_full Hfull'). lia.
Qed.

(** C3. The raw-block buffer never holds more than 300000 blocks: from a
    buffer within the cap, any sequence of appends leaves
    [min(300000, length + appends)] blocks; an append when the buffer
    holds at least 300000 blocks returns normally with the buffer
    unchanged while [last_sequence] still advances, so appending beyond
    the cap leaves the buffer at exactly the cap; and the loss shows in the
    drop count: a session of full blocks numbered from 0 reports eight
    dropped samples for every discarded block. *)
Theorem raw_buffer_capped :
  forall (self : ADXL345 F) (msgs : list (Z * list byte)),
    Z.of_nat (length (raw_samples self)) <= MAX_RAW_SAMPLES ->
    Z.of_nat (length (raw_samples (handle_all self msgs)))
      = Z.min MAX_RAW_SAMPLES (Z.of_nat (length (raw_samples self)) + Z.of_nat (length msgs))
    /\ Z.of_nat (length (raw_samples (handle_all self msgs))) <= MAX_RAW_SAMPLES
    /\ (forall (other : ADXL345 F) (m : Z * list byte),
          MAX_RAW_SAMPLES <= Z.of_nat (length (raw_samples other)) ->
          raw_samples (handle_adxl345_data other m) = raw_samples other
          /\ last_sequence (handle_adxl345_data other m)
             = extend_sequence (last_sequence other) (fst m))
    /\ (Z.of_nat (length (raw_samples self)) = MAX_RAW_SAMPLES ->
        raw_samples (handle_all self msgs) = raw_samples self)
    /\ (forall (payloads : list (list byte)) (axes : AxesMap F) (overflows_ : Z)
               (s1 s2 e1 e2 : F),
          raw_samples self = [] -> last_sequence self = 0 ->
          payloads <> [] -> Forall (fun d => length d = 48%nat) payloads ->
          let n := Z.of_nat (length payloads) in
          let self' := handle_all self (map observe (numbered payloads)) in
          let out := setup_data axes (raw_samples self')
                       (convert_sequence self' (n mod 0x10000))
                       overflows_ s1 s2 e1 e2 ADXL345Results_init in
          fst out = Ok tt
          /\ drops (snd out) = 8 * (n - Z.of_nat (length (raw_samples self')))).
Proof.
  intros self msgs Hle.
  pose proof (handle_all_length msgs self Hle) as Hlen.
  split; [exact Hlen|]. split; [lia|]. split; [|split].
  - intros other m Hfull. split; [apply handle_at_cap; assumption | reflexivity].
  - intro Hfull. apply handle_all_at_cap. lia.
  - intros. apply capped_session_drops; assumption.
Qed.

(** ** Interval-mode decoder *)

Lemma sdata_of_length_aux (d : list byte) :
  length (sdata_of d) = Nat.div2 (length d)
  /\ forall b, length (sdata_of (b :: d)) = Nat.div2 (length (b :: d)).
Proof.
  induction d as [| b' d [IH1 IH2]].
  - split; [reflexivity | intro; reflexivity].
  - split; [apply IH2|]. intro b. cbn [sdata_of length Nat.div2]. rewrite IH1. reflexivity.
Qed.

Lemma sdata_of_length (d : list byte) :
  Z.of_nat (length (sdata_of d)) = Z.of_nat (length d) / 2.
Proof.
  rewrite (proj1 (sdata_of_length_aux d)), Nat.div2_div, Nat2Z.inj_div. reflexivity.
Qed.

Lemma getitem_nth {A : Type} (l : list A) (i : Z) (d : A) :
  0 <= i < Z.of_nat (length l) -> getitem l i = Ok (nth (Z.to_nat i) l d).
Proof.
  intro Hi. unfold getitem.
  rewrite (nth_error_nth' l d) by lia. reflexivity.
Qed.

Lemma setitem_next {A : Type} (xs : list A) (hole v : A) (ys : list A) :
  setitem (xs ++ hole :: ys) (length xs) v = Ok (xs ++ v :: ys).
Proof.
  induction xs as [| x xs IH]; [reflexivity|].
  cbn [app length setitem]. rewrite IH. reflexivity.
Qed.

Lemma in_range (n i : Z) : In i (range n) -> 0 <= i < n.
Proof.
  unfold range. rewrite in_map_iff. intros [k [Hk Hin]].
  apply in_seq in Hin. lia.
Qed.

Lemma range_length (n : Z) : length (range n) = Z.to_nat n.
Proof. unfold range. rewrite length_map, length_seq. reflexivity. Qed.

(** Every index the inner loop reads is a position of [sdata]. *)
Lemma group_in_sdata (data : list byte) (i : Z) (p : axis_pos) :
  0 <= i < sample_count data ->
  0 <= i * 3 + Z.of_nat (pos_index p) < Z.of_nat (length (sdata_of data)).
Proof.
  unfold sample_count. intro Hi. rewrite sdata_of_length.
  assert (Z.of_nat (pos_index p) <= 2) by (destruct p; cbn; lia).
  assert (0 <= Z.of_nat (pos_index p)) by lia.
  Z.to_euclidean_division_equations. lia.
Qed.

Lemma decode_sample_next (axes : AxesMap F) (tps seq_time : F) (data : list byte)
    (i : Z) (pre : list (Accel_Measurement F)) (m : nat) :
  0 <= i < sample_count data ->
  decode_sample axes tps seq_time (sdata_of data) i
    (map Some pre ++ repeat None (S m), Z.of_nat (length pre))
  = (Ok tt,
     (map Some (pre ++ [sample_of axes tps seq_time (sdata_of data) i]) ++ repeat None m,
      Z.of_nat (length (pre ++ [sample_of axes tps seq_time (sdata_of data) i])))).
Proof.
  intro Hi. destruct axes as [[[xp xs] [yp ys]] [zp zs]].
  unfold decode_sample, sample_of, bind, lift, get, put.
  rewrite !(getitem_nth _ 0) by (apply group_in_sdata; assumption).
  cbn [fst snd]. rewrite Nat2Z.id.
  rewrite <- (length_map Some pre). cbn [repeat]. rewrite setitem_next.
  rewrite map_app, <- app_assoc, !length_app, length_map. cbn [map app length].
  repeat f_equal. lia.
Qed.

Lemma for_each_decode_sample (axes : AxesMap F) (tps seq_time : F) (data : list byte)
    (idx : list Z) :
  forall (pre : list (Accel_Measurement F)) (m : nat),
    (forall i, In i idx -> 0 <= i < sample_count data) ->
    (length idx <= m)%nat ->
    for_each idx (decode_sample axes tps seq_time (sdata_of data))
      (map Some pre ++ repeat None m, Z.of_nat (length pre))
    = (Ok tt,
       (map Some (pre ++ map (sample_of axes tps seq_time (sdata_of data)) idx)
          ++ repeat None (m - length idx),
        Z.of_nat (length (pre ++ map (sample_of axes tps seq_time (sdata_of data)) idx)))).
Proof.
  induction idx as [| i idx IH]; intros pre m Hin Hlen.
  - cbn [for_each map length]. rewrite app_nil_r, Nat.sub_0_r. reflexivity.
  - cbn [length] in Hlen. destruct m as [| m]; [lia|].
    cbn [for_each]. unfold bind at 1.
    rewrite decode_sample_next by (apply Hin; left; reflexivity).
    rewrite IH by (try (intros; apply Hin; right; assumption); lia).
    cbn [map length]. rewrite <- app_assoc. reflexivity.
Qed.

Lemma decoded_block_length (axes : AxesMap F) (start2 s2t tps : F) (blk : RawBlock) :
  Z.of_nat (length (decoded_block axes start2 s2t tps blk)) = sample_count (snd blk).
Proof.
  unfold decoded_block. rewrite length_map, range_length.
  pose proof (sample_count_nonneg (snd blk)). lia.
Qed.

Lemma decoded_length (axes : AxesMap F) (start2 s2t tps : F) (raw : list RawBlock) :
  Z.of_nat (length (decoded axes start2 s2t tps raw)) = received_count raw.
Proof.
  induction raw as [| blk raw IH]; [reflexivity|].
  unfold decoded in *. cbn [flat_map]. rewrite length_app, Nat2Z.inj_add, IH.
  rewrite decoded_block_length, received_count_cons. reflexivity.
Qed.

Lemma for_each_decode_block (axes : AxesMap F) (start2 s2t tps : F) (raw : list RawBlock) :
  forall (pre : list (Accel_Measurement F)) (m : nat),
    (length (decoded axes start2 s2t tps raw) <= m)%nat ->
    for_each raw (decode_block axes start2 s2t tps)
      (map Some pre ++ repeat None m, Z.of_nat (length pre))
    = (Ok tt,
       (map Some (pre ++ decoded axes start2 s2t tps raw)
          ++ repeat None (m - length (decoded axes start2 s2t tps raw)),
        Z.of_nat (length (pre ++ decoded axes start2 s2t tps raw)))).
Proof.
  induction raw as [| [sequence data] raw IH]; intros pre m Hlen.
  - cbn [for_each decoded flat_map length]. rewrite app_nil_r, Nat.sub_0_r. reflexivity.
  - unfold decoded in *. cbn [flat_map] in *. rewrite length_app in Hlen.
    cbn [for_each]. unfold bind at 1. unfold decode_block at 1.
    pose proof (range_length (sample_count data)) as Hrange.
    assert (Hblk : length (decoded_block axes start2 s2t tps (sequence, data))
                   = length (range (sample_count data))).
    { unfold decoded_block. rewrite length_map. reflexivity. }
    fold (sample_count data).
    rewrite for_each_decode_sample by (try apply in_range; lia).
    fold (decoded_block axes start2 s2t tps (sequence, data)).
    rewrite IH by lia.
    rewrite <- app_assoc.
    replace (m - length (range (sample_count data))
               - length (flat_map (decoded_block axes start2 s2t tps) raw))%nat
      with (m - length (decoded_block axes start2 s2t tps (sequence, data)
                          ++ flat_map (decoded_block axes start2 s2t tps) raw))%nat
      by (rewrite length_app; lia).
    reflexivity.
Qed.

Lemma setitem_full {A : Type} (xs : list A) (v : A) :
  setitem xs (length xs) v = Raise IndexError.
Proof.
  induction xs as [| x xs IH]; [reflexivity|].
  cbn [length setitem]. rewrite IH. reflexivity.
Qed.

Lemma decode_sample_full (axes : AxesMap F) (tps seq_time : F) (data : list byte)
    (i : Z) (pre : list (Accel_Measurement F)) :
  0 <= i < sample_count data ->
  fst (decode_sample axes tps seq_time (sdata_of data) i
         (map Some pre ++ repeat None 0, Z.of_nat (length pre)))
  = Raise IndexError.
Proof.
  intro Hi. destruct axes as [[[xp xs] [yp ys]] [zp zs]].
  unfold decode_sample, bind, lift, get, put.
  rewrite !(getitem_nth _ 0) by (apply group_in_sdata; assumption).
  cbn [fst snd repeat]. rewrite Nat2Z.id, app_nil_r.
  rewrite <- (length_map Some pre), setitem_full. reflexivity.
Qed.

Lemma for_each_decode_sample_full (axes : AxesMap F) (tps seq_time : F) (data : list byte)
    (idx : list Z) :
  forall (pre : list (Accel_Measurement F)) (m : nat),
    (forall i, In i idx -> 0 <= i < sample_count data) ->
    (m < length idx)%nat ->
    fst (for_each idx (decode_sample axes tps seq_time (sdata_of data))
           (map Some pre ++ repeat None m, Z.of_nat (length pre)))
    = Raise IndexError.
Proof.
  induction idx as [| i idx IH]; intros pre m Hin Hlen; [cbn in Hlen; lia|].
  cbn [length] in Hlen. cbn [for_each]. unfold bind at 1.
  destruct m as [| m].
  - pose proof (@decode_sample_full axes tps seq_time data i pre
                  (Hin i (or_introl eq_refl))) as Hfull.
    destruct (decode_sample axes tps seq_time (sdata_of data) i
                (map Some pre ++ repeat None 0, Z.of_nat (length pre))) as [[u | e] st];
      cbn [fst] in Hfull; [discriminate | cbn [fst]; congruence].
  - rewrite decode_sample_next by (apply Hin; left; reflexivity).
    apply IH; [intros; apply Hin; right; assumption | lia].
Qed.

Lemma for_each_decode_block_full (axes : AxesMap F) (start2 s2t tps : F)
    (raw : list RawBlock) :
  forall (pre : list (Accel_Measurement F)) (m : nat),
    (m < length (decoded axes start2 s2t tps raw))%nat ->
    fst (for_each raw (decode_block axes start2 s2t tps)
           (map Some pre ++ repeat None m, Z.of_nat (length pre)))
    = Raise IndexError.
Proof.
  induction raw as [| [sequence data] raw IH]; intros pre m Hlen; [cbn in Hlen; lia|].
  unfold decoded in *. cbn [flat_map] in Hlen. rewrite length_app in Hlen.
  cbn [for_each]. unfold bind at 1. unfold decode_block at 1.
  assert (Hblk : length (decoded_block axes start2 s2t tps (sequence, data))
                 = length (range (sample_count data))).
  { unfold decoded_block. rewrite length_map. reflexivity. }
  fold (sample_count data).
  destruct (Nat.le_gt_cases (length (range (sample_count data))) m) as [Hfit | Hover].
  - rewrite for_each_decode_sample by (try apply in_range; lia).
    apply IH. lia.
  - pose proof (@for_each_decode_sample_full axes tps
                  (fadd start2 (fmul (of_int sequence) s2t)) data
                  (range (sample_count data)) pre m (@in_range (sample_count data)) Hover)
      as Hfull.
    destruct (for_each (range (sample_count data))
                (decode_sample axes tps (fadd start2 (fmul (of_int sequence) s2t))
                   (sdata_of data))
                (map Some pre ++ repeat None m, Z.of_nat (length pre))) as [[u | e] st];
      cbn [fst] in Hfull; [discriminate | cbn [fst]; congruence].
Qed.

(** C10. For every session result whose buffered blocks hold in total at
    most [total_count] samples, [decode_samples] returns normally, so every
    write into the preallocated list was in bounds; the list it returns and
    stores is exactly the measurements of the received samples, its length
    is the sum over the blocks of [len(payload) // 6], and it has no
    [None] entry.  The bound is what keeps the out-of-bounds write away:
    with more samples than [total_count], [decode_samples] raises
    [IndexError]. *)
Theorem decode_samples_in_bounds :
  forall (self : ADXL345Results F) (raw : list RawBlock) (axes : AxesMap F)
         (total : Z) (start2 s2t : F),
    res_raw_samples self = Some raw -> raw <> [] ->
    res_axes_map self = Some axes -> total_count self = Some total ->
    start2_time self = Some start2 -> seq_to_time self = Some s2t ->
    let l := decoded axes start2 s2t (time_per_sample self) raw in
    (received_count raw <= total ->
     fst (decode_samples self) = Ok (map Some l)
     /\ samples (snd (decode_samples self)) = map Some l
     /\ Z.of_nat (length (map Some l)) = received_count raw
     /\ ~ In None (map Some l))
    /\ (0 <= total < received_count raw ->
        fst (decode_samples self) = Raise IndexError).
Proof.
  intros self raw axes total start2 s2t Hraw Hne Haxes Htotal Hstart Hs2t l.
  unfold decode_samples. rewrite Hraw, Haxes, Htotal, Hstart, Hs2t.
  destruct raw as [| b rest]; [congruence|].
  pose proof (decoded_length axes start2 s2t (time_per_sample self) (b :: rest)) as Hlen.
  fold l in Hlen.
  split.
  - intro Hfit.
    assert (Hl : (length l <= Z.to_nat total)%nat) by (clearbody l; lia).
    pose proof (@for_each_decode_block axes start2 s2t (time_per_sample self) (b :: rest)
                  [] (Z.to_nat total) Hl) as Hloop.
    cbn [map app length] in Hloop. change (Z.of_nat 0) with 0 in Hloop.
    rewrite Hloop. fold l. cbn [fst snd samples set_samples].
    rewrite Nat2Z.id, <- (length_map Some l), firstn_app, firstn_all, Nat.sub_diag.
    cbn [firstn]. rewrite app_nil_r, length_map.
    repeat split; try assumption.
    rewrite in_map_iff. intros [x [Hx _]]. discriminate.
  - intro Hover.
    assert (Hl : (Z.to_nat total < length l)%nat) by (clearbody l; lia).
    pose proof (@for_each_decode_block_full axes start2 s2t (time_per_sample self)
                  (b :: rest) [] (Z.to_nat total) Hl) as Hloop.
    cbn [map app length] in Hloop. change (Z.of_nat 0) with 0 in Hloop.
    destruct (for_each (b :: rest) (decode_block axes start2 s2t (time_per_sample self))
                (repeat None (Z.to_nat total), 0)) as [[u | e] [filled k]];
      cbn [fst] in Hloop; [discriminate | cbn [fst]; congruence].
Qed.


Lemma setup_data_ok (axes : AxesMap F) (raw : list RawBlock) (end_sequence overflows_ : Z)
    (s1 s2 e1 e2 : F) (self : ADXL345Results F) :
  raw <> [] -> end_sequence <> 0 -> expected_count raw end_sequence <> 0 ->
  setup_data axes raw end_sequence overflows_ s1 s2 e1 e2 self
  = (Ok tt,
     {| res_raw_samples := Some raw;
        samples := samples self;
        drops := expected_count raw end_sequence - received_count raw;
        overflows := overflows_;
        time_per_sample := fdiv (fsub e2 s2) (of_int (expected_count raw end_sequence));
        start_range := fsub s2 s1;
        end_range := fsub e2 e1;
        res_axes_map := Some axes;
        start2_time := Some s2;
        total_count := Some (expected_count raw end_sequence);
        seq_to_time :=
          Some (fmul (fdiv (fsub e2 s2) (of_int (expected_count raw end_sequence)))
                     (of_dec 8)) |}).
Proof.
  intros Hne Hend Htotal. unfold setup_data.
  destruct raw as [| b rest]; [congruence|].
  destruct (Z.eqb_spec end_sequence 0); [congruence|].
  destruct (Z.eqb_spec (expected_count (b :: rest) end_sequence) 0); [congruence|].
  reflexivity.
Qed.


End DriverProofs.

(** ** Sorted lists *)





(** ** Interval-mode timestamps *)

Section StampProofs.

Context {F : Type} `{Float F}.


End StampProofs.




(** ** Regression-mode decoder *)

Module LIS2DWProofs.

Import LIS2DW.

Section ExtractProofs.

Context {F : Type} `{Float F}.

Abbreviation Axes := ((axis_pos * F) * (axis_pos * F) * (axis_pos * F))%type.

Lemma firstn_skipn_group (k : nat) :
  forall d : list byte,
    (k + 6 <= length d)%nat ->
    firstn 6 (skipn k d)
    = [byte_at d k; byte_at d (k + 1); byte_at d (k + 2);
       byte_at d (k + 3); byte_at d (k + 4); byte_at d (k + 5)].
Proof.
  unfold byte_at. induction k as [| k IH]; intros d Hlen.
  - do 6 (destruct d as [| ? d]; [cbn in Hlen; lia|]). reflexivity.
  - destruct d as [| b d]; [cbn in Hlen; lia|].
    cbn [length] in Hlen. cbn [skipn]. rewrite IH by lia. reflexivity.
Qed.

Lemma group_slice (d : list byte) (i_ : Z) :
  0 <= i_ < sample_count d ->
  firstn (Z.to_nat ((i_ + 1) * BYTES_PER_SAMPLE) - Z.to_nat (i_ * BYTES_PER_SAMPLE))
         (skipn (Z.to_nat (i_ * BYTES_PER_SAMPLE)) d)
  = let k := Z.to_nat (i_ * BYTES_PER_SAMPLE) in
    [byte_at d k; byte_at d (k + 1); byte_at d (k + 2);
     byte_at d (k + 3); byte_at d (k + 4); byte_at d (k + 5)].
Proof.
  unfold sample_count, BYTES_PER_SAMPLE. intro Hi. cbv zeta.
  replace (Z.to_nat ((i_ + 1) * 6) - Z.to_nat (i_ * 6))%nat with 6%nat by lia.
  apply firstn_skipn_group.
  assert (6 * (i_ + 1) <= Z.of_nat (length d)) by (Z.to_euclidean_division_equations; lia).
  lia.
Qed.

Lemma extract_sample_next (axes : Axes) (tr : TimeTranslation F) (d : list byte)
    (msg_cdiff : F) (i_ : Z) (pre : list (Sample F)) (m : nat) (seq0 : Z) (i0 : option Z) :
  0 <= i_ < sample_count d ->
  extract_sample axes tr d msg_cdiff i_
    {| samples := map Some pre ++ repeat None (S m);
       count := Z.of_nat (length pre); seq := seq0; i := i0 |}
  = (Ok tt,
     {| samples := map Some (pre ++ [published_sample axes tr d msg_cdiff i_])
                     ++ repeat None m;
        count := Z.of_nat (length (pre ++ [published_sample axes tr d msg_cdiff i_]));
        seq := seq0; i := Some i_ |}).
Proof.
  intro Hi. destruct axes as [[[xp xs] [yp ys]] [zp zs]].
  unfold extract_sample, published_sample, raw_xyz_at.
  rewrite group_slice by assumption. cbv zeta. cbn [samples count seq i].
  rewrite Nat2Z.id, <- (length_map Some pre). cbn [repeat]. rewrite setitem_next.
  rewrite map_app, <- app_assoc, !length_app, length_map. cbn [map app length].
  repeat f_equal. lia.
Qed.

Lemma extract_sample_full (axes : Axes) (tr : TimeTranslation F) (d : list byte)
    (msg_cdiff : F) (i_ : Z) (pre : list (Sample F)) (seq0 : Z) (i0 : option Z) :
  0 <= i_ < sample_count d ->
  fst (extract_sample axes tr d msg_cdiff i_
         {| samples := map Some pre ++ repeat None 0;
            count := Z.of_nat (length pre); seq := seq0; i := i0 |})
  = Raise IndexError.
Proof.
  intro Hi. destruct axes as [[[xp xs] [yp ys]] [zp zs]].
  unfold extract_sample.
  rewrite group_slice by assumption. cbv zeta. cbn [samples count seq i repeat].
  rewrite Nat2Z.id, app_nil_r, <- (length_map Some pre), setitem_full. reflexivity.
Qed.

Lemma for_each_extract_sample (axes : Axes) (tr : TimeTranslation F) (d : list byte)
    (msg_cdiff : F) (idx : list Z) :
  forall (pre : list (Sample F)) (m : nat) (seq0 : Z) (i0 : option Z),
    (forall j, In j idx -> 0 <= j < sample_count d) ->
    (length idx <= m)%nat ->
    for_each idx (extract_sample axes tr d msg_cdiff)
      {| samples := map Some pre ++ repeat None m;
         count := Z.of_nat (length pre); seq := seq0; i := i0 |}
    = (Ok tt,
       {| samples := map Some (pre ++ map (published_sample axes tr d msg_cdiff) idx)
                       ++ repeat None (m - length idx);
          count := Z.of_nat (length (pre ++ map (published_sample axes tr d msg_cdiff) idx));
          seq := seq0;
          i := fold_left (fun _ j => Some j) idx i0 |}).
Proof.
  induction idx as [| j idx IH]; intros pre m seq0 i0 Hin Hlen.
  - cbn [for_each map length fold_left]. rewrite app_nil_r, Nat.sub_0_r. reflexivity.
  - cbn [length] in Hlen. destruct m as [| m]; [lia|].
    cbn [for_each fold_left]. unfold bind at 1.
    rewrite extract_sample_next by (apply Hin; left; reflexivity).
    rewrite IH by (try (intros; apply Hin; right; assumption); lia).
    cbn [map length]. rewrite <- app_assoc. reflexivity.
Qed.

Lemma for_each_extract_sample_full (axes : Axes) (tr : TimeTranslation F) (d : list byte)
    (msg_cdiff : F) (idx : list Z) :
  forall (pre : list (Sample F)) (m : nat) (seq0 : Z) (i0 : option Z),
    (forall j, In j idx -> 0 <= j < sample_count d) ->
    (m < length idx)%nat ->
    fst (for_each idx (extract_sample axes tr d msg_cdiff)
           {| samples := map Some pre ++ repeat None m;
              count := Z.of_nat (length pre); seq := seq0; i := i0 |})
    = Raise IndexError.
Proof.
  induction idx as [| j idx IH]; intros pre m seq0 i0 Hin Hlen; [cbn in Hlen; lia|].
  cbn [length] in Hlen. cbn [for_each]. unfold bind at 1.
  destruct m as [| m].
  - pose proof (@extract_sample_full axes tr d msg_cdiff j pre seq0 i0
                  (Hin j (or_introl eq_refl))) as Hfull.
    destruct (extract_sample axes tr d msg_cdiff j
                {| samples := map Some pre ++ repeat None 0;
                   count := Z.of_nat (length pre); seq := seq0; i := i0 |}) as [[u | e] st];
      cbn [fst] in Hfull; [discriminate | cbn [fst]; congruence].
  - rewrite extract_sample_next by (apply Hin; left; reflexivity).
    apply IH; [intros; apply Hin; right; assumption | lia].
Qed.

Lemma last_index (n : Z) (i0 : option Z) :
  fold_left (fun _ j => Some j) (range n) i0
  = if 0 <? n then Some (n - 1) else i0.
Proof.
  unfold range. destruct (Z.ltb_spec 0 n) as [Hpos | Hneg].
  - replace (Z.to_nat n) with (S (Z.to_nat (n - 1))) by lia.
    rewrite seq_S, map_app, fold_left_app. cbn [map fold_left]. f_equal. lia.
  - replace (Z.to_nat n) with 0%nat by lia. reflexivity.
Qed.

Lemma published_message_length (axes : Axes) (tr : TimeTranslation F) (last_sequence : Z)
    (params : Z * list byte) :
  length (published_message axes tr last_sequence params)
  = length (range (sample_count (snd params))).
Proof. unfold published_message. apply length_map. Qed.

Lemma for_each_extract_message (axes : Axes) (tr : TimeTranslation F) (last_sequence : Z)
    (raw : list (Z * list byte)) :
  forall (pre : list (Sample F)) (m : nat) (seq0 : Z) (i0 : option Z),
    (length (published axes tr last_sequence raw) <= m)%nat ->
    for_each raw (extract_message axes tr last_sequence)
      {| samples := map Some pre ++ repeat None m;
         count := Z.of_nat (length pre); seq := seq0; i := i0 |}
    = (Ok tt,
       {| samples := map Some (pre ++ published axes tr last_sequence raw)
                       ++ repeat None (m - length (published axes tr last_sequence raw));
          count := Z.of_nat (length (pre ++ published axes tr last_sequence raw));
          seq := final_seq last_sequence seq0 raw;
          i := final_i i0 raw |}).
Proof.
  induction raw as [| [sequence d] raw IH]; intros pre m seq0 i0 Hlen.
  - cbn [for_each published flat_map length final_seq final_i fold_left].
    rewrite app_nil_r, Nat.sub_0_r. reflexivity.
  - unfold published in *. cbn [flat_map] in *. rewrite length_app in Hlen.
    pose proof (published_message_length axes tr last_sequence (sequence, d)) as Hmsg.
    cbn [snd] in Hmsg.
    cbn [for_each]. unfold bind at 1. unfold extract_message at 1.
    cbn [fst snd samples count seq i]. unfold BYTES_PER_SAMPLE. fold (sample_count d).
    rewrite for_each_extract_sample by (try apply in_range; lia).
    rewrite last_index.
    fold (published_message axes tr last_sequence (sequence, d)).
    rewrite IH by lia.
    rewrite <- app_assoc.
    replace (m - length (range (sample_count d))
               - length (flat_map (published_message axes tr last_sequence) raw))%nat
      with (m - length (published_message axes tr last_sequence (sequence, d)
                          ++ flat_map (published_message axes tr last_sequence) raw))%nat
      by (rewrite length_app; lia).
    reflexivity.
Qed.

Lemma published_length (axes : Axes) (tr : TimeTranslation F) (last_sequence : Z)
    (raw : list (Z * list byte)) :
  Z.of_nat (length (published axes tr last_sequence raw)) = received_count raw.
Proof.
  induction raw as [| params raw IH]; [reflexivity|].
  unfold published in *. cbn [flat_map]. rewrite length_app, Nat2Z.inj_add, IH.
  rewrite published_message_length, range_length, received_count_cons.
  pose proof (sample_count_nonneg (snd params)). lia.
Qed.

Lemma received_count_capped (raw : list (Z * list byte)) :
  Forall (fun params => sample_count (snd params) <= SAMPLES_PER_BLOCK) raw ->
  received_count raw <= Z.of_nat (length raw) * SAMPLES_PER_BLOCK.
Proof.
  unfold SAMPLES_PER_BLOCK.
  induction raw as [| params raw IH]; intro Hall; [reflexivity|].
  inversion Hall as [| ? ? Hp Hraw]; subst.
  rewrite received_count_cons. cbn [length]. specialize (IH Hraw). lia.
Qed.

(** [i] is bound at the end when it was bound at the start or some
    message carries a complete group. *)
Lemma final_i_bound (raw : list (Z * list byte)) :
  forall i0 : option Z,
    (exists j, i0 = Some j)
    \/ Exists (fun params => 0 < sample_count (snd params)) raw ->
    exists i_, final_i i0 raw = Some i_.
Proof.
  induction raw as [| params raw IH]; intros i0 Hsrc.
  - destruct Hsrc as [Hi0 | Hex]; [exact Hi0 | inversion Hex].
  - unfold final_i in *. cbn [fold_left]. apply IH.
    destruct (Z.ltb_spec 0 (sample_count (snd params))) as [Hpos | Hzero].
    + left. eexists. reflexivity.
    + destruct Hsrc as [Hi0 | Hex]; [left; exact Hi0|].
      inversion Hex as [? ? Hhere | ? ? Hlater]; subst; [lia | right; exact Hlater].
Qed.

(** A batch without a complete group leaves [i] as it was and publishes
    nothing. *)
Lemma final_i_unbound (raw : list (Z * list byte)) :
  forall i0 : option Z,
    Forall (fun params => sample_count (snd params) = 0) raw ->
    final_i i0 raw = i0.
Proof.
  induction raw as [| params raw IH]; intros i0 Hall; [reflexivity|].
  inversion Hall as [| ? ? Hp Hraw]; subst.
  unfold final_i in *. cbn [fold_left]. rewrite Hp. cbn. apply IH. exact Hraw.
Qed.

Lemma published_nothing (axes : Axes) (tr : TimeTranslation F) (last_sequence : Z)
    (raw : list (Z * list byte)) :
  Forall (fun params => sample_count (snd params) = 0) raw ->
  published axes tr last_sequence raw = [].
Proof.
  induction raw as [| params raw IH]; intro Hall; [reflexivity|].
  inversion Hall as [| ? ? Hp Hraw]; subst.
  unfold published in *. cbn [flat_map]. rewrite IH by assumption.
  unfold published_message. rewrite Hp. reflexivity.
Qed.

(** A batch in which no message carries a complete 6-byte group: the
    loops end with [i] unbound and the call after them raises. *)
Lemma extract_samples_unbound (axes : Axes) (last_sequence : Z) (tr : TimeTranslation F)
    (raw : list (Z * list byte)) :
  Forall (fun params => sample_count (snd params) = 0) raw ->
  extract_samples axes last_sequence tr raw = Raise UnboundLocalError.
Proof.
  intro Hall. unfold extract_samples.
  pose proof (@for_each_extract_message axes tr last_sequence raw []
                (Z.to_nat (Z.of_nat (length raw) * SAMPLES_PER_BLOCK)) 0 None) as Hloop.
  rewrite (published_nothing axes tr last_sequence Hall) in Hloop.
  cbn [map app length] in Hloop. change (Z.of_nat 0) with 0 in Hloop.
  rewrite Hloop by lia. cbn [i]. rewrite final_i_unbound by assumption. reflexivity.
Qed.

(** A batch whose messages hold at most eight samples each and one of
    which carries a complete group: the samples published are those of the
    complete groups, in order. *)
Lemma extract_samples_published (axes : Axes) (last_sequence : Z) (tr : TimeTranslation F)
    (raw : list (Z * list byte)) :
  Forall (fun params => sample_count (snd params) <= SAMPLES_PER_BLOCK) raw ->
  Exists (fun params => 0 < sample_count (snd params)) raw ->
  exists i_ : Z,
    final_i None raw = Some i_
    /\ extract_samples axes last_sequence tr raw
       = Ok (map Some (published axes tr last_sequence raw),
             final_seq last_sequence 0 raw * SAMPLES_PER_BLOCK + i_).
Proof.
  intros Hcap Hsome.
  destruct (@final_i_bound raw None (or_intror Hsome)) as [i_ Hi].
  exists i_. split; [exact Hi|]. unfold extract_samples.
  pose proof (published_length axes tr last_sequence raw) as Hlen.
  pose proof (received_count_capped Hcap) as Hcount.
  pose proof (@for_each_extract_message axes tr last_sequence raw []
                (Z.to_nat (Z.of_nat (length raw) * SAMPLES_PER_BLOCK)) 0 None
                ltac:(lia)) as Hloop.
  cbn [map app length] in Hloop. change (Z.of_nat 0) with 0 in Hloop.
  rewrite Hloop. cbn [i samples count seq]. rewrite Hi.
  rewrite Nat2Z.id, <- (length_map Some (published axes tr last_sequence raw)).
  rewrite firstn_app, firstn_all, Nat.sub_diag. cbn [firstn]. rewrite app_nil_r.
  reflexivity.
Qed.

(** C9. In regression mode the claim fails: for a batch whose only
    message carries five bytes, less than one 6-byte group,
    [_extract_samples] processes no group and then raises
    [UnboundLocalError] at [seq * SAMPLES_PER_BLOCK + i], the loop variable
    [i] never having been bound. *)
Theorem extract_samples_raises_on_partial_group :
  forall (axes : Axes) (last_sequence : Z) (tr : TimeTranslation F),
    extract_samples axes last_sequence tr [(0, [x01; x02; x03; x04; x05])]
    = Raise UnboundLocalError.
Proof.
  intros axes last_sequence tr. apply extract_samples_unbound.
  repeat constructor.
Qed.

End ExtractProofs.

End LIS2DWProofs.

(** ** Rounding to six decimal places *)

Lemma round_half_even_close (q : Q) :
  (q - (1 # 2) <= inject_Z (round_half_even q) <= q + (1 # 2))%Q.
Proof.
  unfold round_half_even.
  pose proof (Qfloor_le q) as Hlo. pose proof (Qlt_floor q) as Hhi.
  rewrite inject_Z_plus in Hhi. change (inject_Z 1) with 1%Q in Hhi.
  destruct (Qcompare_spec (q - inject_Z (Qfloor q)) (1 # 2)) as [Heq | Hlt | Hgt].
  - destruct (Z.even (Qfloor q)).
    + split; lra.
    + rewrite inject_Z_plus. change (inject_Z 1) with 1%Q. split; lra.
  - split; lra.
  - rewrite inject_Z_plus. change (inject_Z 1) with 1%Q. split; lra.
Qed.

(** ** The decoders on binary64 *)

Module Binary64Proofs.

Import Binary64 LIS2DW LIS2DWProofs.





(** What [round(x, 6)] returns is [x] rounded to six decimal places. *)
Lemma round_float_six (x : float) : rounded_six x (round_float x 6).
Proof.
  unfold rounded_six, round_float.
  destruct (value x) as [v |]; [|reflexivity].
  unfold round_digits. change (0 <=? 6) with true. cbv iota.
  change (10 ^ 6) with 1000000.
  set (n := round_half_even (v * inject_Z 1000000)).
  pose proof (round_half_even_close (v * inject_Z 1000000)) as Hclose. fold n in Hclose.
  exists n. split.
  - assert (Hmake : (n # 1000000 == inject_Z n * (1 # 1000000))%Q).
    { rewrite (Qmake_Qdiv n 1000000). reflexivity. }
    rewrite Hmake. change (inject_Z 1000000) with (1000000 # 1)%Q in Hclose.
    generalize dependent (inject_Z n). intros y Hclose _. split; lra.
  - unfold decimal_float, Qdiv, Qmult, Qinv, inject_Z. cbn [Qnum Qden].
    rewrite Z.mul_1_r. reflexivity.
Qed.

(** C7. In regression mode on binary64, for every batch whose messages
    hold at most eight samples each and one of which carries a complete
    group, [_extract_samples] publishes, for tick [i] of the message with
    extended sequence number [seq],
    [round(time_base + ((seq * 8 - chip_base) + i) * inv_freq, 6)] and the
    three scaled accelerations [round(raw * scale, 6)], every operation
    rounded to the nearest float.  Each published number is its unrounded
    float rounded to six decimal places: the float of a decimal [n / 10**6]
    within half a unit of the sixth place; and whenever the unrounded
    timestamp is within [eps] of the exact value
    [timeBase + (tickIndex - chipBase) * inverseFrequency] of the
    specification, with [tickIndex = seq * 8 + i], the decimal published is
    within half a unit of the sixth place and [eps] of that value. *)
Theorem regression_samples_binary64 :
  forall (axes : AxesMap float) (last_sequence : Z) (tr : TimeTranslation float)
         (raw : list (Z * list byte)),
    Forall (fun params => sample_count (snd params) <= SAMPLES_PER_BLOCK) raw ->
    Exists (fun params => 0 < sample_count (snd params)) raw ->
    (exists clock : Z,
       extract_samples axes last_sequence tr raw
       = Ok (map Some (published axes tr last_sequence raw), clock))
    /\ (forall (params : Z * list byte) (i_ : Z),
          let seq_ := message_seq last_sequence (fst params) in
          let msg_cdiff := PrimFloat.sub (of_int (seq_ * SAMPLES_PER_BLOCK)) (chip_base tr) in
          let unrounded :=
            PrimFloat.add (time_base tr)
              (PrimFloat.mul (PrimFloat.add msg_cdiff (of_int i_)) (inv_freq tr)) in
          let raw_xyz := raw_xyz_at (snd params) i_ in
          let '(ptime, x, y, z) := published_sample axes tr (snd params) msg_cdiff i_ in
          rounded_six unrounded ptime
          /\ rounded_six (PrimFloat.mul (of_int (raw_at raw_xyz (fst (fst (fst axes)))))
                                        (snd (fst (fst axes)))) x
          /\ rounded_six (PrimFloat.mul (of_int (raw_at raw_xyz (fst (snd (fst axes)))))
                                        (snd (snd (fst axes)))) y
          /\ rounded_six (PrimFloat.mul (of_int (raw_at raw_xyz (fst (snd axes))))
                                        (snd (snd axes))) z
          /\ forall timeBase chipBase inverseFrequency eps : Q,
               has_value (time_base tr) timeBase ->
               has_value (chip_base tr) chipBase ->
               has_value (inv_freq tr) inverseFrequency ->
               let formula := exact_tick_time timeBase chipBase inverseFrequency
                                (seq_ * SAMPLES_PER_BLOCK + i_) in
               within eps unrounded formula ->
               exists n : Z,
                 (formula - (1 # 2000000) - eps <= n # 1000000
                  <= formula + (1 # 2000000) + eps)%Q
                 /\ ptime = decimal_float (is_negative unrounded) (n # 1000000)).
Proof.
  intros axes last_sequence tr raw Hcap Hsome. split.
  - destruct (@extract_samples_published float _ axes last_sequence tr raw Hcap Hsome)
      as [i_ [_ Hrun]].
    eexists. exact Hrun.
  - intros params i_. destruct axes as [[[xp xs] [yp ys]] [zp zs]].
    cbv zeta. unfold published_sample, ptime_of. cbn [fst snd].
    split; [apply round_float_six|]. split; [apply round_float_six|].
    split; [apply round_float_six|]. split; [apply round_float_six|].
    intros timeBase chipBase inverseFrequency eps _ _ _ Hnear.
    pose proof (round_float_six
                  (fadd (time_base tr)
                     (fmul (fadd (fsub (of_int (message_seq last_sequence (fst params)
                                                * SAMPLES_PER_BLOCK)) (chip_base tr))
                                 (of_int i_)) (inv_freq tr)))) as Hround.
    unfold rounded_six in Hround. unfold within in Hnear.
    cbn [fadd fsub fmul Float_binary64] in *.
    destruct (value _) as [v |]; [|contradiction].
    destruct Hround as [n [Hclose Hfloat]]. exists n. split; [|exact Hfloat].
    generalize dependent (n # 1000000)%Q. intros y Hclose _. lra.
Qed.

End Binary64Proofs.


(** ** Two's-complement decoding of a byte pair *)

Lemma byte_val_range (b : byte) : 0 <= byte_val b < 256.
Proof.
  unfold byte_val. pose proof (Byte.to_N_bounded b). lia.
Qed.

Lemma sign_bit (b : byte) :
  Z.land (byte_val b) 0x80 = if byte_val b <? 128 then 0 else 128.
Proof. destruct b; reflexivity. Qed.

Lemma lor_byte_pair (lo hi : Z) :
  0 <= lo < 256 -> Z.lor lo (Z.shiftl hi 8) = lo + 256 * hi.
Proof.
  intro Hlo. rewrite Z.shiftl_mul_pow2 by lia. change (2 ^ 8) with 256.
  assert (Hdisj : Z.land lo (hi * 256) = 0).
  { apply Z.bits_inj'. intros n Hn.
    rewrite Z.land_spec, Z.bits_0.
    destruct (Z.lt_ge_cases n 8) as [Hlt | Hge].
    - change 256 with (2 ^ 8). rewrite Z.mul_pow2_bits_low by lia. apply andb_false_r.
    - replace (Z.testbit lo n) with false; [reflexivity|].
      symmetry. destruct (Z.eq_dec lo 0) as [-> | Hnz]; [apply Z.bits_0|].
      apply Z.bits_above_log2; [lia|].
      assert (Z.log2 lo < 8) by (apply Z.log2_lt_pow2; [lia | change (2 ^ 8) with 256; lia]).
      lia. }
  pose proof (Z.add_lor_land lo (hi * 256)) as Hadd. rewrite Hdisj in Hadd. lia.
Qed.

Lemma le16_signed_value (lo hi : byte) :
  le16_signed lo hi
  = byte_val lo + 256 * byte_val hi - (if byte_val hi <? 128 then 0 else 65536).
Proof.
  unfold le16_signed. rewrite lor_byte_pair by apply byte_val_range.
  rewrite sign_bit. destruct (byte_val hi <? 128); reflexivity.
Qed.

(** X1. The 16-bit value that [decode_samples] builds from a byte pair,
    [(d[i] | (d[i+1] << 8)) - ((d[i+1] & 0x80) << 9)], is the two's-complement
    reading of the pair, low byte first: it lies in [-32768, 32767] and is
    congruent modulo 65536 to [low + 256 * high]. *)
Theorem le16_signed_twos_complement :
  forall lo hi : byte,
    -32768 <= le16_signed lo hi < 32768
    /\ le16_signed lo hi mod 65536 = byte_val lo + 256 * byte_val hi.
Proof.
  intros lo hi. rewrite le16_signed_value.
  pose proof (byte_val_range lo). pose proof (byte_val_range hi).
  destruct (Z.ltb_spec (byte_val hi) 128) as [Hpos | Hneg].
  - rewrite Z.sub_0_r. repeat split; try lia.
    apply Z.mod_small. lia.
  - repeat split; try lia.
    symmetry. apply Z.mod_unique with (q := -1); lia.
Qed.

(** X2. The value that [_extract_samples] merges from a low and a high
    byte, [((high << 8) | low) - ((high & 0x80) << 9)], is the two's-complement
    reading of the pair: it lies in [-32768, 32767], is congruent modulo 65536
    to [low + 256 * high], and is the value the ADXL345 decoder gives the
    same pair. *)
Theorem merge_twos_complement :
  forall low high : byte,
    -32768 <= LIS2DW.merge low high < 32768
    /\ LIS2DW.merge low high mod 65536 = byte_val low + 256 * byte_val high
    /\ LIS2DW.merge low high = le16_signed low high.
Proof.
  intros low high.
  assert (Hsame : LIS2DW.merge low high = le16_signed low high).
  { unfold LIS2DW.merge, le16_signed. rewrite Z.lor_comm. reflexivity. }
  rewrite Hsame, le16_signed_value.
  pose proof (byte_val_range low). pose proof (byte_val_range high).
  destruct (Z.ltb_spec (byte_val high) 128) as [Hpos | Hneg].
  - rewrite Z.sub_0_r. repeat split; try lia. apply Z.mod_small. lia.
  - repeat split; try lia. symmetry. apply Z.mod_unique with (q := -1); lia.
Qed.

Lemma message_seq_value (last_sequence sequence : Z) :
  LIS2DW.message_seq last_sequence sequence
  = last_sequence + (sequence - last_sequence + 32768) mod 65536 - 32768.
Proof.
  unfold LIS2DW.message_seq.
  change 0xffff with (Z.ones 16). rewrite Z.land_ones by lia.
  change (2 ^ 16) with 65536.
  set (d := (sequence - last_sequence) mod 65536).
  assert (Hd : 0 <= d < 65536) by (apply Z.mod_pos_bound; lia).
  assert (Hbit : Z.land d 0x8000 = if d <? 32768 then 0 else 32768).
  { destruct (Z.ltb_spec d 32768) as [Hlow | Hhigh];
      apply Z.bits_inj'; intros n Hn; rewrite Z.land_spec;
      change 32768 with (2 ^ 15).
    - rewrite Z.bits_0. destruct (Z.eq_dec n 15) as [-> | Hne].
      + replace (Z.testbit d 15) with false; [reflexivity|].
        symmetry. destruct (Z.eq_dec d 0) as [Hz | Hnz]; [rewrite Hz; apply Z.bits_0|].
        apply Z.bits_above_log2; [lia|].
        assert (Z.log2 d < 15) by (apply Z.log2_lt_pow2; [lia | change (2 ^ 15) with 32768; lia]).
        lia.
      + rewrite Z.pow2_bits_false by lia. apply andb_false_r.
    - destruct (Z.eq_dec n 15) as [-> | Hne].
      + rewrite Z.pow2_bits_true by lia. rewrite andb_true_r.
        rewrite Z.testbit_true by lia. change (2 ^ 15) with 32768.
        assert (Hq : d / 32768 = 1) by (Z.to_euclidean_division_equations; lia).
        rewrite Hq. reflexivity.
      + rewrite Z.pow2_bits_false by lia. apply andb_false_r. }
  rewrite Hbit. rewrite Z.shiftl_mul_pow2 by lia. change (2 ^ 1) with 2.
  subst d.
  destruct (Z.ltb_spec ((sequence - last_sequence) mod 65536) 32768) as [Hlow | Hhigh];
    Z.to_euclidean_division_equations; lia.
Qed.

(** X3. The sequence number that [_extract_samples] gives a message lies
    within 32768 of [last_sequence], from [last_sequence - 32768] to
    [last_sequence + 32767], and has the low 16 bits the message carries; so
    a message whose true number [t] is within that window of [last_sequence]
    gets [t] from its low 16 bits, whether [t] is ahead of [last_sequence]
    or behind it. *)
Theorem message_seq_recovers_sequence :
  (forall last_sequence sequence : Z,
     last_sequence - 32768 <= LIS2DW.message_seq last_sequence sequence
                           < last_sequence + 32768
     /\ LIS2DW.message_seq last_sequence sequence mod 65536 = sequence mod 65536)
  /\ (forall last_sequence t : Z,
        last_sequence - 32768 <= t < last_sequence + 32768 ->
        LIS2DW.message_seq last_sequence (t mod 65536) = t).
Proof.
  split.
  - intros last_sequence sequence. rewrite message_seq_value.
    Z.to_euclidean_division_equations. lia.
  - intros last_sequence t Ht. rewrite message_seq_value.
    Z.to_euclidean_division_equations. lia.
Qed.

(** ** Batches of the LIS2DW *)

Module LIS2DWBatchProofs.

Import LIS2DW LIS2DWProofs LIS2DWBatch.

Section BatchProofs.

Context {F : Type} `{Float F}.

Abbreviation Axes := ((axis_pos * F) * (axis_pos * F) * (axis_pos * F))%type.

(** The first write past the preallocated list raises, whatever message
    it falls in. *)
Lemma for_each_extract_message_full (axes : Axes) (tr : TimeTranslation F) (last_sequence : Z)
    (raw : list (Z * list byte)) :
  forall (pre : list (Sample F)) (m : nat) (seq0 : Z) (i0 : option Z),
    (m < length (published axes tr last_sequence raw))%nat ->
    fst (for_each raw (extract_message axes tr last_sequence)
           {| samples := map Some pre ++ repeat None m;
              count := Z.of_nat (length pre); seq := seq0; i := i0 |})
    = Raise IndexError.
Proof.
  induction raw as [| [sequence d] raw IH]; intros pre m seq0 i0 Hlen; [cbn in Hlen; lia|].
  unfold published in *. cbn [flat_map] in *. rewrite length_app in Hlen.
  pose proof (published_message_length axes tr last_sequence (sequence, d)) as Hmsg.
  cbn [snd] in Hmsg.
  cbn [for_each]. unfold bind at 1. unfold extract_message at 1.
  cbn [fst snd samples count seq i]. unfold BYTES_PER_SAMPLE. fold (sample_count d).
  destruct (Nat.le_gt_cases (length (range (sample_count d))) m) as [Hfit | Hover].
  - rewrite for_each_extract_sample by (try apply in_range; lia).
    apply IH. rewrite Hmsg in Hlen. lia.
  - pose proof (@for_each_extract_sample_full F _ axes tr d
                  (fsub (of_int (message_seq last_sequence sequence * SAMPLES_PER_BLOCK))
                        (chip_base tr))
                  (range (sample_count d)) pre m
                  (message_seq last_sequence sequence) i0
                  (fun j Hj => in_range _ _ Hj) Hover) as Hfull.
    destruct (for_each (range (sample_count d)) _ _) as [[u | e] st];
      cbn [fst] in Hfull; [discriminate | cbn [fst]; congruence].
Qed.

Lemma no_group_received (raw : list (Z * list byte)) :
  received_count raw = 0 ->
  Forall (fun params => sample_count (snd params) = 0) raw.
Proof.
  induction raw as [| params raw IH]; intro Hzero; [constructor|].
  rewrite received_count_cons in Hzero.
  pose proof (sample_count_nonneg (snd params)).
  pose proof (received_count_nonneg raw).
  constructor; [lia | apply IH; lia].
Qed.

Lemma some_group_received (raw : list (Z * list byte)) :
  0 < received_count raw ->
  Exists (fun params => 0 < sample_count (snd params)) raw.
Proof.
  induction raw as [| params raw IH]; intro Hpos; [cbn in Hpos; lia|].
  rewrite received_count_cons in Hpos.
  destruct (Z.lt_ge_cases 0 (sample_count (snd params))) as [Hhere | Hnone].
  - left. exact Hhere.
  - right. apply IH. pose proof (sample_count_nonneg (snd params)). lia.
Qed.

(** The three outcomes of [_extract_samples], by the number of complete
    groups of the batch. *)
Lemma extract_samples_cases (axes : Axes) (last_sequence : Z) (tr : TimeTranslation F)
    (raw : list (Z * list byte)) :
  (received_count raw = 0
   /\ extract_samples axes last_sequence tr raw = Raise UnboundLocalError)
  \/ (0 < received_count raw <= Z.of_nat (length raw) * SAMPLES_PER_BLOCK
      /\ exists i_ : Z,
           final_i None raw = Some i_
           /\ extract_samples axes last_sequence tr raw
              = Ok (map Some (published axes tr last_sequence raw),
                    final_seq last_sequence 0 raw * SAMPLES_PER_BLOCK + i_))
  \/ (Z.of_nat (length raw) * SAMPLES_PER_BLOCK < received_count raw
      /\ extract_samples axes last_sequence tr raw = Raise IndexError).
Proof.
  pose proof (received_count_nonneg raw) as Hnonneg.
  pose proof (published_length axes tr last_sequence raw) as Hlen.
  destruct (Z.eq_dec (received_count raw) 0) as [Hzero | Hsome].
  - left. split; [exact Hzero|].
    apply extract_samples_unbound. apply no_group_received. exact Hzero.
  - right.
    destruct (Z.le_gt_cases (received_count raw) (Z.of_nat (length raw) * SAMPLES_PER_BLOCK))
      as [Hfit | Hover].
    + left. split; [lia|].
      destruct (@final_i_bound raw None (or_intror (some_group_received raw ltac:(lia))))
        as [i_ Hi].
      exists i_. split; [exact Hi|]. unfold extract_samples.
      pose proof (@for_each_extract_message F _ axes tr last_sequence raw []
                    (Z.to_nat (Z.of_nat (length raw) * SAMPLES_PER_BLOCK)) 0 None
                    ltac:(lia)) as Hloop.
      cbn [map app length] in Hloop. change (Z.of_nat 0) with 0 in Hloop.
      rewrite Hloop. cbn [i samples count seq]. rewrite Hi.
      rewrite Nat2Z.id, <- (length_map Some (published axes tr last_sequence raw)).
      rewrite firstn_app, firstn_all, Nat.sub_diag. cbn [firstn]. rewrite app_nil_r.
      reflexivity.
    + right. split; [lia|]. unfold extract_samples.
      pose proof (@for_each_extract_message_full axes tr last_sequence raw []
                    (Z.to_nat (Z.of_nat (length raw) * SAMPLES_PER_BLOCK)) 0 None
                    ltac:(lia)) as Hloop.
      cbn [map app length] in Hloop. change (Z.of_nat 0) with 0 in Hloop.
      destruct (for_each raw _ _) as [[u | e] st];
        cbn [fst] in Hloop; [discriminate | congruence].
Qed.

(** X4. [_extract_samples] preallocates eight entries for every message of
    the batch: it raises [IndexError] exactly when the complete 6-byte groups
    of the batch, all messages together, are more than eight times the number
    of messages. *)
Theorem extract_samples_index_error :
  forall (axes : Axes) (last_sequence : Z) (tr : TimeTranslation F)
         (raw_samples : list (Z * list byte)),
    extract_samples axes last_sequence tr raw_samples = Raise IndexError
    <-> Z.of_nat (length raw_samples) * SAMPLES_PER_BLOCK < received_count raw_samples.
Proof.
  intros axes last_sequence tr raw.
  destruct (extract_samples_cases axes last_sequence tr raw)
    as [[Hc He] | [[Hc [i_ [_ He]]] | [Hc He]]]; rewrite He;
    unfold SAMPLES_PER_BLOCK in *; split; intro Hx;
    try discriminate; try reflexivity; lia.
Qed.

(** X5. Whenever [_process_batch] returns, it returns the empty dict only
    for an empty queue, without having called [_extract_samples]; otherwise
    its ['data'] is the non-empty list of the samples of all complete groups,
    in order, with the error and overflow counts beside it.  The guard
    [if not samples] after [_extract_samples] never holds. *)
Theorem process_batch_never_empty_data :
  forall (axes : Axes) (last_sequence : Z) (tr : TimeTranslation F)
         (last_error_count last_limit_count : Z) (raw_samples : list (Z * list byte))
         (out : option (Batch F) * option Z),
    process_batch axes last_sequence tr last_error_count last_limit_count raw_samples
    = Ok out ->
    match fst out with
    | None => raw_samples = [] /\ snd out = None
    | Some b =>
        batch_data b = map Some (published axes tr last_sequence raw_samples)
        /\ 0 < received_count raw_samples
        /\ Z.of_nat (length (batch_data b)) = received_count raw_samples
        /\ batch_errors b = last_error_count
        /\ batch_overflows b = last_limit_count
    end.
Proof.
  intros axes last_sequence tr errs limit raw out Hout.
  unfold process_batch in Hout.
  destruct raw as [| m raw]; [inversion Hout; split; reflexivity|].
  pose proof (published_length axes tr last_sequence (m :: raw)) as Hlen.
  destruct (extract_samples_cases axes last_sequence tr (m :: raw))
    as [[Hc He] | [[Hc [i_ [_ He]]] | [Hc He]]]; rewrite He in Hout; try discriminate.
  destruct (published axes tr last_sequence (m :: raw)) as [| smp l] eqn:Hpub;
    [cbn [length] in Hlen; lia|].
  cbn [map] in Hout. inversion Hout; subst out. cbn [fst batch_data batch_errors batch_overflows].
  rewrite <- Hlen. cbn [map length]. rewrite length_map.
  repeat split; lia.
Qed.

(** X6. When [_extract_samples] returns, the chip clock it has handed to
    [set_last_chip_clock] is [seq * 8 + i] with [seq] the number of the last
    message: [i] is the index of that message's last complete group when it
    has one, and otherwise the index left over from the last earlier message
    that had one. *)
Theorem extract_samples_chip_clock :
  forall (axes : Axes) (last_sequence : Z) (tr : TimeTranslation F)
         (earlier : list (Z * list byte)) (sequence : Z) (data : list byte)
         (l : list (option (Sample F))) (chip_clock : Z),
    extract_samples axes last_sequence tr (earlier ++ [(sequence, data)])
    = Ok (l, chip_clock) ->
    (0 < sample_count data ->
     chip_clock = message_seq last_sequence sequence * SAMPLES_PER_BLOCK
                  + (sample_count data - 1))
    /\ (sample_count data = 0 ->
        exists stale : Z,
          final_i None earlier = Some stale
          /\ chip_clock = message_seq last_sequence sequence * SAMPLES_PER_BLOCK + stale).
Proof.
  intros axes last_sequence tr earlier sequence data l chip_clock Hout.
  destruct (extract_samples_cases axes last_sequence tr (earlier ++ [(sequence, data)]))
    as [[Hc He] | [[Hc [i_ [Hi He]]] | [Hc He]]]; rewrite He in Hout; try discriminate.
  inversion Hout; subst l chip_clock. clear Hout He.
  unfold final_seq, final_i in *. rewrite fold_left_app in *. cbn [fold_left fst snd] in *.
  split.
  - intro Hpos. apply Z.ltb_lt in Hpos. rewrite Hpos in Hi. inversion Hi. reflexivity.
  - intro Hzero. rewrite Hzero in Hi. cbn in Hi. exists i_. split; [exact Hi | reflexivity].
Qed.

End BatchProofs.

End LIS2DWBatchProofs.

(** ** Session results *)

Section ResultsProofs.

Context {F : Type} `{FloatMath F}.

(** X7. A call of [decode_samples] that returns stores the list it
    returns in [self.samples], and a second call on the same object returns
    the same list and leaves the object as the first call left it. *)
Theorem decode_samples_repeatable :
  forall (self self' : ADXL345Results F) (l : list (option (Accel_Measurement F))),
    decode_samples self = (Ok l, self') ->
    samples self' = l /\ decode_samples self' = (Ok l, self').
Proof.
  intros self self' l Hfirst. unfold decode_samples in Hfirst.
  destruct (res_raw_samples self) as [[| b rest] |] eqn:Hraw;
    try (inversion Hfirst; subst; split; [reflexivity|];
         unfold decode_samples; rewrite Hraw; reflexivity).
  destruct (res_axes_map self) as [axes |] eqn:Haxes; [|discriminate].
  destruct (total_count self) as [total |] eqn:Htotal; [|discriminate].
  destruct (start2_time self) as [start2 |] eqn:Hstart; [|discriminate].
  destruct (seq_to_time self) as [s2t |] eqn:Hs2t; [|discriminate].
  destruct (for_each (b :: rest) (decode_block axes start2 s2t (time_per_sample self))
              (repeat None (Z.to_nat total), 0)) as [[u | e] [filled actual_count]] eqn:Hloop;
    [|discriminate].
  inversion Hfirst; subst l self'. clear Hfirst.
  split; [reflexivity|].
  unfold decode_samples. cbn [set_samples res_raw_samples res_axes_map total_count
                               start2_time seq_to_time time_per_sample].
  rewrite Hraw, Haxes, Htotal, Hstart, Hs2t, Hloop. reflexivity.
Qed.

Lemma received_count_last (raw : list RawBlock) (d : RawBlock) :
  raw <> [] ->
  Forall (fun blk => sample_count (snd blk) = 8) (removelast raw) ->
  received_count raw
  = 8 * (Z.of_nat (length raw) - 1) + sample_count (snd (last raw d)).
Proof.
  intros Hne Hfull.
  pose proof (app_removelast_last d Hne) as Heq.
  assert (Hlen : Z.of_nat (length raw) = Z.of_nat (length (removelast raw)) + 1)
    by (rewrite Heq at 1; rewrite length_app; cbn [length]; lia).
  rewrite Hlen. rewrite Heq at 1.
  rewrite received_count_app, (received_count_full Hfull), received_count_cons.
  change (received_count []) with 0. lia.
Qed.

(** X8. For a session whose blocks, the last one apart, hold eight
    samples each, the drop count that [setup_data] computes is eight for
    every block that is missing: [8 * (end_sequence - len(raw_samples))]. *)
Theorem drops_counts_missing_blocks :
  forall (axes : AxesMap F) (raw : list RawBlock) (end_sequence overflows_ : Z)
         (start1_time start2_time_ end1_time end2_time : F) (self : ADXL345Results F),
    raw <> [] -> end_sequence <> 0 -> expected_count raw end_sequence <> 0 ->
    Forall (fun blk => sample_count (snd blk) = 8) (removelast raw) ->
    drops (snd (setup_data axes raw end_sequence overflows_
                  start1_time start2_time_ end1_time end2_time self))
    = 8 * (end_sequence - Z.of_nat (length raw)).
Proof.
  intros axes raw end_sequence overflows_ s1 s2 e1 e2 self Hne Hend Htotal Hfull.
  rewrite setup_data_ok by assumption. cbn [snd drops].
  unfold expected_count. rewrite (received_count_last (0, []) Hne Hfull). lia.
Qed.

End ResultsProofs.

(** ** Measurement session and calibration *)

Section SessionProofs.

Context {F : Type} `{FloatMath F} {env : Collaborators F}.

Lemma reports_app (a b : list (Event F)) : reports (a ++ b) = reports a ++ reports b.
Proof. unfold reports. apply flat_map_app. Qed.

Lemma attempts_app (a b : list (Event F)) : attempts (a ++ b) = (attempts a + attempts b)%nat.
Proof. unfold attempts. rewrite filter_app, length_app. reflexivity. Qed.

Lemma quiet_pure {A : Type} (r : result A) : @quiet F A (lift r).
Proof.
  intro s. cbn. repeat split. exists []. rewrite app_nil_r. repeat split.
Qed.

Lemma quiet_ret {A : Type} (a : A) : @quiet F A (ret a).
Proof. exact (quiet_pure (Ok a)). Qed.

Lemma quiet_raise {A : Type} (e : exn) : @quiet F A (raise e).
Proof. exact (quiet_pure (Raise e)). Qed.

Lemma quiet_get : @quiet F (System F) get.
Proof.
  intro s. cbn. repeat split. exists []. rewrite app_nil_r. repeat split.
Qed.

Lemma quiet_get_adxl345 : @quiet F (ADXL345 F) get_adxl345.
Proof.
  intro s. cbn. repeat split. exists []. rewrite app_nil_r. repeat split.
Qed.

Lemma quiet_get_endstop : @quiet F (ADXL345EndstopWrapper F) get_endstop.
Proof.
  intro s. cbn. repeat split. exists []. rewrite app_nil_r. repeat split.
Qed.

Lemma quiet_set_adxl345 (a : ADXL345 F) : quiet (set_adxl345 a).
Proof.
  intro s. cbn. repeat split. exists []. rewrite app_nil_r. repeat split.
Qed.

Lemma quiet_emit (e : Event F) :
  report_of e = [] -> attempts [e] = 0%nat -> quiet (emit e).
Proof.
  intros Hrep Hatt s. cbn. repeat split. exists [e]. repeat split; [|assumption].
  unfold reports. cbn [flat_map]. rewrite Hrep. reflexivity.
Qed.

Lemma quiet_bind {A B : Type} (m : M (System F) A) (k : A -> M (System F) B) :
  quiet m -> (forall a, quiet (k a)) -> quiet (bind m k).
Proof.
  intros Hm Hk s. unfold bind. specialize (Hm s).
  destruct (m s) as [[a | e] s1]; cbn [snd] in *; [|exact Hm].
  destruct Hm as [He [Ht [added [Htr [Hr Ha]]]]].
  destruct (Hk a s1) as [He' [Ht' [added' [Htr' [Hr' Ha']]]]].
  split; [congruence|]. split; [congruence|].
  exists (added ++ added'). rewrite Htr', Htr, app_assoc, reports_app, attempts_app, Hr, Hr', Ha, Ha'.
  repeat split.
Qed.

Lemma quiet_if {A : Type} (b : bool) (m1 m2 : M (System F) A) :
  quiet m1 -> quiet m2 -> quiet (if b then m1 else m2).
Proof. destruct b; intros; assumption. Qed.

Lemma quiet_for_each {A : Type} (l : list A) (body : A -> M (System F) unit) :
  (forall a, quiet (body a)) -> quiet (for_each l body).
Proof.
  intro Hbody. induction l as [| a l IH]; cbn [for_each]; [apply quiet_ret|].
  apply quiet_bind; [apply Hbody | intro; exact IH].
Qed.

Ltac quiet_steps :=
  repeat first
    [ apply quiet_ret | apply quiet_raise | apply quiet_pure | apply quiet_get
    | apply quiet_get_adxl345 | apply quiet_get_endstop | apply quiet_set_adxl345
    | apply quiet_emit; reflexivity
    | apply quiet_for_each; intro
    | apply quiet_bind; [|intro]
    | apply quiet_if
    | assumption ].

Lemma quiet_read_reg (reg : Z) : quiet (read_reg reg).
Proof. unfold read_reg. quiet_steps. Qed.

Lemma quiet_set_reg (reg val minclock : Z) : quiet (set_reg reg val minclock).
Proof. unfold set_reg. pose proof quiet_read_reg. quiet_steps. Qed.

Lemma quiet_is_initialized : quiet is_initialized.
Proof. unfold is_initialized. pose proof quiet_read_reg. quiet_steps. Qed.

Lemma quiet_initialize : quiet initialize.
Proof.
  unfold initialize. pose proof quiet_read_reg. pose proof quiet_set_reg. quiet_steps.
Qed.

Lemma quiet_start_measurements (rate : option Z) : quiet (start_measurements rate).
Proof.
  unfold start_measurements.
  pose proof quiet_set_reg. pose proof quiet_is_initialized. pose proof quiet_initialize.
  quiet_steps.
Qed.

Lemma quiet_finish_measurements : quiet finish_measurements.
Proof.
  unfold finish_measurements. quiet_steps.
  match goal with |- quiet (match ?x with _ => _ end) => destruct x as [[u | e] res] end;
    unfold attr; quiet_steps.
  destruct (total_count res); quiet_steps.
Qed.

Lemma quiet_dispatch (m : Incoming) : quiet (dispatch m).
Proof. unfold dispatch. quiet_steps. destruct m; quiet_steps. Qed.

Lemma schedules_after_quiet {A : Type} (gcmd : bool) (retries : Z)
    (m : M (System F) A) (k : A -> M (System F) unit) :
  quiet m -> (forall a, schedules gcmd retries (k a)) -> schedules gcmd retries (bind m k).
Proof.
  intros Hm Hk s. unfold bind. specialize (Hm s).
  destruct (m s) as [[a | e] s1]; cbn [fst snd] in *.
  - destruct Hm as [He [Ht [added [Htr [Hr Ha]]]]].
    destruct (Hk a s1) as [He' [added' [Htr' [Hr' Hcase]]]].
    split; [congruence|].
    exists (added ++ added').
    rewrite Htr', Htr, app_assoc, reports_app, attempts_app, Hr, Hr', Ha.
    repeat split.
    destruct (fst (k a s1)); rewrite <- Ht; exact Hcase.
  - destruct Hm as [He [Ht [added [Htr [Hr Ha]]]]].
    split; [assumption|]. exists added. repeat split; assumption.
Qed.

Lemma schedules_register (gcmd : bool) (retries : Z) (waketime : System F -> F) :
  schedules gcmd retries
    (s <- get ;;
     emit (RegisterCallback retries (waketime s)) ;;
     set_timers (timers s ++ [(gcmd, retries)])).
Proof.
  intro s. cbn. split; [reflexivity|].
  exists [RegisterCallback retries (waketime s)]. repeat split.
Qed.

Lemma calibrate_schedules (gcmd : bool) (retries : option Z) :
  schedules gcmd (match retries with Some r => r | None => DEFAULT_RETRIES end)
    (calibrate gcmd retries).
Proof.
  unfold calibrate.
  pose proof quiet_set_reg. pose proof quiet_is_initialized. pose proof quiet_initialize.
  pose proof quiet_start_measurements.
  repeat lazymatch goal with
         | |- schedules _ _ (bind get _) => fail
         | |- _ => apply schedules_after_quiet; [solve [quiet_steps] | intro]
         end.
  apply (schedules_register gcmd _
           (fun s => fadd (monotonic (trace s)) PROBE_CALIBRATION_TIME)).
Qed.

Lemma outcome_after_quiet {A : Type} (gcmd : bool) (retries : Z)
    (m : M (System F) A) (k : A -> M (System F) unit) :
  quiet m ->
  (forall a s1, attempt_outcome gcmd retries s1 (k a s1)) ->
  forall s, attempt_outcome gcmd retries s (bind m k s).
Proof.
  intros Hm Hk s. unfold bind. specialize (Hm s).
  destruct (m s) as [[a | e] s1]; cbn [fst snd] in *;
    destruct Hm as [He [Ht [added [Htr [Hr Ha]]]]].
  - destruct (Hk a s1) as [added' [Htr' Hcase]].
    exists (added ++ added'). rewrite Htr', Htr, app_assoc. split; [reflexivity|].
    rewrite reports_app, attempts_app, Hr, Ha, <- Ht, <- He. exact Hcase.
  - exists added. split; assumption.
Qed.

Lemma retry_or_abort_outcome (gcmd : bool) (retries : Z) (retrying aborting : CalibrationMsg F) :
  report_of (Respond gcmd retrying) = [Retrying (retries - 1)] ->
  report_of (Respond gcmd aborting) = [Aborting] ->
  forall s, attempt_outcome gcmd retries s (retry_or_abort gcmd retries retrying aborting s).
Proof.
  intros Hretry Habort s. unfold retry_or_abort.
  destruct (Z.gtb_spec retries 0) as [Hpos | Hneg].
  - unfold bind, emit at 1. cbn [fst snd].
    destruct (calibrate_schedules gcmd (Some (retries - 1))
                {| adxl345 := adxl345 s; endstop := endstop s; timers := timers s;
                   trace := trace s ++ [Respond gcmd retrying] |})
      as [He [added [Htr [Hr Hcase]]]].
    cbn [endstop trace timers] in *.
    exists (Respond gcmd retrying :: added).
    change (Respond gcmd retrying :: added) with ([Respond gcmd retrying] ++ added).
    rewrite Htr, <- app_assoc. split; [reflexivity|].
    rewrite reports_app, attempts_app, Hr, app_nil_r.
    unfold reports at 1. cbn [flat_map]. rewrite Hretry, app_nil_r.
    destruct (fst (calibrate gcmd (Some (retries - 1)) _)).
    + left. destruct Hcase as [Ha Ht]. repeat split; try assumption; try lia.
    + destruct Hcase as [Ha Ht]. rewrite Ha. reflexivity.
  - exists [Respond gcmd aborting]. cbn [emit fst snd trace]. split; [reflexivity|].
    right. left. repeat split; [lia|].
    unfold reports. cbn [flat_map]. rewrite Habort. reflexivity.
Qed.

Lemma quiet_write_offset (axes : AxesMap F) (ofs_axis : F * axis_pos) :
  quiet (write_offset axes ofs_axis).
Proof.
  unfold write_offset. destruct ofs_axis as [ofs axis].
  pose proof quiet_set_reg. quiet_steps.
Qed.

Lemma success_outcome (gcmd : bool) (retries : Z) :
  forall s,
    attempt_outcome gcmd retries s
      ((emit (Respond gcmd (@SuccessfullyCalibrated F)) ;; set_calibrated true) s).
Proof.
  intro s. exists [Respond gcmd SuccessfullyCalibrated]. cbn. split; [reflexivity|].
  right. right. repeat split.
Qed.

Lemma process_samples_outcome (gcmd : bool) (retries : Z)
    (samples_ : list (option (Accel_Measurement F))) :
  forall s, attempt_outcome gcmd retries s (process_samples gcmd retries samples_ s).
Proof.
  unfold process_samples.
  apply outcome_after_quiet; [apply quiet_get_endstop|]. intros w s1. revert s1.
  apply outcome_after_quiet; [apply quiet_pure|]. intros verdict s1. revert s1.
  destruct verdict as [measured | noise | x_ofs y_ofs z_ofs].
  - apply retry_or_abort_outcome; reflexivity.
  - apply retry_or_abort_outcome; reflexivity.
  - apply outcome_after_quiet.
    + apply quiet_for_each. intro. apply quiet_write_offset.
    + intros _. apply success_outcome.
Qed.

Lemma offset_axes_outcome (gcmd : bool) (retries : Z) :
  forall s, attempt_outcome gcmd retries s (offset_axes gcmd retries s).
Proof.
  unfold offset_axes.
  apply outcome_after_quiet; [apply quiet_finish_measurements|]. intros res s1. revert s1.
  apply outcome_after_quiet; [apply quiet_pure|]. intros samples_.
  apply process_samples_outcome.
Qed.

Lemma reactor_run_idle (fuel : nat) (s : System F) :
  timers s = [] -> reactor_run fuel s = (Ok tt, s).
Proof.
  intro Hidle. destruct fuel as [| fuel]; [reflexivity|].
  cbn [reactor_run]. unfold bind, get. rewrite Hidle. reflexivity.
Qed.

Lemma reactor_run_outcome (fuel : nat) :
  forall (gcmd : bool) (retries : Z) (s : System F),
    0 <= retries ->
    timers s = [(gcmd, retries)] ->
    (Z.to_nat retries < fuel)%nat ->
    run_outcome retries s (reactor_run fuel s).
Proof.
  induction fuel as [| fuel IH]; intros gcmd retries s Hpos Hpending Hfuel; [lia|].
  cbn [reactor_run]. unfold bind at 1. unfold get at 1. rewrite Hpending.
  unfold bind at 1. unfold set_timers at 1.
  set (s0 := {| adxl345 := adxl345 s; endstop := endstop s; timers := [];
                trace := trace s |}).
  assert (He0 : endstop s0 = endstop s) by reflexivity.
  assert (Ht0 : timers s0 = []) by reflexivity.
  assert (Htr0 : trace s0 = trace s) by reflexivity.
  clearbody s0.
  assert (Hquiet : quiet (for_each (arrivals (trace s)) dispatch)).
  { apply quiet_for_each. intro. apply quiet_dispatch. }
  unfold bind at 1. specialize (Hquiet s0).
  destruct (for_each (arrivals (trace s)) dispatch s0) as [[u | e] s1]; cbn [fst snd] in *;
    destruct Hquiet as [He1 [Ht1 [added1 [Htr1 [Hr1 Ha1]]]]];
    rewrite He0 in He1; rewrite Ht0 in Ht1; rewrite Htr0 in Htr1.
  2:{ exists added1. cbn [fst snd]. split; [exact Htr1|]. split; [lia | discriminate]. }
  unfold bind at 1.
  pose proof (offset_axes_outcome gcmd retries s1) as Hattempt.
  unfold attempt_outcome in Hattempt.
  destruct (offset_axes gcmd retries s1) as [[u2 | e2] s2]; cbn [fst snd] in *;
    destruct Hattempt as [added2 [Htr2 Hcase]].
  2:{ exists (added1 ++ added2). cbn [fst snd]. rewrite Htr2, Htr1, app_assoc.
      split; [reflexivity|]. rewrite attempts_app, Ha1, Hcase. split; [lia | discriminate]. }
  destruct Hcase as [[Hretry [Hr2 [Ha2 [Ht2 He2]]]]
                    | [[Habort [Hr2 [Ha2 [Ht2 He2]]]] | [Hr2 [Ha2 [Ht2 Hcal]]]]].
  - rewrite Ht1 in Ht2. cbn [app timers] in Ht2.
    destruct (IH gcmd (retries - 1) s2 ltac:(lia) Ht2 ltac:(lia))
      as [added3 [Htr3 [Ha3 Hok]]].
    exists (added1 ++ added2 ++ added3).
    rewrite Htr3, Htr2, Htr1, <- !app_assoc. split; [reflexivity|].
    rewrite !attempts_app, Ha1, Ha2. split; [lia|].
    intro Hres. destruct (Hok Hres) as [Hidle [k [final [Hk [Hr3 [Hk3 Hfinal]]]]]].
    split; [exact Hidle|]. exists (S k), final.
    rewrite !reports_app, Hr1, Hr2, Hr3. cbn [app countdown].
    repeat split; try lia.
    destruct final as [n | |]; [exact Hfinal | | exact Hfinal].
    destruct Hfinal as [Hkr He3]. split; [lia | congruence].
  - rewrite Ht1 in Ht2. cbn [timers] in Ht2.
    rewrite (reactor_run_idle fuel s2 Ht2).
    exists (added1 ++ added2). cbn [fst snd]. rewrite Htr2, Htr1, app_assoc.
    split; [reflexivity|]. rewrite attempts_app, Ha1, Ha2. split; [lia|].
    intros _. split; [exact Ht2|]. exists 0%nat, Aborting.
    rewrite reports_app, Hr1, Hr2. cbn [app countdown].
    repeat split; try lia. congruence.
  - rewrite Ht1 in Ht2. cbn [timers] in Ht2.
    rewrite (reactor_run_idle fuel s2 Ht2).
    exists (added1 ++ added2). cbn [fst snd]. rewrite Htr2, Htr1, app_assoc.
    split; [reflexivity|]. rewrite attempts_app, Ha1, Ha2. split; [lia|].
    intros _. split; [exact Ht2|]. exists 0%nat, Succeeded.
    rewrite reports_app, Hr1, Hr2. cbn [app countdown].
    repeat split; try lia. exact Hcal.
Qed.

Lemma sample_mean_values (field : Accel_Measurement F -> F)
    (samples_ : list (option (Accel_Measurement F))) (m : F) :
  sample_mean field samples_ = Ok m ->
  exists vs, field_of field samples_ = Ok vs /\ mean vs = Ok m.
Proof.
  unfold sample_mean. destruct (field_of field samples_) as [vs | e]; [|discriminate].
  intro Hm. exists vs. split; [reflexivity | exact Hm].
Qed.

(** The first test of [_offset_axes]: a mean vector whose magnitude is off
    by more than half of standard gravity is out of tolerance. *)
Lemma freefall_out_of_tolerance (thresh : F) (samples_ : list (option (Accel_Measurement F)))
    (x_ofs y_ofs z_ofs measured : F) :
  sample_mean (@accel_x F) samples_ = Ok x_ofs ->
  sample_mean (@accel_y F) samples_ = Ok y_ofs ->
  sample_mean (@accel_z F) samples_ = Ok z_ofs ->
  freefall_magnitude x_ofs y_ofs z_ofs = Ok measured ->
  off_by_half measured = true ->
  tolerance_check thresh samples_ = Ok (BadFreefall measured).
Proof.
  intros Hx Hy Hz Hm Hoff.
  destruct (sample_mean_values _ _ Hx) as [xs [Hxs Hxm]].
  destruct (sample_mean_values _ _ Hy) as [ys [Hys Hym]].
  destruct (sample_mean_values _ _ Hz) as [zs [Hzs Hzm]].
  unfold tolerance_check. rewrite Hxs, Hys, Hzs. cbn [bind_result].
  rewrite Hxm, Hym, Hzm. cbn [bind_result].
  unfold freefall_magnitude in Hm.
  destruct (fsquare x_ofs) as [x2 | e]; [|discriminate]. cbn [bind_result] in *.
  destruct (fsquare y_ofs) as [y2 | e]; [|discriminate]. cbn [bind_result] in *.
  destruct (fsquare z_ofs) as [z2 | e]; [|discriminate]. cbn [bind_result] in *.
  rewrite Hm. cbn [bind_result]. unfold off_by_half in Hoff. rewrite Hoff. reflexivity.
Qed.

(** The second test: with the magnitude in tolerance, a peak deviation
    above [tap_thresh] is out of tolerance. *)
Lemma noise_out_of_tolerance (thresh : F) (samples_ : list (option (Accel_Measurement F)))
    (x_ofs y_ofs z_ofs measured x_m y_m z_m : F) :
  sample_mean (@accel_x F) samples_ = Ok x_ofs ->
  sample_mean (@accel_y F) samples_ = Ok y_ofs ->
  sample_mean (@accel_z F) samples_ = Ok z_ofs ->
  freefall_magnitude x_ofs y_ofs z_ofs = Ok measured ->
  off_by_half measured = false ->
  sample_peak (@accel_x F) samples_ x_ofs = Ok x_m ->
  sample_peak (@accel_y F) samples_ y_ofs = Ok y_m ->
  sample_peak (@accel_z F) samples_ z_ofs = Ok z_m ->
  tolerance_check thresh samples_
  = if fltb thresh (py_max_from x_m [y_m; z_m])
    then Ok (BadNoise (py_max_from x_m [y_m; z_m]))
    else Ok (Within x_ofs y_ofs z_ofs).
Proof.
  intros Hx Hy Hz Hm Hoff Hpx Hpy Hpz.
  destruct (sample_mean_values _ _ Hx) as [xs [Hxs Hxm]].
  destruct (sample_mean_values _ _ Hy) as [ys [Hys Hym]].
  destruct (sample_mean_values _ _ Hz) as [zs [Hzs Hzm]].
  unfold sample_peak in Hpx, Hpy, Hpz. rewrite Hxs in Hpx. rewrite Hys in Hpy.
  rewrite Hzs in Hpz. cbn [bind_result] in Hpx, Hpy, Hpz.
  unfold tolerance_check. rewrite Hxs, Hys, Hzs. cbn [bind_result].
  rewrite Hxm, Hym, Hzm. cbn [bind_result].
  unfold freefall_magnitude in Hm.
  destruct (fsquare x_ofs) as [x2 | e]; [|discriminate]. cbn [bind_result] in *.
  destruct (fsquare y_ofs) as [y2 | e]; [|discriminate]. cbn [bind_result] in *.
  destruct (fsquare z_ofs) as [z2 | e]; [|discriminate]. cbn [bind_result] in *.
  rewrite Hm. cbn [bind_result]. unfold off_by_half in Hoff. rewrite Hoff.
  rewrite Hpx, Hpy, Hpz. reflexivity.
Qed.

Lemma process_samples_verdict (gcmd : bool) (retries : Z)
    (samples_ : list (option (Accel_Measurement F))) (s : System F) (verdict : Verdict F) :
  tolerance_check (tap_thresh (endstop s)) samples_ = Ok verdict ->
  process_samples gcmd retries samples_ s
  = match verdict with
    | BadFreefall measured => freefall_step gcmd retries measured s
    | BadNoise noise => noise_step gcmd retries noise s
    | Within x_ofs y_ofs z_ofs =>
        (for_each [(x_ofs, Pos0); (y_ofs, Pos1); (z_ofs, Pos2)]
           (write_offset (wrapper_axes_map (endstop s))) ;;
         emit (Respond gcmd SuccessfullyCalibrated) ;;
         set_calibrated true) s
    end.
Proof.
  intro Hcheck. unfold process_samples, bind at 1, get_endstop. cbn [fst snd].
  unfold bind at 1, lift. rewrite Hcheck. destruct verdict; reflexivity.
Qed.

(** The retry budget of the self-calibration, 3 by default: from
    a state with no callback pending, [calibrate(gcmd, retries)] and the
    callbacks it leads to make at most [retries + 1] measurement attempts
    and, when nothing raises, leave no callback pending; the reports are
    retry reports counting down from [retries - 1], one for each failed
    attempt, then one final report.  If no attempt is reported as a success
    (every measurement was out of tolerance), there are exactly [retries]
    retries, then an abort, after [retries + 1] attempts, and the
    calibrated flag is as it was before; if the first attempt is reported
    as a success (its measurement was within tolerance), it is the only
    attempt and the probe is marked calibrated.  An attempt is out of
    tolerance when the magnitude of its mean vector differs from standard
    gravity by more than half of it, or else when the largest per-axis peak
    deviation exceeds [tap_thresh]; it then reports a retry and calls
    [calibrate] with one retry less while [retries] is positive, and
    reports an abort otherwise. *)
Theorem calibration_retries_bounded :
  forall (s : System F) (gcmd : bool) (retries : option Z),
    let budget := match retries with Some r => r | None => 3 end in
    timers s = [] ->
    0 <= budget ->
    let out := calibration gcmd retries (S (Z.to_nat budget)) s in
    (exists added,
       trace (snd out) = trace s ++ added
       /\ (attempts added <= Z.to_nat budget + 1)%nat
       /\ (fst out = Ok tt ->
           timers (snd out) = []
           /\ (exists (k : nat) (final : Report),
                 Z.of_nat k <= budget
                 /\ (final = Aborting \/ final = Succeeded)
                 /\ reports added = countdown budget k ++ [final]
                 /\ attempts added = S k)
           /\ (~ In Succeeded (reports added) ->
               reports added = countdown budget (Z.to_nat budget) ++ [Aborting]
               /\ attempts added = S (Z.to_nat budget)
               /\ calibrated (endstop (snd out)) = calibrated (endstop s))
           /\ (hd_error (reports added) = Some Succeeded ->
               reports added = [Succeeded]
               /\ attempts added = 1%nat
               /\ calibrated (endstop (snd out)) = true)))
    /\ (forall (s1 : System F) (left_ : Z) (samples_ : list (option (Accel_Measurement F)))
               (x_ofs y_ofs z_ofs measured : F),
          sample_mean (@accel_x F) samples_ = Ok x_ofs ->
          sample_mean (@accel_y F) samples_ = Ok y_ofs ->
          sample_mean (@accel_z F) samples_ = Ok z_ofs ->
          freefall_magnitude x_ofs y_ofs z_ofs = Ok measured ->
          (off_by_half measured = true ->
           process_samples gcmd left_ samples_ s1 = freefall_step gcmd left_ measured s1)
          /\ (forall x_m y_m z_m : F,
                off_by_half measured = false ->
                sample_peak (@accel_x F) samples_ x_ofs = Ok x_m ->
                sample_peak (@accel_y F) samples_ y_ofs = Ok y_m ->
                sample_peak (@accel_z F) samples_ z_ofs = Ok z_m ->
                fltb (tap_thresh (endstop s1)) (py_max_from x_m [y_m; z_m]) = true ->
                process_samples gcmd left_ samples_ s1
                = noise_step gcmd left_ (py_max_from x_m [y_m; z_m]) s1)).
Proof.
  intros s gcmd retries budget Hidle Hpos out.
  assert (Hbudget : budget = match retries with Some r => r | None => DEFAULT_RETRIES end)
    by reflexivity.
  split.
  2:{ intros s1 left_ samples_ x_ofs y_ofs z_ofs measured Hx Hy Hz Hm. split.
      - intro Hoff.
        rewrite (@process_samples_verdict gcmd left_ samples_ s1 (BadFreefall measured));
          [reflexivity|].
        apply (freefall_out_of_tolerance _ _ Hx Hy Hz Hm Hoff).
      - intros x_m y_m z_m Hoff Hpx Hpy Hpz Hnoise.
        rewrite (@process_samples_verdict gcmd left_ samples_ s1
                   (BadNoise (py_max_from x_m [y_m; z_m]))); [reflexivity|].
        rewrite (noise_out_of_tolerance _ _ Hx Hy Hz Hm Hoff Hpx Hpy Hpz), Hnoise.
        reflexivity. }
  subst out. unfold calibration, bind.
  destruct (calibrate_schedules gcmd retries s) as [He0 [added0 [Htr0 [Hr0 Hcase]]]].
  rewrite <- Hbudget in Hcase.
  destruct (calibrate gcmd retries s) as [[u | e] s1]; cbn [fst snd] in *.
  2:{ exists added0. destruct Hcase as [Ha0 _].
      split; [exact Htr0|]. split; [lia | discriminate]. }
  destruct Hcase as [Ha0 Ht0]. rewrite Hidle in Ht0. cbn [app] in Ht0.
  destruct (@reactor_run_outcome (S (Z.to_nat budget)) gcmd budget s1 Hpos Ht0 ltac:(lia))
    as [added [Htr [Ha Hok]]].
  exists (added0 ++ added). rewrite Htr, Htr0, app_assoc. split; [reflexivity|].
  rewrite attempts_app, reports_app, Ha0, Hr0. cbn [app]. split; [lia|].
  intro Hres. destruct (Hok Hres) as [Hdone [k [final [Hk [Hr [Hak Hfinal]]]]]].
  split; [exact Hdone|]. rewrite Hr, Hak. split; [|split].
  - exists k, final. repeat split; try assumption; try lia.
    destruct final; [contradiction | left; reflexivity | right; reflexivity].
  - intro Hnone. destruct final as [n | |]; [contradiction | |].
    + destruct Hfinal as [Hkb He].
      assert (Hkk : k = Z.to_nat budget) by lia.
      split; [rewrite Hkk; reflexivity|]. split; [rewrite Hkk; reflexivity|].
      congruence.
    + exfalso. apply Hnone. apply in_or_app. right. left. reflexivity.
  - intro Hfirst. destruct k as [| k]; [|discriminate].
    cbn [countdown app hd_error] in *. injection Hfirst as ->.
    repeat split. exact Hfinal.
Qed.

Lemma register_writes_app (a b : list (Event F)) :
  register_writes (a ++ b) = register_writes a ++ register_writes b.
Proof. unfold register_writes. apply flat_map_app. Qed.

Lemma low_byte (r : Z) : Z.land (Z.land 0xFF r) 0xFF = r mod 256.
Proof.
  rewrite (Z.land_comm 0xFF r), <- Z.land_assoc. change (Z.land 0xFF 0xFF) with (Z.ones 8).
  rewrite Z.land_ones by lia. reflexivity.
Qed.

Lemma set_reg_writes (reg val minclock : Z) (s : System F) :
  endstop (snd (set_reg reg val minclock s)) = endstop s
  /\ exists added,
       trace (snd (set_reg reg val minclock s)) = trace s ++ added
       /\ register_writes added = [(reg, Z.land val 0xFF)]
       /\ reports added = [].
Proof.
  unfold set_reg, read_reg, bind, emit, get, lift. cbn [fst snd trace endstop].
  split.
  - destruct (getitem _ 1) as [stored | e]; [|reflexivity].
    destruct (negb (stored =? val)); reflexivity.
  - exists [SpiSend [reg; Z.land val 0xFF] minclock; SpiTransfer [Z.lor reg REG_MOD_READ; 0]].
    split; [|split; reflexivity].
    destruct (getitem _ 1) as [stored | e]; cbn [snd trace].
    + destruct (negb (stored =? val)); cbn [snd trace raise ret];
        rewrite <- app_assoc; reflexivity.
    + rewrite <- app_assoc. reflexivity.
Qed.

Lemma offset_value_rounding (ofs axis_scale : F) :
  offset_value ofs axis_scale
  = bind_result (offset_rounding ofs axis_scale) (fun r => Ok (Z.land 0xFF r)).
Proof.
  unfold offset_value, offset_rounding.
  destruct (py_div (fneg ofs) axis_scale) as [q | e]; [|reflexivity]. cbn [bind_result].
  destruct (py_div SCALE OFS_SCALE) as [ratio | e]; reflexivity.
Qed.

Lemma write_offset_written (axes : AxesMap F) (ofs : F) (axis : axis_pos) (s : System F) :
  fst (write_offset axes (ofs, axis) s) = Ok tt ->
  exists r : Z,
    offset_rounding ofs (snd (axes_entry axes axis)) = Ok r
    /\ endstop (snd (write_offset axes (ofs, axis) s)) = endstop s
    /\ exists added,
         trace (snd (write_offset axes (ofs, axis) s)) = trace s ++ added
         /\ register_writes added = [(ofs_regs (fst (axes_entry axes axis)), r mod 256)]
         /\ reports added = [].
Proof.
  unfold write_offset, bind, lift. rewrite offset_value_rounding.
  destruct (offset_rounding ofs (snd (axes_entry axes axis))) as [r | e];
    cbn [bind_result fst snd]; [|discriminate].
  intros _. exists r. split; [reflexivity|].
  destruct (set_reg_writes (ofs_regs (fst (axes_entry axes axis))) (Z.land 0xFF r) 0 s)
    as [He [added [Htr [Hw Hr]]]].
  split; [exact He|]. exists added. rewrite low_byte in Hw. repeat split; assumption.
Qed.

Ltac unbind H :=
  repeat match type of H with
         | context [bind_result ?r _] =>
             let E := fresh "E" in
             destruct r eqn:E; cbn [bind_result] in H; [|discriminate H]
         | context [if ?b then _ else _] => destruct b; [discriminate H|]
         end.

Lemma tolerance_check_means (thresh : F) (samples_ : list (option (Accel_Measurement F)))
    (x_ofs y_ofs z_ofs : F) :
  tolerance_check thresh samples_ = Ok (Within x_ofs y_ofs z_ofs) ->
  sample_mean (@accel_x F) samples_ = Ok x_ofs
  /\ sample_mean (@accel_y F) samples_ = Ok y_ofs
  /\ sample_mean (@accel_z F) samples_ = Ok z_ofs.
Proof.
  unfold tolerance_check, sample_mean. intro Hcheck. unbind Hcheck.
  injection Hcheck as -> -> ->. cbn [bind_result]. repeat split; assumption.
Qed.

(** C6, as the code has it. On calibration success (the measurement is
    within tolerance and no register write fails), the three writes that
    follow are, for axis 0, 1 and 2 in this order, to the offset register
    of the axis the axis map sends it to, and the value written is the low
    byte, [mod 256], of
    [round(-mean / axisScale * (decodeScale / registerScale))], with
    [mean] the per-axis sample mean; then success is reported and the
    probe is marked calibrated. *)
Theorem offset_registers_written :
  forall (gcmd : bool) (retries : Z) (samples_ : list (option (Accel_Measurement F)))
         (s : System F) (x_ofs y_ofs z_ofs : F),
    tolerance_check (tap_thresh (endstop s)) samples_ = Ok (Within x_ofs y_ofs z_ofs) ->
    fst (process_samples gcmd retries samples_ s) = Ok tt ->
    let out := process_samples gcmd retries samples_ s in
    let axes := wrapper_axes_map (endstop s) in
    sample_mean (@accel_x F) samples_ = Ok x_ofs
    /\ sample_mean (@accel_y F) samples_ = Ok y_ofs
    /\ sample_mean (@accel_z F) samples_ = Ok z_ofs
    /\ exists (rx ry rz : Z) (added : list (Event F)),
         offset_rounding x_ofs (snd (axes_entry axes Pos0)) = Ok rx
         /\ offset_rounding y_ofs (snd (axes_entry axes Pos1)) = Ok ry
         /\ offset_rounding z_ofs (snd (axes_entry axes Pos2)) = Ok rz
         /\ trace (snd out) = trace s ++ added
         /\ register_writes added
            = [(ofs_regs (fst (axes_entry axes Pos0)), rx mod 256);
               (ofs_regs (fst (axes_entry axes Pos1)), ry mod 256);
               (ofs_regs (fst (axes_entry axes Pos2)), rz mod 256)]
         /\ reports added = [Succeeded]
         /\ calibrated (endstop (snd out)) = true.
Proof.
  intros gcmd retries samples_ s x_ofs y_ofs z_ofs Hcheck Hok out axes.
  destruct (tolerance_check_means _ _ Hcheck) as [Hx [Hy Hz]].
  split; [exact Hx|]. split; [exact Hy|]. split; [exact Hz|].
  assert (Hrun : process_samples gcmd retries samples_ s
                 = (for_each [(x_ofs, Pos0); (y_ofs, Pos1); (z_ofs, Pos2)]
                      (write_offset axes) ;;
                    emit (Respond gcmd SuccessfullyCalibrated) ;;
                    set_calibrated true) s).
  { unfold process_samples, bind at 1, get_endstop. cbn [fst snd].
    unfold bind at 1, lift. rewrite Hcheck. reflexivity. }
  subst out. rewrite Hrun in *. clear Hrun.
  cbn [for_each] in *. unfold bind in *.
  pose proof (@write_offset_written axes x_ofs Pos0 s) as H0x.
  destruct (write_offset axes (x_ofs, Pos0) s) as [[[] | e] s1]; cbn [fst snd] in *;
    [|discriminate].
  destruct (H0x eq_refl) as [rx [Hrx [He1 [added1 [Htr1 [Hw1 Hr1]]]]]].
  pose proof (@write_offset_written axes y_ofs Pos1 s1) as H0y.
  destruct (write_offset axes (y_ofs, Pos1) s1) as [[[] | e] s2]; cbn [fst snd] in *;
    [|discriminate].
  destruct (H0y eq_refl) as [ry [Hry [He2 [added2 [Htr2 [Hw2 Hr2]]]]]].
  pose proof (@write_offset_written axes z_ofs Pos2 s2) as H0z.
  destruct (write_offset axes (z_ofs, Pos2) s2) as [[[] | e] s3]; cbn [fst snd] in *;
    [|discriminate].
  destruct (H0z eq_refl) as [rz [Hrz [He3 [added3 [Htr3 [Hw3 Hr3]]]]]].
  exists rx, ry, rz, (added1 ++ added2 ++ added3 ++ [Respond gcmd SuccessfullyCalibrated]).
  cbn [ret emit set_calibrated fst snd trace endstop calibrated].
  repeat split; try assumption.
  - rewrite Htr3, Htr2, Htr1, <- !app_assoc. reflexivity.
  - rewrite !register_writes_app, Hw1, Hw2, Hw3. reflexivity.
  - rewrite !reports_app, Hr1, Hr2, Hr3. reflexivity.
Qed.

(** C8. Calling [start_measurements] while the session is measuring
    returns at once and changes nothing: the objects, the timers and the
    trace are as before, so nothing was sent; calling
    [finish_measurements] while idle sends nothing either and returns the
    result of [ADXL345Results()]: no samples, zero drops, zero overflows,
    zero timing statistics, and [decode_samples] of it is the empty
    list. *)
Theorem start_finish_guards :
  forall (s : System F),
    (is_measuring (adxl345 s) = true ->
     forall rate : option Z, start_measurements rate s = (Ok tt, s))
    /\ (is_measuring (adxl345 s) = false ->
        finish_measurements s = (Ok ADXL345Results_init, s)
        /\ samples (ADXL345Results_init (F := F)) = []
        /\ drops (ADXL345Results_init (F := F)) = 0
        /\ overflows (ADXL345Results_init (F := F)) = 0
        /\ time_per_sample (ADXL345Results_init (F := F)) = of_dec 0
        /\ start_range (ADXL345Results_init (F := F)) = of_dec 0
        /\ end_range (ADXL345Results_init (F := F)) = of_dec 0
        /\ decode_samples (ADXL345Results_init (F := F)) = (Ok [], ADXL345Results_init)).
Proof.
  intro s. split.
  - intros Hmeasuring rate. unfold start_measurements, bind, get_adxl345.
    rewrite Hmeasuring. reflexivity.
  - intro Hidle. split; [|repeat split].
    unfold finish_measurements, bind, get_adxl345. rewrite Hidle. reflexivity.
Qed.

End SessionProofs.

(** ** Probe moves and commands *)

Section CommandProofs.

Context {F : Type} `{FloatMath F} {env : Collaborators F}.

Lemma extend_extend (s : System F) (a b : list (Event F)) :
  extend (extend s a) b = extend s (a ++ b).
Proof. unfold extend. cbn [adxl345 endstop timers trace]. rewrite app_assoc. reflexivity. Qed.

Lemma extend_nil (s : System F) : extend s [] = s.
Proof.
  destruct s as [a w t tr]. unfold extend. cbn [adxl345 endstop timers trace].
  rewrite app_nil_r. reflexivity.
Qed.

Lemma read_reg_run (reg : Z) (s : System F) :
  read_reg reg s
  = (getitem (spi_transfer_response (trace s) [Z.lor reg REG_MOD_READ; 0x00]) 1,
     extend s [reading reg]).
Proof. reflexivity. Qed.

Lemma set_reg_run (reg val minclock : Z) (s : System F) :
  set_reg reg val minclock s
  = (match getitem (spi_transfer_response
                      (trace s ++ [SpiSend [reg; Z.land val 0xFF] minclock])
                      [Z.lor reg REG_MOD_READ; 0x00]) 1 with
     | Ok stored_val =>
         if stored_val =? val then Ok tt
         else Raise (CommandError "Failed to set ADXL345 register")
     | Raise e => Raise e
     end,
     extend s [SpiSend [reg; Z.land val 0xFF] minclock; reading reg]).
Proof.
  unfold set_reg, read_reg, bind, emit, get, lift, extend, reading.
  cbn [fst snd trace adxl345 endstop timers].
  rewrite <- app_assoc. cbn [app].
  destruct (getitem _ 1) as [stored | e]; [|reflexivity].
  destruct (stored =? val); reflexivity.
Qed.

Lemma finish_measurements_state :
  forall s : System F,
    is_measuring (adxl345 s) = true ->
    let out := finish_measurements s in
    let self := adxl345 s in
    let print_time := last_move_time (trace s) in
    adxl345 (snd out)
    = {| query_rate := 0;
         last_tx_time := print_time;
         data_rate := data_rate self;
         axes_map := axes_map self;
         raw_samples := [];
         last_sequence := last_sequence self;
         samples_start1 := samples_start1 self;
         samples_start2 := samples_start2 self |}
    /\ is_measuring (adxl345 (snd out)) = false
    /\ endstop (snd out) = endstop s
    /\ timers (snd out) = timers s
    /\ exists logged : list (Event F),
         trace (snd out)
         = trace s ++ [GetLastMoveTime;
                       QueryAdxl345End [oid; 0; 0] (print_time_to_clock print_time)]
                   ++ logged
         /\ match fst out with
            | Ok res => exists total, total_count res = Some total
                                      /\ logged = [LogFinished total]
            | Raise _ => logged = []
            end.
Proof.
  intros s Hmeasuring out self print_time. subst out.
  unfold finish_measurements, bind, get_adxl345, get, emit, set_adxl345.
  rewrite Hmeasuring. cbn [negb fst snd trace adxl345 endstop timers].
  destruct (setup_data _ _ _ _ _ _ _ _ _) as [[u | e] res];
    unfold raise, attr; cbn [fst snd adxl345 endstop timers trace is_measuring query_rate].
  - destruct (total_count res) as [total |] eqn:Htotal;
      unfold ret, raise, bind, emit; cbn [fst snd adxl345 endstop timers trace].
    + repeat split. exists [LogFinished total]. rewrite <- !app_assoc. cbn [app].
      split; [reflexivity|]. exists total. split; [exact Htotal | reflexivity].
    + repeat split. exists []. rewrite <- !app_assoc. split; reflexivity.
  - repeat split. exists []. rewrite <- !app_assoc. split; reflexivity.
Qed.

(** X10. [finish_measurements] on a measuring driver stops the session
    whether it returns or raises: afterwards [query_rate] is 0,
    [raw_samples] is empty, [last_tx_time] is the toolhead's last move time,
    the other attributes, the probe object and the timers are as before;
    the stop query [query_adxl345 oid 0 0] was sent once, and the log line
    is written only when the call returns. *)
Theorem finish_measurements_stops_session :
  forall s : System F,
    is_measuring (adxl345 s) = true ->
    let out := finish_measurements s in
    let self := adxl345 s in
    let print_time := last_move_time (trace s) in
    adxl345 (snd out)
    = {| query_rate := 0;
         last_tx_time := print_time;
         data_rate := data_rate self;
         axes_map := axes_map self;
         raw_samples := [];
         last_sequence := last_sequence self;
         samples_start1 := samples_start1 self;
         samples_start2 := samples_start2 self |}
    /\ is_measuring (adxl345 (snd out)) = false
    /\ endstop (snd out) = endstop s
    /\ timers (snd out) = timers s
    /\ exists logged : list (Event F),
         trace (snd out)
         = trace s ++ [GetLastMoveTime;
                       QueryAdxl345End [oid; 0; 0] (print_time_to_clock print_time)]
                   ++ logged
         /\ match fst out with
            | Ok res => exists total, total_count res = Some total
                                      /\ logged = [LogFinished total]
            | Raise _ => logged = []
            end.
Proof.
  intros s Hmeasuring. exact (finish_measurements_state s Hmeasuring).
Qed.

(** X11. [finish_measurements] on a measuring driver raises
    [AttributeError] when no block was buffered or the final sequence number
    is 0 ([setup_data] returns early and [res.total_count] does not exist),
    raises [ZeroDivisionError] when the expected total is 0, and otherwise
    returns the results with the buffered blocks, the expected total, the
    drop count and the firmware's overflow count. *)
Theorem finish_measurements_outcome :
  forall s : System F,
    is_measuring (adxl345 s) = true ->
    let params := query_end_response (trace s ++ [GetLastMoveTime]) in
    let raw := raw_samples (adxl345 s) in
    let end_sequence := convert_sequence (adxl345 s) (end_sequence_lo params) in
    (raw = [] \/ end_sequence = 0 ->
     fst (finish_measurements s) = Raise AttributeError)
    /\ (raw <> [] -> end_sequence <> 0 -> expected_count raw end_sequence = 0 ->
        fst (finish_measurements s) = Raise ZeroDivisionError)
    /\ (raw <> [] -> end_sequence <> 0 -> expected_count raw end_sequence <> 0 ->
        exists res : ADXL345Results F,
          fst (finish_measurements s) = Ok res
          /\ res_raw_samples res = Some raw
          /\ total_count res = Some (expected_count raw end_sequence)
          /\ drops res = expected_count raw end_sequence - received_count raw
          /\ overflows res = limit_count params).
Proof.
  intros s Hmeasuring params raw end_sequence.
  unfold finish_measurements, bind, get_adxl345, get, emit, set_adxl345.
  rewrite Hmeasuring. cbn [negb fst snd trace adxl345 endstop timers].
  fold params. fold raw. fold end_sequence.
  split; [|split].
  - intro Hempty. unfold setup_data.
    destruct raw as [| b rest]; [reflexivity|].
    destruct Hempty as [Hraw | Hend]; [discriminate|].
    rewrite Hend. reflexivity.
  - intros Hraw Hend Htotal. unfold setup_data.
    destruct raw as [| b rest]; [congruence|].
    destruct (Z.eqb_spec end_sequence 0); [congruence|].
    rewrite Htotal. reflexivity.
  - intros Hraw Hend Htotal. rewrite setup_data_ok by assumption.
    unfold attr, ret, bind, emit. cbn [total_count fst snd].
    eexists. split; [reflexivity|]. repeat split.
Qed.


Lemma bind_run {S A B : Type} (m : M S A) (k : A -> M S B) (s : S) :
  bind m k s
  = match m s with
    | (Ok a, s1) => k a s1
    | (Raise e, s1) => (Raise e, s1)
    end.
Proof. reflexivity. Qed.

Lemma ret_bind {S A B : Type} (a : A) (k : A -> M S B) (s : S) :
  bind (ret a) k s = k a s.
Proof. reflexivity. Qed.

Lemma bind_bind {S A B C : Type} (m : M S A) (k1 : A -> M S B) (k2 : B -> M S C) (s : S) :
  bind m (fun a => bind (k1 a) k2) s = bind (bind m k1) k2 s.
Proof. unfold bind. destruct (m s) as [[a | e] s1]; reflexivity. Qed.

Lemma getitem_error {A : Type} (l : list A) (i : Z) (e : exn) :
  getitem l i = Raise e -> e = IndexError.
Proof. unfold getitem. destruct (nth_error l (Z.to_nat i)); congruence. Qed.

Lemma index_bus_error (e : exn) : e = IndexError -> bus_error e.
Proof. intro He. left. exact He. Qed.

Lemma command_bus_error (msg : string) : bus_error (CommandError msg).
Proof. right. exists msg. reflexivity. Qed.

Lemma is_initialized_bus (s : System F) :
  exists added,
    snd (is_initialized s) = extend s added
    /\ register_writes added = []
    /\ forall e, fst (is_initialized s) = Raise e -> bus_error e.
Proof.
  unfold is_initialized. rewrite bind_run, read_reg_run.
  destruct (getitem _ 1) as [dev_id | e] eqn:Hid.
  2:{ exists [reading REG_DEVID]. split; [reflexivity|]. split; [reflexivity|].
      cbn [fst]. intros e' He'.
      injection He' as <-. apply index_bus_error, (getitem_error _ _ Hid). }
  destruct (dev_id =? ADXL345_DEV_ID).
  - rewrite bind_run, read_reg_run.
    exists [reading REG_DEVID; reading REG_DATA_FORMAT].
    match goal with |- context [getitem ?l 1] =>
      destruct (getitem l 1) as [fmt | e] eqn:Hfmt end; cbn [fst snd ret];
      rewrite extend_extend; (split; [reflexivity|]); (split; [reflexivity|]);
      intros e' He'; [discriminate|].
    injection He' as <-. apply index_bus_error, (getitem_error _ _ Hfmt).
  - exists [reading REG_DEVID]. split; [reflexivity|]. split; [reflexivity|].
    intros e' He'. discriminate.
Qed.

Lemma set_reg_error (reg val minclock : Z) (s : System F) (e : exn) :
  fst (set_reg reg val minclock s) = Raise e -> bus_error e.
Proof.
  rewrite set_reg_run. cbn [fst].
  destruct (getitem _ 1) as [stored | e'] eqn:Hstored.
  - destruct (stored =? val); [discriminate|].
    intro He. injection He as <-. apply command_bus_error.
  - intro He. injection He as <-. apply index_bus_error, (getitem_error _ _ Hstored).
Qed.

Lemma initialize_bus (s : System F) :
  exists added,
    snd (initialize s) = extend s added
    /\ (fst (initialize s) = Ok tt ->
        register_writes added = [(REG_POWER_CTL, 0); (REG_DATA_FORMAT, 0x0B)])
    /\ forall e, fst (initialize s) = Raise e -> bus_error e.
Proof.
  unfold initialize. rewrite bind_run.
  pose proof (@set_reg_error REG_POWER_CTL 0 0 s) as Herr1.
  rewrite set_reg_run in *. cbn [fst] in Herr1.
  destruct (getitem _ 1) as [stored | e].
  2:{ eexists. split; [reflexivity|]. split; [discriminate | exact Herr1]. }
  destruct (stored =? 0).
  2:{ eexists. split; [reflexivity|]. split; [discriminate | exact Herr1]. }
  clear Herr1. rewrite bind_run, read_reg_run.
  match goal with |- context [getitem ?l 1] =>
    destruct (getitem l 1) as [dev_id | e] eqn:Hid end.
  2:{ eexists. cbn [fst snd]. rewrite extend_extend. split; [reflexivity|].
      split; [discriminate|]. intros e' He'. injection He' as <-.
      apply index_bus_error, (getitem_error _ _ Hid). }
  destruct (dev_id =? ADXL345_DEV_ID); cbn [negb].
  2:{ eexists. cbn [fst snd raise]. rewrite extend_extend. split; [reflexivity|].
      split; [discriminate|]. intros e' He'. injection He' as <-.
      apply command_bus_error. }
  match goal with |- context [set_reg ?r ?v ?c ?s1] =>
    pose proof (@set_reg_error r v c s1) as Herr2 end.
  rewrite set_reg_run in *. cbn [snd fst] in *. rewrite ?extend_extend in *.
  eexists. split; [reflexivity|]. split; [intros _; reflexivity | exact Herr2].
Qed.

(** The common opening of [start_measurements], [calibrate] and
    [probe_prepare]: [if not is_initialized(): initialize()]. *)
Lemma ensure_initialized_bus (s : System F) :
  exists added,
    snd ((init <- is_initialized ;; if init then ret tt else initialize) s) = extend s added
    /\ (fst ((init <- is_initialized ;; if init then ret tt else initialize) s) = Ok tt ->
        register_writes added = []
        \/ register_writes added = [(REG_POWER_CTL, 0); (REG_DATA_FORMAT, 0x0B)])
    /\ forall e,
         fst ((init <- is_initialized ;; if init then ret tt else initialize) s) = Raise e ->
         bus_error e.
Proof.
  rewrite bind_run.
  destruct (is_initialized_bus s) as [added1 [Hs1 [Hw1 Herr1]]].
  destruct (is_initialized s) as [[init | e] s1]; cbn [fst snd] in Hs1, Herr1; subst s1.
  2:{ exists added1. split; [reflexivity|]. split; [discriminate|].
      intros e0 He0. injection He0 as <-. apply Herr1. reflexivity. }
  destruct init.
  - exists added1. split; [reflexivity|]. split; [|discriminate]. intros _. left. exact Hw1.
  - destruct (initialize_bus (extend s added1)) as [added2 [Hs2 [Hw2 Herr2]]].
    exists (added1 ++ added2). rewrite Hs2, extend_extend. split; [reflexivity|].
    split; [|exact Herr2].
    intro Hok. right. rewrite register_writes_app, Hw1, (Hw2 Hok). reflexivity.
Qed.

Lemma query_rate_code (rate code : Z) :
  QUERY_RATES rate = Ok code -> 0 < rate /\ Z.land code 0xFF = code.
Proof.
  unfold QUERY_RATES. intro Hcode.
  repeat match type of Hcode with
         | (if ?r =? ?n then _ else _) = _ =>
             destruct (Z.eqb_spec r n);
             [injection Hcode as <-; split; [lia | reflexivity]|]
         end.
  discriminate.
Qed.


Ltac step_set_reg failed :=
  lazymatch goal with
  | |- context [bind (set_reg ?r ?v ?c) ?k ?s0] =>
      let Herr := fresh "Herr" in
      pose proof (@set_reg_error r v c s0) as Herr;
      rewrite bind_run, set_reg_run; rewrite set_reg_run in Herr; cbn [fst] in Herr;
      let stored := fresh "stored" in
      lazymatch type of Herr with
      | context [getitem ?l 1] => destruct (getitem l 1) as [stored | ?]
      end;
      [ let Heq := fresh "Heq" in
        destruct (Z.eqb_spec stored v) as [Heq | ?];
        [ clear Herr; try subst stored; cbv beta iota; rewrite ?extend_extend
        | failed Herr ]
      | failed Herr ]
  end.

Ltac start_failed Herr :=
  cbv beta iota; cbn [fst snd raise]; rewrite ?extend_extend;
  cbn [extend adxl345 endstop timers trace];
  repeat split; try reflexivity; left; apply Herr; reflexivity.

(** What [start_measurements] comes to from an idle driver. *)
Lemma start_measurements_run (s : System F) (rate : option Z) :
  is_measuring (adxl345 s) = false ->
  let out := start_measurements rate s in
  let self := adxl345 s in
  let rate_ := match rate with
               | Some r => if r =? 0 then data_rate self else r
               | None => data_rate self
               end in
  endstop (snd out) = endstop s
  /\ timers (snd out) = timers s
  /\ match fst out with
     | Raise e =>
         adxl345 (snd out) = self
         /\ (bus_error e \/ (e = KeyError /\ QUERY_RATES rate_ = Raise KeyError))
     | Ok _ =>
         exists (code : Z) (before : list (Event F)) (init : list (Z * Z)),
           let print_time := last_move_time (trace s ++ before) in
           let reqclock := print_time_to_clock print_time in
           QUERY_RATES rate_ = Ok code
           /\ trace (snd out)
              = trace s ++ before
                ++ [GetLastMoveTime;
                    QueryAdxl345
                      [oid; reqclock; seconds_to_clock (fdiv (of_dec 4) (of_int rate_))]
                      reqclock]
           /\ (init = [] \/ init = [(REG_POWER_CTL, 0); (REG_DATA_FORMAT, 0x0B)])
           /\ register_writes before
              = init ++ [(REG_POWER_CTL, 0); (REG_FIFO_CTL, 0);
                         (REG_BW_RATE, code); (REG_FIFO_CTL, 0x80)]
           /\ adxl345 (snd out)
              = {| query_rate := rate_;
                   last_tx_time := print_time;
                   data_rate := data_rate self;
                   axes_map := axes_map self;
                   raw_samples := [];
                   last_sequence := 0;
                   samples_start1 := print_time;
                   samples_start2 := print_time |}
           /\ is_measuring (adxl345 (snd out)) = true
     end.
Proof.
  intros Hidle out self rate_. subst out.
  unfold start_measurements. rewrite bind_run. unfold get_adxl345. cbv beta iota.
  rewrite Hidle. fold self. fold rate_.
  rewrite bind_bind, bind_run.
  destruct (ensure_initialized_bus s) as [added0 [Hs0 [Hw0 Herr0]]].
  destruct ((init <- is_initialized ;; if init then ret tt else initialize) s)
    as [[[] | e] s0]; cbn [fst snd] in Hs0, Hw0, Herr0; subst s0;
    [|start_failed Herr0].
  specialize (Hw0 eq_refl). clear Herr0.
  step_set_reg start_failed. step_set_reg start_failed.
  rewrite bind_run. unfold lift.
  destruct (QUERY_RATES rate_) as [code | e] eqn:Hcode; cbv beta iota.
  2:{ cbn [fst snd]. rewrite ?extend_extend. repeat split; try reflexivity.
      right. unfold QUERY_RATES in Hcode.
      repeat match type of Hcode with
             | (if ?b then _ else _) = _ => destruct b; [discriminate|]
             end.
      injection Hcode as <-. split; reflexivity. }
  destruct (query_rate_code _ Hcode) as [Hpos Hbyte].
  step_set_reg start_failed. step_set_reg start_failed.
  match goal with |- context [extend s ?b] => set (before := b) end.
  assert (Hwrites : register_writes before
                    = register_writes added0
                      ++ [(REG_POWER_CTL, 0); (REG_FIFO_CTL, 0);
                          (REG_BW_RATE, code); (REG_FIFO_CTL, 0x80)]).
  { subst before. rewrite !register_writes_app. cbn [register_writes flat_map app].
    rewrite Hbyte, <- !app_assoc. reflexivity. }
  clearbody before.
  remember (extend s before) as s4 eqn:Hs4.
  assert (Ha4 : adxl345 s4 = self) by (subst s4; reflexivity).
  assert (He4 : endstop s4 = endstop s) by (subst s4; reflexivity).
  assert (Ht4 : timers s4 = timers s) by (subst s4; reflexivity).
  assert (Htr4 : trace s4 = trace s ++ before) by (subst s4; reflexivity).
  clear Hs4.
  unfold bind, get, emit, lift, py_div_int, set_adxl345.
  destruct (Z.eqb_spec rate_ 0) as [Hz | Hnz]; [lia|].
  cbn [fst snd adxl345 endstop timers trace is_measuring query_rate].
  split; [exact He4|]. split; [exact Ht4|].
  exists code, before, (register_writes added0). cbv zeta.
  rewrite Htr4, <- !app_assoc. cbn [app].
  repeat split; try assumption; try reflexivity.
  apply Z.gtb_lt. exact Hpos.
Qed.

(** X12. [start_measurements] on an idle driver either raises and leaves
    the driver object as it was, still idle, or returns with the session
    started.  It raises only a bus error, or [KeyError] for a rate that
    [QUERY_RATES] does not have, never [ZeroDivisionError].  When it returns,
    the chip was put to standby, the FIFO reset, the rate code written and
    the FIFO set to stream mode, in this order (after the two writes of
    [initialize] when the chip was not initialized), the query command was
    sent for the toolhead's last move time, the buffer is empty,
    [last_sequence] is 0 and the driver is measuring at the rate asked
    for. *)
Theorem start_measurements_all_or_nothing :
  forall (s : System F) (rate : option Z),
    is_measuring (adxl345 s) = false ->
    let out := start_measurements rate s in
    let self := adxl345 s in
    let rate_ := match rate with
                 | Some r => if r =? 0 then data_rate self else r
                 | None => data_rate self
                 end in
    endstop (snd out) = endstop s
    /\ timers (snd out) = timers s
    /\ match fst out with
       | Raise e =>
           adxl345 (snd out) = self
           /\ (bus_error e \/ (e = KeyError /\ QUERY_RATES rate_ = Raise KeyError))
       | Ok _ =>
           exists (code : Z) (before : list (Event F)) (init : list (Z * Z)),
             let print_time := last_move_time (trace s ++ before) in
             let reqclock := print_time_to_clock print_time in
             QUERY_RATES rate_ = Ok code
             /\ trace (snd out)
                = trace s ++ before
                  ++ [GetLastMoveTime;
                      QueryAdxl345
                        [oid; reqclock; seconds_to_clock (fdiv (of_dec 4) (of_int rate_))]
                        reqclock]
             /\ (init = [] \/ init = [(REG_POWER_CTL, 0); (REG_DATA_FORMAT, 0x0B)])
             /\ register_writes before
                = init ++ [(REG_POWER_CTL, 0); (REG_FIFO_CTL, 0);
                           (REG_BW_RATE, code); (REG_FIFO_CTL, 0x80)]
             /\ adxl345 (snd out)
                = {| query_rate := rate_;
                     last_tx_time := print_time;
                     data_rate := data_rate self;
                     axes_map := axes_map self;
                     raw_samples := [];
                     last_sequence := 0;
                     samples_start1 := print_time;
                     samples_start2 := print_time |}
             /\ is_measuring (adxl345 (snd out)) = true
       end.
Proof.
  intros s rate Hidle. exact (start_measurements_run s rate Hidle).
Qed.

(** X13. [set_reg] sends the register and the low byte of the value, reads
    the register back, and returns exactly when the byte read back equals the
    value; so for a value outside [0, 255], which no byte equals, it sends
    the low byte and then always raises. *)
Theorem set_reg_checks_read_back :
  forall (reg val minclock : Z) (s : System F),
    let sent := SpiSend [reg; Z.land val 0xFF] minclock in
    let response := spi_transfer_response (trace s ++ [sent]) [Z.lor reg REG_MOD_READ; 0x00] in
    snd (set_reg reg val minclock s) = extend s [sent; reading reg]
    /\ (fst (set_reg reg val minclock s) = Ok tt <-> getitem response 1 = Ok val)
    /\ ((forall b, getitem response 1 = Ok b -> 0 <= b < 256) ->
        ~ 0 <= val < 256 ->
        exists e, fst (set_reg reg val minclock s) = Raise e).
Proof.
  intros reg val minclock s sent response. rewrite set_reg_run. cbn [fst snd].
  fold sent. fold response.
  split; [reflexivity|]. split.
  - destruct (getitem response 1) as [stored | e]; [|split; discriminate].
    destruct (Z.eqb_spec stored val) as [-> | Hne]; split; intro Hx;
      try reflexivity; try discriminate.
    injection Hx as ->. contradiction.
  - intros Hbyte Hval.
    destruct (getitem response 1) as [stored | e]; [|exists e; reflexivity].
    destruct (Z.eqb_spec stored val) as [-> | Hne]; [|eexists; reflexivity].
    exfalso. apply Hval. apply Hbyte. reflexivity.
Qed.

Lemma tap_source_later (s : System F) (j : nat) :
  tap_source (extend s [reading REG_INT_SOURCE]) j = tap_source s (S j).
Proof.
  unfold tap_source. cbn [extend trace repeat]. rewrite <- app_assoc. reflexivity.
Qed.

Lemma try_clear_tap_from_reads (tries : nat) :
  forall s : System F,
    exists n : nat,
      (n <= tries)%nat
      /\ snd (try_clear_tap_from tries s) = extend s (repeat (reading REG_INT_SOURCE) n)
      /\ match fst (try_clear_tap_from tries s) with
         | Ok true =>
             exists (k : nat) (val : Z),
               n = S k /\ tap_source s k = Ok val /\ Z.land val 0x40 = 0
               /\ forall j, (j < k)%nat -> tap_pending s j
         | Ok false => n = tries /\ forall j, (j < tries)%nat -> tap_pending s j
         | Raise e =>
             exists k : nat,
               n = S k /\ tap_source s k = Raise e
               /\ forall j, (j < k)%nat -> tap_pending s j
         end.
Proof.
  induction tries as [| tries IH]; intro s.
  - exists 0%nat. cbn [try_clear_tap_from ret fst snd repeat]. rewrite extend_nil.
    split; [lia|]. split; [reflexivity|]. split; [reflexivity|]. intros j Hj. lia.
  - cbn [try_clear_tap_from]. rewrite bind_run, read_reg_run.
    assert (Hfirst : getitem (spi_transfer_response (trace s)
                                [Z.lor REG_INT_SOURCE REG_MOD_READ; 0]) 1
                     = tap_source s 0).
    { unfold tap_source. cbn [repeat]. rewrite app_nil_r. reflexivity. }
    rewrite Hfirst.
    destruct (tap_source s 0) as [val | e] eqn:Hval.
    2:{ exists 1%nat. cbn [fst snd repeat]. split; [lia|]. split; [reflexivity|].
        exists 0%nat. repeat split; [exact Hval|]. intros j Hj. lia. }
    destruct (Z.eqb_spec (Z.land val 0x40) 0) as [Hclear | Hset].
    + exists 1%nat. cbn [fst snd ret repeat]. split; [lia|]. split; [reflexivity|].
      exists 0%nat, val. repeat split; try assumption. intros j Hj. lia.
    + destruct (IH (extend s [reading REG_INT_SOURCE])) as [n [Hn [Hs Hres]]].
      exists (S n). rewrite Hs, extend_extend. cbn [repeat app].
      split; [lia|]. split; [reflexivity|].
      assert (Hshift : forall k,
                 (forall j, (j < k)%nat -> tap_pending (extend s [reading REG_INT_SOURCE]) j) ->
                 forall j, (j < S k)%nat -> tap_pending s j).
      { intros k Hk j Hj. destruct j as [| j].
        - exists val. split; assumption.
        - specialize (Hk j ltac:(lia)). unfold tap_pending in *.
          rewrite tap_source_later in Hk. exact Hk. }
      destruct (fst (try_clear_tap_from tries (extend s [reading REG_INT_SOURCE])))
        as [[|] | e].
      * destruct Hres as [k [v [Hk [Hv [Hbit Hbefore]]]]].
        exists (S k), v. rewrite tap_source_later in Hv.
        repeat split; [congruence | exact Hv | exact Hbit | apply Hshift; exact Hbefore].
      * destruct Hres as [Hk Hbefore].
        split; [congruence | apply Hshift; exact Hbefore].
      * destruct Hres as [k [Hk [Hv Hbefore]]].
        exists (S k). rewrite tap_source_later in Hv.
        repeat split; [congruence | exact Hv | apply Hshift; exact Hbefore].
Qed.

(** X14. [_try_clear_tap] reads [REG_INT_SOURCE] at most eight times and
    does nothing else.  It returns [True] at the first read that shows bit
    0x40 clear, [False] after eight reads that all showed it set, and raises
    at the first read whose response is too short. *)
Theorem try_clear_tap_bounded :
  forall s : System F,
    exists n : nat,
      (n <= 8)%nat
      /\ snd (try_clear_tap s) = extend s (repeat (reading REG_INT_SOURCE) n)
      /\ match fst (try_clear_tap s) with
         | Ok true =>
             exists (k : nat) (val : Z),
               n = S k /\ tap_source s k = Ok val /\ Z.land val 0x40 = 0
               /\ forall j, (j < k)%nat -> tap_pending s j
         | Ok false => n = 8%nat /\ forall j, (j < 8)%nat -> tap_pending s j
         | Raise e =>
             exists k : nat,
               n = S k /\ tap_source s k = Raise e
               /\ forall j, (j < k)%nat -> tap_pending s j
         end.
Proof.
  intro s. exact (try_clear_tap_from_reads 8 s).
Qed.


Context {host : Host F}.

Lemma tell_run {A : Type} (c : HostCall F) (m : M (System F) A) (p : Printer F) :
  (tell c ;; run m) p
  = (fst (m (system p)),
     {| system := snd (m (system p));
        chip_name := chip_name p;
        host_calls := host_calls p ++ [(length (trace (system p)), c)] |}).
Proof. reflexivity. Qed.

Lemma get_last_move_time_run (s : System F) :
  get_last_move_time s = (Ok (last_move_time (trace s)), extend s [GetLastMoveTime]).
Proof. reflexivity. Qed.

Ltac probe_failed Herr := cbv beta iota; cbn [fst]; discriminate.

(** X15. When [probe_prepare] returns, the probe is calibrated, the step
    generation was flushed, and the registers were written in this order:
    the two writes of [initialize] when the chip was not initialized, then
    [REG_INT_ENABLE] 0, [REG_INT_ENABLE] 0x40 and, only when no measurement
    session is running, [REG_POWER_CTL] 0x08; after that [REG_INT_SOURCE] was
    read at most eight times, the last read showing the tap interrupt clear.
    The driver object, the probe object and the timers are as before. *)
Theorem probe_prepare_arms_tap_interrupt :
  forall p : Printer F,
    fst (probe_prepare p) = Ok tt ->
    let p' := snd (probe_prepare p) in
    calibrated (endstop (system p)) = true
    /\ chip_name p' = chip_name p
    /\ host_calls p' = host_calls p ++ [(length (trace (system p)), FlushStepGeneration)]
    /\ exists (before : list (Event F)) (init : list (Z * Z)) (n : nat) (val : Z),
         system p' = extend (system p) (before ++ repeat (reading REG_INT_SOURCE) (S n))
         /\ (init = [] \/ init = [(REG_POWER_CTL, 0); (REG_DATA_FORMAT, 0x0B)])
         /\ register_writes before
            = init ++ [(REG_INT_ENABLE, 0); (REG_INT_ENABLE, 0x40)]
              ++ (if is_measuring (adxl345 (system p)) then [] else [(REG_POWER_CTL, 0x08)])
         /\ (n < 8)%nat
         /\ tap_source (extend (system p) before) n = Ok val
         /\ Z.land val 0x40 = 0.
Proof.
  intros p. unfold probe_prepare. rewrite bind_run. unfold get. cbv beta iota.
  destruct (calibrated (endstop (system p))) eqn:Hcal; cbn [negb];
    [|cbn [fst raise]; discriminate].
  rewrite tell_run. cbn [fst snd chip_name host_calls system].
  set (s := system p).
  rewrite bind_run, get_last_move_time_run. cbv beta iota zeta.
  rewrite bind_bind, bind_run.
  destruct (ensure_initialized_bus (extend s [GetLastMoveTime])) as [added0 [Hs0 [Hw0 _]]].
  match goal with |- context [bind is_initialized ?k ?s0] =>
    destruct (bind is_initialized k s0) as [[[] | e] s1] end;
    cbn [fst snd] in Hs0, Hw0; subst s1; [|probe_failed Hw0].
  specialize (Hw0 eq_refl). rewrite extend_extend.
  step_set_reg probe_failed.
  rewrite bind_run, read_reg_run.
  match goal with |- context [getitem ?l 1] => destruct (getitem l 1) as [src | ?] end;
    [cbv beta iota; rewrite ?extend_extend | probe_failed Hw0].
  step_set_reg probe_failed.
  rewrite bind_run. unfold get_adxl345. cbv beta iota.
  cbn [adxl345 extend].
  destruct (is_measuring (adxl345 s)) eqn:Hmeasuring;
    [rewrite ret_bind | step_set_reg probe_failed];
    (match goal with |- context [bind try_clear_tap ?k (extend s ?b)] =>
       set (before := b) end;
     assert (Hwrites : register_writes before
                       = register_writes added0
                         ++ [(REG_INT_ENABLE, 0); (REG_INT_ENABLE, 0x40)]
                         ++ (if is_measuring (adxl345 s) then []
                             else [(REG_POWER_CTL, 0x08)]));
     [ subst before; rewrite Hmeasuring, !register_writes_app;
       cbn [register_writes flat_map app]; rewrite <- ?app_assoc; reflexivity |];
     clearbody before; rewrite Hmeasuring in Hwrites;
     destruct (try_clear_tap_from_reads 8 (extend s before)) as [n [Hn [Hs6 Hres]]];
     rewrite bind_run; unfold try_clear_tap;
     destruct (try_clear_tap_from 8 (extend s before)) as [[[|] | e] s6];
     cbn [fst snd] in Hs6, Hres; subst s6; cbv beta iota;
     [| cbn [fst raise]; discriminate | cbn [fst]; discriminate];
     intros _; destruct Hres as [k [val [Hk [Hsrc [Hbit _]]]]]; subst n;
     split; [reflexivity|]; split; [reflexivity|]; split; [reflexivity|];
     exists before, (register_writes added0), k, val;
     cbn [ret snd]; rewrite extend_extend;
     repeat split; try assumption; try reflexivity; lia).
Qed.


(** X16. When [probe_finish] returns, the toolhead dwelt for
    [ADXL345_REST_TIME], [REG_INT_ENABLE] was written 0 no earlier than the
    clock of the last move, [REG_POWER_CTL] was written 0 only when no
    measurement session is running, and [REG_INT_SOURCE] was then read at
    most eight times, the last read showing the tap interrupt clear. *)
Theorem probe_finish_disarms_tap_interrupt :
  forall p : Printer F,
    fst (probe_finish p) = Ok tt ->
    let p' := snd (probe_finish p) in
    let s := system p in
    let clock := print_time_to_clock (last_move_time (trace s)) in
    chip_name p' = chip_name p
    /\ host_calls p' = host_calls p ++ [(length (trace s), Dwell ADXL345_REST_TIME)]
    /\ exists (n : nat) (val : Z),
         let before :=
           [GetLastMoveTime; SpiSend [REG_INT_ENABLE; 0] clock; reading REG_INT_ENABLE]
           ++ (if is_measuring (adxl345 s) then []
               else [SpiSend [REG_POWER_CTL; 0] 0; reading REG_POWER_CTL]) in
         system p' = extend s (before ++ repeat (reading REG_INT_SOURCE) (S n))
         /\ (n < 8)%nat
         /\ tap_source (extend s before) n = Ok val
         /\ Z.land val 0x40 = 0.
Proof.
  intros p. unfold probe_finish.
  rewrite tell_run. cbn [fst snd chip_name host_calls system].
  set (s := system p).
  rewrite bind_run, get_last_move_time_run. cbv beta iota zeta.
  step_set_reg probe_failed.
  rewrite bind_run. unfold get_adxl345. cbv beta iota.
  cbn [adxl345 extend].
  destruct (is_measuring (adxl345 s)) eqn:Hmeasuring;
    [rewrite ret_bind | step_set_reg probe_failed];
    (match goal with |- context [bind try_clear_tap ?k (extend s ?b)] =>
       set (before := b) end;
     destruct (try_clear_tap_from_reads 8 (extend s before)) as [n [Hn [Hs6 Hres]]];
     rewrite bind_run; unfold try_clear_tap;
     destruct (try_clear_tap_from 8 (extend s before)) as [[[|] | e] s6];
     cbn [fst snd] in Hs6, Hres; subst s6; cbv beta iota;
     [| cbn [fst raise]; discriminate | cbn [fst]; discriminate];
     intros _; destruct Hres as [k [val [Hk [Hsrc [Hbit _]]]]]; subst n;
     split; [reflexivity|]; split; [reflexivity|];
     exists k, val; cbn [ret snd]; rewrite extend_extend;
     repeat split; try assumption; try reflexivity; lia).
Qed.


Lemma skipn_added {A : Type} (l added : list A) : skipn (length l) (l ++ added) = added.
Proof.
  rewrite skipn_app, skipn_all, Nat.sub_diag. reflexivity.
Qed.

(** A self-calibration that runs to its end without a success report
    leaves the calibrated flag as it was. *)
Lemma calibration_keeps_flag (s : System F) (gcmd : bool) (retries : option Z) :
  let budget := match retries with Some r => r | None => DEFAULT_RETRIES end in
  timers s = [] ->
  0 <= budget ->
  let out := calibration gcmd retries (S (Z.to_nat budget)) s in
  fst out = Ok tt ->
  ~ In Succeeded (reports (skipn (length (trace s)) (trace (snd out)))) ->
  calibrated (endstop (snd out)) = calibrated (endstop s).
Proof.
  intros budget Hidle Hpos out. subst out. unfold calibration, bind.
  destruct (calibrate_schedules gcmd retries s) as [He0 [added0 [Htr0 [Hr0 Hcase]]]].
  fold budget in Hcase.
  destruct (calibrate gcmd retries s) as [[u | e] s1]; cbn [fst snd] in *; [|discriminate].
  destruct Hcase as [Ha0 Ht0]. rewrite Hidle in Ht0. cbn [app] in Ht0.
  destruct (@reactor_run_outcome F _ _ env (S (Z.to_nat budget)) gcmd budget s1 Hpos Ht0
              ltac:(lia)) as [added [Htr [Ha Hok]]].
  intros Hres Hnone.
  destruct (Hok Hres) as [Hdone [k [final [Hk [Hr [Hak Hfinal]]]]]].
  rewrite Htr, Htr0, <- app_assoc, skipn_added, reports_app, Hr0, Hr in Hnone.
  cbn [app] in Hnone.
  destruct final as [n | |]; [contradiction | |].
  - destruct Hfinal as [_ He]. congruence.
  - exfalso. apply Hnone. apply in_or_app. right. left. reflexivity.
Qed.

(** X17. A probe that is not calibrated refuses to probe:
    [probe_prepare] raises the command error before anything is sent to the
    toolhead or the bus.  This is the state in which a self-calibration
    leaves a probe that was not calibrated before, when it runs to its end
    without reporting success. *)
Theorem probe_prepare_requires_calibration :
  (forall p : Printer F,
     calibrated (endstop (system p)) = false ->
     probe_prepare p
     = (Raise (CommandError
                 "ADXL345 probe failed calibration, retry with ACCEL_PROBE_CALIBRATE command"),
        p))
  /\ (forall (p : Printer F) (gcmd : bool) (retries : option Z),
        let budget := match retries with Some r => r | None => 3 end in
        timers (system p) = [] ->
        0 <= budget ->
        calibrated (endstop (system p)) = false ->
        let out := run (calibration gcmd retries (S (Z.to_nat budget))) p in
        fst out = Ok tt ->
        ~ In Succeeded (reports (skipn (length (trace (system p)))
                                       (trace (system (snd out))))) ->
        probe_prepare (snd out)
        = (Raise (CommandError
                    "ADXL345 probe failed calibration, retry with ACCEL_PROBE_CALIBRATE command"),
           snd out)).
Proof.
  assert (Hguard : forall p : Printer F,
             calibrated (endstop (system p)) = false ->
             probe_prepare p
             = (Raise (CommandError
                         "ADXL345 probe failed calibration, retry with ACCEL_PROBE_CALIBRATE command"),
                p)).
  { intros p Hcal. unfold probe_prepare. rewrite bind_run. unfold get. cbv beta iota.
    rewrite Hcal. reflexivity. }
  split; [exact Hguard|].
  intros p gcmd retries budget Hidle Hpos Hcal out Hres Hnone.
  apply Hguard. subst out. unfold run in *. cbn [fst snd system] in *.
  pose proof (@calibration_keeps_flag (system p) gcmd retries Hidle Hpos Hres Hnone) as Hkeep.
  rewrite <- Hcal. exact Hkeep.
Qed.


Lemma finish_measurements_idle (s : System F) :
  is_measuring (adxl345 (snd (finish_measurements s))) = false.
Proof.
  destruct (is_measuring (adxl345 s)) eqn:Hmeasuring.
  - apply (finish_measurements_state s Hmeasuring).
  - unfold finish_measurements, bind, get_adxl345. rewrite Hmeasuring. exact Hmeasuring.
Qed.

(** X18. When [cmd_ACCELEROMETER_MEASURE] returns, it has toggled the
    session: a measuring driver is idle afterwards and the last reply is
    "measurements stopped", an idle driver is measuring afterwards and the
    last reply is "measurements started". *)
Theorem measure_command_toggles :
  forall (p : Printer F) (gcmd : GCodeCommand F),
    let out := cmd_ACCELEROMETER_MEASURE gcmd p in
    fst out = Ok tt ->
    is_measuring (adxl345 (system (snd out))) = negb (is_measuring (adxl345 (system p)))
    /\ exists k,
         last (host_calls (snd out)) (k, FlushStepGeneration)
         = (k, RespondInfo (if is_measuring (adxl345 (system p))
                            then MeasurementsStopped else MeasurementsStarted)).
Proof.
  intros p gcmd out. subst out. unfold cmd_ACCELEROMETER_MEASURE.
  rewrite bind_run. unfold get. cbv beta iota.
  destruct (is_measuring (adxl345 (system p))) eqn:Hmeasuring; cbn [negb].
  - destruct (isalnum _); cbn [negb]; [|cbn [fst raise]; discriminate].
    unfold end_query, bind, get, run, tell. rewrite Hmeasuring. cbn [negb fst snd].
    pose proof (finish_measurements_idle (system p)) as Hidle.
    destruct (finish_measurements (system p)) as [[res | e] s1]; cbn [fst snd] in *;
      [|discriminate].
    intros _. cbn [system host_calls chip_name]. split; [exact Hidle|].
    eexists. rewrite last_last. reflexivity.
  - rewrite bind_run. unfold lift.
    match goal with |- context [match param_RATE gcmd with Some _ => _ | None => _ end] =>
      destruct (match param_RATE gcmd with
                | Some r => r
                | None => Ok (data_rate (adxl345 (system p)))
                end) as [rate | e]
    end; cbv beta iota; [|cbn [fst]; discriminate].
    destruct (QUERY_RATES rate) as [code | e] eqn:Hcode; cbn [is_ok negb];
      [|cbn [fst raise]; discriminate].
    unfold bind, run, tell.
    pose proof (@start_measurements_run (system p) (Some rate) Hmeasuring) as Hstart.
    cbv zeta in Hstart.
    destruct (start_measurements (Some rate) (system p)) as [[[] | e] s1];
      cbn [fst snd] in *; [|discriminate].
    destruct Hstart as [_ [_ [c [before [init [_ [_ [_ [_ [_ Hon]]]]]]]]]].
    intros _. cbn [system host_calls chip_name]. split; [exact Hon|].
    eexists. rewrite last_last. reflexivity.
Qed.


(** X19. On an idle driver [cmd_ACCELEROMETER_MEASURE] checks the rate
    before anything is sent: a rate that [QUERY_RATES] does not have is
    answered with the command error, nothing changed; with a rate it has,
    the command raises only bus errors, the driver object then being as
    before, and when it returns the driver measures at that rate. *)
Theorem measure_command_checks_rate :
  forall (p : Printer F) (gcmd : GCodeCommand F) (rate : Z),
    is_measuring (adxl345 (system p)) = false ->
    match param_RATE gcmd with
    | Some r => r
    | None => Ok (data_rate (adxl345 (system p)))
    end = Ok rate ->
    let out := cmd_ACCELEROMETER_MEASURE gcmd p in
    match QUERY_RATES rate with
    | Raise _ =>
        out = (Raise (CommandError ("Not a valid adxl345 query rate: " ++ format_d rate)), p)
    | Ok _ =>
        match fst out with
        | Ok _ => query_rate (adxl345 (system (snd out))) = rate
        | Raise e => bus_error e /\ adxl345 (system (snd out)) = adxl345 (system p)
        end
    end.
Proof.
  intros p gcmd rate Hmeasuring Hrate out. subst out. unfold cmd_ACCELEROMETER_MEASURE.
  rewrite bind_run. unfold get. cbv beta iota. rewrite Hmeasuring.
  rewrite bind_run. unfold lift. rewrite Hrate. cbv beta iota.
  destruct (QUERY_RATES rate) as [code | e] eqn:Hcode; cbn [is_ok negb]; [|reflexivity].
  destruct (query_rate_code _ Hcode) as [Hpos _].
  unfold bind, run, tell.
  pose proof (@start_measurements_run (system p) (Some rate) Hmeasuring) as Hstart.
  cbv beta iota zeta in Hstart.
  assert (Hnz : (rate =? 0) = false) by (apply Z.eqb_neq; lia).
  rewrite Hnz in Hstart.
  destruct (start_measurements (Some rate) (system p)) as [[[] | e] s1];
    cbn [fst snd system] in *.
  - destruct Hstart as [_ [_ [c [before [init [_ [_ [_ [_ [Hself _]]]]]]]]]].
    rewrite Hself. reflexivity.
  - destruct Hstart as [_ [_ [Hself [Hbus | [_ Hkey]]]]]; [split; assumption|].
    congruence.
Qed.

Lemma remove_char_alnum (name : string) :
  all_alnum (remove_char "_" (remove_char "-" name)) = true ->
  Forall (fun c => char_isalnum c = true \/ c = "-"%char \/ c = "_"%char)
         (list_ascii_of_string name).
Proof.
  induction name as [| a rest IH]; intro Hall; [constructor|].
  cbn [list_ascii_of_string remove_char] in *.
  destruct (Ascii.eqb_spec a "-") as [-> | Hdash].
  - constructor; [right; left; reflexivity | apply IH; exact Hall].
  - cbn [remove_char] in Hall.
    destruct (Ascii.eqb_spec a "_") as [-> | Hunder].
    + constructor; [right; right; reflexivity | apply IH; exact Hall].
    + cbn [all_alnum] in Hall. apply andb_true_iff in Hall as [Ha Hrest].
      constructor; [left; exact Ha | apply IH; exact Hrest].
Qed.

(** X20. On a measuring driver [cmd_ACCELEROMETER_MEASURE] accepts a
    name only when it is not empty and made of alphanumeric characters,
    dashes and underscores, so a name with a slash is never part of the file
    name; a name it does not accept is answered with the command error,
    nothing changed and the session still running.  With an accepted name
    the results of [finish_measurements] go to the file
    [/tmp/adxl345-NAME.csv] (with the chip name before [NAME] for a chip
    that is not the default one), and nothing is written or replied when
    [finish_measurements] raises. *)
Theorem measure_command_file_name :
  forall (p : Printer F) (gcmd : GCodeCommand F),
    is_measuring (adxl345 (system p)) = true ->
    let name := match param_NAME gcmd with
                | Some n => n
                | None => strftime (trace (system p)) (host_calls p)
                end in
    let filename := csv_filename (chip_name p) name in
    let out := cmd_ACCELEROMETER_MEASURE gcmd p in
    if isalnum (remove_char "_" (remove_char "-" name))
    then name <> EmptyString
         /\ Forall (fun c => char_isalnum c = true \/ c = "-"%char \/ c = "_"%char)
                   (list_ascii_of_string name)
         /\ (char_isalnum "/" = false -> ~ In "/"%char (list_ascii_of_string name))
         /\ match fst out with
            | Ok _ =>
                exists (res : ADXL345Results F) (k : nat),
                  fst (finish_measurements (system p)) = Ok res
                  /\ host_calls (snd out)
                     = host_calls p
                       ++ [(k, WriteToFile filename res);
                           (k, RespondInfo (WritingRawData filename));
                           (k, RespondInfo MeasurementsStopped)]
            | Raise _ => host_calls (snd out) = host_calls p
            end
    else out = (Raise (CommandError "Invalid adxl345 NAME parameter"), p).
Proof.
  intros p gcmd Hmeasuring name filename out. subst out. unfold cmd_ACCELEROMETER_MEASURE.
  rewrite bind_run. unfold get. cbv beta iota. rewrite Hmeasuring. fold name.
  destruct (isalnum (remove_char "_" (remove_char "-" name))) eqn:Hvalid; cbn [negb];
    [|reflexivity].
  assert (Hchars : Forall (fun c => char_isalnum c = true \/ c = "-"%char \/ c = "_"%char)
                          (list_ascii_of_string name)).
  { apply remove_char_alnum. unfold isalnum in Hvalid.
    destruct (remove_char "_" (remove_char "-" name)); [discriminate | exact Hvalid]. }
  split; [intro Hempty; rewrite Hempty in Hvalid; discriminate|].
  split; [exact Hchars|]. split.
  { intros Hslash Hin. rewrite Forall_forall in Hchars.
    destruct (Hchars _ Hin) as [Ha | [Hd | Hu]]; [congruence | discriminate | discriminate]. }
  unfold end_query, bind, get, run, tell. rewrite Hmeasuring. cbn [negb fst snd].
  fold filename.
  destruct (finish_measurements (system p)) as [[res | e] s1];
    cbn [fst snd system host_calls chip_name]; [|reflexivity].
  exists res, (length (trace s1)). split; [reflexivity|].
  rewrite <- !app_assoc. reflexivity.
Qed.


Lemma finish_measurements_empty (s : System F) :
  is_measuring (adxl345 s) = true ->
  raw_samples (adxl345 s) = [] ->
  fst (finish_measurements s) = Raise AttributeError.
Proof.
  intros Hmeasuring Hempty.
  unfold finish_measurements, bind, get_adxl345, get, emit, set_adxl345.
  rewrite Hmeasuring, Hempty. reflexivity.
Qed.

Lemma finish_measurements_samples (s : System F) (res : ADXL345Results F) :
  fst (finish_measurements s) = Ok res -> samples res = [].
Proof.
  unfold finish_measurements, bind, get_adxl345, get, emit, set_adxl345.
  destruct (is_measuring (adxl345 s)); cbn [negb fst snd].
  2:{ intro Hres. injection Hres as <-. reflexivity. }
  match goal with |- context [setup_data ?a ?r ?e ?o ?t1 ?t2 ?t3 ?t4 ?i] =>
    assert (Hsamples : samples (snd (setup_data a r e o t1 t2 t3 t4 i)) = []);
    [ unfold setup_data; destruct r; [reflexivity|];
      destruct (e =? 0); [reflexivity|];
      match goal with |- context [if ?c then _ else _] => destruct c end; reflexivity
    | destruct (setup_data a r e o t1 t2 t3 t4 i) as [[u | e'] res'] ]
  end; cbn [snd] in Hsamples; unfold raise, attr; [|discriminate].
  destruct (total_count res'); unfold bind, emit, ret, raise; cbn [fst]; [|discriminate].
  intro Hres. injection Hres as <-. exact Hsamples.
Qed.

(** Whatever [decode_samples] returns has no [None] entry, when the
    list it starts from has none. *)
Lemma decode_samples_no_none (self : ADXL345Results F)
    (l : list (option (Accel_Measurement F))) :
  ~ In None (samples self) ->
  fst (decode_samples self) = Ok l -> ~ In None l.
Proof.
  intros Hclean. unfold decode_samples.
  destruct (res_raw_samples self) as [[| b rest] |];
    try (cbn [fst]; intro Hl; injection Hl as <-; exact Hclean).
  destruct (res_axes_map self) as [axes |]; [|discriminate].
  destruct (total_count self) as [total |]; [|discriminate].
  destruct (start2_time self) as [start2 |]; [|discriminate].
  destruct (seq_to_time self) as [s2t |]; [|discriminate].
  set (l0 := decoded axes start2 s2t (time_per_sample self) (b :: rest)).
  destruct (Nat.le_gt_cases (length l0) (Z.to_nat total)) as [Hfit | Hover].
  - pose proof (@for_each_decode_block F _ axes start2 s2t (time_per_sample self)
                  (b :: rest) [] (Z.to_nat total) Hfit) as Hloop.
    cbn [map app length] in Hloop. change (Z.of_nat 0) with 0 in Hloop.
    rewrite Hloop. fold l0. cbn [fst].
    rewrite Nat2Z.id, <- (length_map Some l0), firstn_app, firstn_all, Nat.sub_diag.
    cbn [firstn]. rewrite app_nil_r. intro Hl. injection Hl as <-.
    rewrite in_map_iff. intros [x [Hx _]]. discriminate.
  - pose proof (@for_each_decode_block_full F _ axes start2 s2t (time_per_sample self)
                  (b :: rest) [] (Z.to_nat total) Hover) as Hloop.
    cbn [map app length] in Hloop. change (Z.of_nat 0) with 0 in Hloop.
    destruct (for_each (b :: rest) _ _) as [[u | e] [filled k]];
      cbn [fst] in Hloop; [discriminate | cbn [fst]; discriminate].
Qed.

Lemma dispatch_run (m : Incoming) (s : System F) :
  fst (dispatch m s) = Ok tt
  /\ query_rate (adxl345 (snd (dispatch m s))) = query_rate (adxl345 s)
  /\ (is_data m = false ->
      raw_samples (adxl345 (snd (dispatch m s))) = raw_samples (adxl345 s)).
Proof.
  unfold dispatch, bind, get_adxl345, set_adxl345. destruct m; cbn; repeat split.
  discriminate.
Qed.

Lemma dispatch_all (msgs : list Incoming) :
  forall s : System F,
    fst (for_each msgs dispatch s) = Ok tt
    /\ query_rate (adxl345 (snd (for_each msgs dispatch s))) = query_rate (adxl345 s)
    /\ (forallb (fun m => negb (is_data m)) msgs = true ->
        raw_samples (adxl345 (snd (for_each msgs dispatch s))) = raw_samples (adxl345 s)).
Proof.
  induction msgs as [| m msgs IH]; intro s; [repeat split|].
  cbn [for_each forallb]. rewrite bind_run.
  destruct (dispatch_run m s) as [Hok [Hrate Hraw]].
  destruct (dispatch m s) as [[[] | e] s1]; cbn [fst snd] in *; [|discriminate].
  destruct (IH s1) as [Hok' [Hrate' Hraw']].
  split; [exact Hok'|]. split; [congruence|].
  intro Hall. apply andb_true_iff in Hall as [Hm Hrest].
  apply negb_true_iff in Hm. rewrite (Hraw' Hrest). apply Hraw. exact Hm.
Qed.


Lemma run_run {A : Type} (m : M (System F) A) (p : Printer F) :
  run m p
  = (fst (m (system p)),
     {| system := snd (m (system p)); chip_name := chip_name p;
        host_calls := host_calls p |}).
Proof. reflexivity. Qed.

Lemma tell_bind {B : Type} (c : HostCall F) (k : unit -> M (Printer F) B) (p : Printer F) :
  bind (tell c) k p
  = k tt {| system := system p; chip_name := chip_name p;
            host_calls := host_calls p ++ [(length (trace (system p)), c)] |}.
Proof. reflexivity. Qed.

Lemma get_bind {S B : Type} (k : S -> M S B) (s : S) : bind get k s = k s s.
Proof. reflexivity. Qed.

(** The wait loop ends with the driver measuring as before when it
    returns, and idle when it raises. *)
Lemma query_wait_run (pauses : nat) (starttime : F) :
  forall (eventtime : F) (p : Printer F),
    let out := query_wait pauses starttime eventtime p in
    match fst out with
    | Ok _ => query_rate (adxl345 (system (snd out))) = query_rate (adxl345 (system p))
    | Raise _ => is_measuring (adxl345 (system (snd out))) = false
    end.
Proof.
  induction pauses as [| pauses IH]; intros eventtime p; cbv zeta.
  - cbn [query_wait]. rewrite get_bind.
    destruct (raw_samples (adxl345 (system p))); reflexivity.
  - cbn [query_wait]. rewrite get_bind.
    destruct (raw_samples (adxl345 (system p))) as [| b rest]; [|reflexivity].
    rewrite tell_bind, get_bind. cbn [system host_calls chip_name].
    rewrite bind_run, run_run. cbn [system host_calls chip_name].
    set (hc := host_calls p ++ [(length (trace (system p)), Pause (fadd eventtime (of_dec 0.1)))]).
    destruct (dispatch_all (pause_arrivals (trace (system p)) hc) (system p))
      as [Hok [Hrate _]].
    destruct (for_each (pause_arrivals (trace (system p)) hc) dispatch (system p))
      as [[[] | e] s1]; cbn [fst snd] in *; [|discriminate].
    destruct (fltb (fadd starttime (of_dec 3)) (pause_return (trace (system p)) hc)).
    + rewrite bind_run, run_run. cbn [system].
      pose proof (finish_measurements_idle s1) as Hidle.
      destruct (finish_measurements s1) as [[res | e] s2]; cbn [fst snd system] in *;
        exact Hidle.
    + match goal with |- context [query_wait pauses starttime ?ev ?p1] =>
        specialize (IH ev p1) end.
      cbv zeta in IH. cbn [system] in IH.
      destruct (fst (query_wait pauses starttime _ _)); [congruence | exact IH].
Qed.

Lemma query_wait_no_data (pauses : nat) (starttime : F) :
  (forall tr hc, forallb (fun m => negb (is_data m)) (pause_arrivals tr hc) = true) ->
  forall (eventtime : F) (p : Printer F),
    raw_samples (adxl345 (system p)) = [] ->
    is_measuring (adxl345 (system p)) = true ->
    fst (query_wait pauses starttime eventtime p) = Ok false
    \/ fst (query_wait pauses starttime eventtime p) = Raise AttributeError.
Proof.
  intro Hnodata.
  induction pauses as [| pauses IH]; intros eventtime p Hempty Hmeasuring.
  - cbn [query_wait]. rewrite get_bind, Hempty. left. reflexivity.
  - cbn [query_wait]. rewrite get_bind, Hempty.
    rewrite tell_bind, get_bind. cbn [system host_calls chip_name].
    rewrite bind_run, run_run. cbn [system host_calls chip_name].
    set (hc := host_calls p ++ [(length (trace (system p)), Pause (fadd eventtime (of_dec 0.1)))]).
    destruct (dispatch_all (pause_arrivals (trace (system p)) hc) (system p))
      as [Hok [Hrate Hraw]].
    specialize (Hraw (Hnodata _ _)).
    destruct (for_each (pause_arrivals (trace (system p)) hc) dispatch (system p))
      as [[[] | e] s1]; cbn [fst snd] in *; [|discriminate].
    assert (Hmeasuring1 : is_measuring (adxl345 s1) = true)
      by (unfold is_measuring in *; rewrite Hrate; exact Hmeasuring).
    destruct (fltb (fadd starttime (of_dec 3)) (pause_return (trace (system p)) hc)).
    + right. rewrite bind_run, run_run. cbn [system].
      rewrite (finish_measurements_empty s1 Hmeasuring1 ltac:(congruence)). reflexivity.
    + apply IH; cbn [system]; congruence.
Qed.

Lemma query_wait_deadline (pauses : nat) (starttime : F) (deadline : nat) :
  (forall tr hc, forallb (fun m => negb (is_data m)) (pause_arrivals tr hc) = true) ->
  (forall tr hc, (deadline <= length hc)%nat ->
                 fltb (fadd starttime (of_dec 3)) (pause_return tr hc) = true) ->
  forall (eventtime : F) (p : Printer F),
    raw_samples (adxl345 (system p)) = [] ->
    is_measuring (adxl345 (system p)) = true ->
    (1 <= pauses)%nat ->
    (deadline <= length (host_calls p) + pauses)%nat ->
    fst (query_wait pauses starttime eventtime p) = Raise AttributeError.
Proof.
  intros Hnodata Hlate.
  induction pauses as [| pauses IH]; intros eventtime p Hempty Hmeasuring Hone Hreach; [lia|].
  cbn [query_wait]. rewrite get_bind, Hempty.
  rewrite tell_bind, get_bind. cbn [system host_calls chip_name].
  rewrite bind_run, run_run. cbn [system host_calls chip_name].
  set (hc := host_calls p ++ [(length (trace (system p)), Pause (fadd eventtime (of_dec 0.1)))]).
  assert (Hlen : length hc = S (length (host_calls p)))
    by (subst hc; rewrite length_app; cbn [length]; lia).
  destruct (dispatch_all (pause_arrivals (trace (system p)) hc) (system p))
    as [Hok [Hrate Hraw]].
  specialize (Hraw (Hnodata _ _)).
  destruct (for_each (pause_arrivals (trace (system p)) hc) dispatch (system p))
    as [[[] | e] s1]; cbn [fst snd] in *; [|discriminate].
  assert (Hmeasuring1 : is_measuring (adxl345 s1) = true)
    by (unfold is_measuring in *; rewrite Hrate; exact Hmeasuring).
  destruct (fltb (fadd starttime (of_dec 3)) (pause_return (trace (system p)) hc)) eqn:Hlate1.
  - rewrite bind_run, run_run. cbn [system].
    rewrite (finish_measurements_empty s1 Hmeasuring1 ltac:(congruence)). reflexivity.
  - assert (Hearly : (length hc < deadline)%nat).
    { destruct (Nat.le_gt_cases deadline (length hc)) as [Hle | Hgt]; [|exact Hgt].
      rewrite (Hlate _ _ Hle) in Hlate1. discriminate. }
    apply IH; cbn [system host_calls]; try congruence; lia.
Qed.


(** X21. [cmd_ACCELEROMETER_QUERY] on an idle driver, when no sample
    message arrives while it waits: if [start_measurements] raises, so does
    the command; otherwise the command never replies and never reports its
    timeout, for [finish_measurements] raises [AttributeError] on the empty
    buffer first.  Within the pauses the model allows, the command is still
    waiting or has raised [AttributeError], and it has raised
    [AttributeError] once the reactor's clock is past the three seconds. *)
Theorem query_command_without_data :
  forall (pauses : nat) (p : Printer F),
    is_measuring (adxl345 (system p)) = false ->
    (forall tr hc, forallb (fun m => negb (is_data m)) (pause_arrivals tr hc) = true) ->
    let out := cmd_ACCELEROMETER_QUERY pauses p in
    let started := start_measurements None (system p) in
    let starttime := monotonic (trace (snd started)) in
    match fst started with
    | Raise e => fst out = Raise e
    | Ok _ =>
        (fst out = Ok StillWaiting \/ fst out = Raise AttributeError)
        /\ forall deadline : nat,
             (1 <= pauses)%nat ->
             (deadline <= length (host_calls p) + pauses)%nat ->
             (forall tr hc, (deadline <= length hc)%nat ->
                            fltb (fadd starttime (of_dec 3)) (pause_return tr hc) = true) ->
             fst out = Raise AttributeError
    end.
Proof.
  intros pauses p Hidle Hnodata out started starttime. subst out.
  unfold cmd_ACCELEROMETER_QUERY. rewrite get_bind, Hidle.
  rewrite bind_run, run_run. fold started.
  pose proof (@start_measurements_run (system p) None Hidle) as Hstart.
  cbv beta iota zeta in Hstart. fold started in Hstart.
  destruct (fst started) as [[] | e]; [|reflexivity].
  destruct Hstart as [_ [_ [code [before [init [_ [_ [_ [_ [Hself Hon]]]]]]]]]].
  rewrite get_bind. cbn [system]. fold starttime.
  set (p1 := {| system := snd started; chip_name := chip_name p;
                host_calls := host_calls p |}).
  assert (Hempty : raw_samples (adxl345 (system p1)) = [])
    by (cbn [system p1]; rewrite Hself; reflexivity).
  split.
  - rewrite bind_run.
    destruct (@query_wait_no_data pauses starttime Hnodata starttime p1 Hempty Hon)
      as [Hwait | Hwait];
      destruct (query_wait pauses starttime starttime p1) as [[ready | e] p2];
      cbn [fst] in Hwait; try discriminate.
    + injection Hwait as ->. left. reflexivity.
    + injection Hwait as ->. right. reflexivity.
  - intros deadline Hone Hreach Hlate. rewrite bind_run.
    pose proof (@query_wait_deadline pauses starttime deadline Hnodata Hlate starttime p1
                  Hempty Hon Hone Hreach) as Hwait.
    destruct (query_wait pauses starttime starttime p1) as [[ready | e] p2];
      cbn [fst] in Hwait; [discriminate|].
    injection Hwait as ->. reflexivity.
Qed.

Lemma bind_split {S A B : Type} (m : M S A) (k : A -> M S B) (s : S) :
  bind m k s
  = match fst (m s) with
    | Ok a => k a (snd (m s))
    | Raise e => (Raise e, snd (m s))
    end.
Proof. unfold bind. destruct (m s) as [[a | e] s1]; reflexivity. Qed.

(** X22. Whenever [cmd_ACCELEROMETER_QUERY], called on an idle driver,
    ends, by a reply or by an exception, the driver is idle again.  It never
    fails to unpack the last sample, and when it replies, the values
    replied are those of the last sample that [decode_samples] returned for
    the results of [finish_measurements], called when the wait ended. *)
Theorem query_command_leaves_driver_idle :
  forall (pauses : nat) (p : Printer F),
    is_measuring (adxl345 (system p)) = false ->
    let out := cmd_ACCELEROMETER_QUERY pauses p in
    let started := start_measurements None (system p) in
    let starttime := monotonic (trace (snd started)) in
    let waited := query_wait pauses starttime starttime
                    {| system := snd started; chip_name := chip_name p;
                       host_calls := host_calls p |} in
    let finished := finish_measurements (system (snd waited)) in
    fst out <> Ok StillWaiting ->
    is_measuring (adxl345 (system (snd out))) = false
    /\ fst out <> Ok TypeError
    /\ (fst out = Ok Replied ->
        exists (res : ADXL345Results F) (values : list (option (Accel_Measurement F)))
               (m : Accel_Measurement F),
          fst started = Ok tt
          /\ fst waited = Ok true
          /\ fst finished = Ok res
          /\ fst (decode_samples res) = Ok values
          /\ last values None = Some m
          /\ system (snd out) = snd finished
          /\ host_calls (snd out)
             = host_calls (snd waited)
               ++ [(length (trace (snd finished)),
                    RespondInfo (QueryValues (accel_x m) (accel_y m) (accel_z m)))]).
Proof.
  intros pauses p Hidle out started starttime waited finished. subst out.
  unfold cmd_ACCELEROMETER_QUERY. rewrite get_bind, Hidle.
  rewrite bind_run, run_run. fold started.
  pose proof (@start_measurements_run (system p) None Hidle) as Hstart.
  cbv beta iota zeta in Hstart. fold started in Hstart.
  destruct (fst started) as [[] | e] eqn:Hstarted.
  2:{ destruct Hstart as [_ [_ [Hself _]]]. intros _. cbn [system fst snd].
      rewrite Hself. split; [exact Hidle|]. split; discriminate. }
  clear Hstart. rewrite get_bind. cbn [system]. fold starttime. rewrite bind_split.
  fold waited.
  pose proof (@query_wait_run pauses starttime starttime
                {| system := snd started; chip_name := chip_name p;
                   host_calls := host_calls p |}) as Hwait.
  cbv zeta in Hwait. fold waited in Hwait.
  destruct (fst waited) as [[|] | e] eqn:Hwaited; cbn [negb].
  2:{ intro Hx. exfalso. apply Hx. reflexivity. }
  2:{ intros _. cbn [fst snd]. split; [exact Hwait|]. split; discriminate. }
  clear Hwait. rewrite bind_split, run_run. cbn [fst snd]. fold finished.
  pose proof (finish_measurements_idle (system (snd waited))) as Hdone.
  pose proof (@finish_measurements_samples (system (snd waited))) as Hsamples.
  fold finished in Hdone, Hsamples.
  destruct (fst finished) as [res | e] eqn:Hfinished.
  2:{ intros _. cbn [fst snd system]. split; [exact Hdone|]. split; discriminate. }
  specialize (Hsamples res eq_refl).
  rewrite bind_run. unfold lift.
  pose proof (@decode_samples_no_none res) as Hclean.
  rewrite Hsamples in Hclean.
  destruct (fst (decode_samples res)) as [values | e] eqn:Hvalues.
  2:{ intros _. cbn [fst snd system]. split; [exact Hdone|]. split; discriminate. }
  specialize (Hclean values (fun Hin => Hin) eq_refl).
  destruct (rev values) as [| [m |] older] eqn:Hrev.
  - intros _. cbn [fst snd system raise]. split; [exact Hdone|]. split; discriminate.
  - intros _. rewrite tell_bind. cbn [fst snd system ret host_calls].
    split; [exact Hdone|]. split; [discriminate|]. intros _.
    exists res, values, m.
    repeat split; try assumption.
    rewrite <- (rev_involutive values), Hrev. cbn [rev]. apply last_last.
  - exfalso. apply Hclean. apply in_rev. rewrite Hrev. left. reflexivity.
Qed.

(** X23. The two debug commands refuse to run during a measurement
    session, nothing sent.  On an idle driver [cmd_ADXL345_DEBUG_READ] makes
    one read transfer, no write, and replies the byte read;
    [cmd_ADXL345_DEBUG_WRITE] sends the register and the low byte of the
    value once, reads it back, replies nothing, and returns exactly when the
    byte read back is the value. *)
Theorem debug_commands_bus_traffic :
  forall (p : Printer F) (gcmd : GCodeCommand F),
    (is_measuring (adxl345 (system p)) = true ->
     cmd_ADXL345_DEBUG_READ gcmd p
     = (Raise (CommandError "adxl345 measurements in progress"), p)
     /\ cmd_ADXL345_DEBUG_WRITE gcmd p
        = (Raise (CommandError "adxl345 measurements in progress"), p))
    /\ (is_measuring (adxl345 (system p)) = false ->
        forall reg : Z,
          param_REG gcmd = Ok reg ->
          (let out := cmd_ADXL345_DEBUG_READ gcmd p in
           let answer := getitem (spi_transfer_response (trace (system p))
                                    [Z.lor reg REG_MOD_READ; 0x00]) 1 in
           system (snd out) = extend (system p) [reading reg]
           /\ match answer with
              | Ok val =>
                  fst out = Ok tt
                  /\ host_calls (snd out)
                     = host_calls p
                       ++ [(S (length (trace (system p))),
                            RespondInfo (RegisterValue reg val))]
              | Raise e => fst out = Raise e /\ host_calls (snd out) = host_calls p
              end)
          /\ forall val : Z,
               param_VAL gcmd = Ok val ->
               let out := cmd_ADXL345_DEBUG_WRITE gcmd p in
               let sent := SpiSend [reg; Z.land val 0xFF] 0 in
               let answer := getitem (spi_transfer_response (trace (system p) ++ [sent])
                                        [Z.lor reg REG_MOD_READ; 0x00]) 1 in
               system (snd out) = extend (system p) [sent; reading reg]
               /\ host_calls (snd out) = host_calls p
               /\ (fst out = Ok tt <-> answer = Ok val)).
Proof.
  intros p gcmd. split.
  - intro Hmeasuring. unfold cmd_ADXL345_DEBUG_READ, cmd_ADXL345_DEBUG_WRITE.
    rewrite !get_bind, Hmeasuring. split; reflexivity.
  - intros Hidle reg Hreg. split.
    + cbv zeta. unfold cmd_ADXL345_DEBUG_READ.
      rewrite get_bind, Hidle, bind_run. unfold lift. rewrite Hreg. cbv beta iota.
      rewrite bind_run, run_run, read_reg_run. cbn [fst snd].
      destruct (getitem _ 1) as [val | e]; cbv beta iota.
      * unfold tell. cbn [fst snd system host_calls extend trace].
        rewrite length_app. cbn [length]. rewrite Nat.add_1_r.
        repeat split.
      * cbn [fst snd system host_calls]. repeat split.
    + intros val Hval. cbv zeta. unfold cmd_ADXL345_DEBUG_WRITE.
      rewrite get_bind, Hidle, bind_run. unfold lift. rewrite Hreg. cbv beta iota.
      rewrite bind_run. rewrite Hval. cbv beta iota.
      rewrite run_run, set_reg_run. cbn [fst snd system host_calls].
      split; [reflexivity|]. split; [reflexivity|].
      destruct (getitem _ 1) as [stored | e]; [|split; discriminate].
      destruct (Z.eqb_spec stored val) as [-> | Hne]; split; intro Hx;
        try reflexivity; try discriminate.
      injection Hx as ->. contradiction.
Qed.

End CommandProofs.

(** * Concrete runs *)

Section Runs.

Import Binary64.

(** The counts 0, 1, 65535, 65536, 131000 are recovered from their 16-bit
    observations. *)
Lemma sequence_extension_witness :
  within_one_wrap (last_sequence (adxl345 power_on)) (map fst wrapping_blocks)
  /\ sequence_history (adxl345 power_on) (map observe wrapping_blocks)
     = [0; 1; 65535; 65536; 131000].
Proof.
  assert (Hwrap : within_one_wrap (last_sequence (adxl345 power_on))
                    (map fst wrapping_blocks)).
  { cbn. repeat split; lia. }
  split; [exact Hwrap|].
  exact (proj1 (sequence_extension_recovers_count (adxl345 power_on) wrapping_blocks Hwrap)).
Defined.

(** A session that lost one block of eight samples reports eight drops. *)
Lemma drops_witness :
  well_formed_session gapped_session 4 = true
  /\ 0 <= drops (snd (setup_data default_axes gapped_session 4 0
                        (of_Q 10) (of_Q 10) (of_Q 11) (of_Q 11)
                        ADXL345Results_init)).
Proof.
  assert (Hwf : well_formed_session gapped_session 4 = true) by reflexivity.
  split; [exact Hwf|].
  exact (proj1 (@drops_nonnegative float _ default_axes gapped_session 4 0
                  (of_Q 10) (of_Q 10) (of_Q 11) (of_Q 11) Hwf)).
Defined.

(** An append to a buffer that holds 300000 blocks. *)
Lemma raw_buffer_witness :
  Z.of_nat (length (raw_samples full_buffer)) <= MAX_RAW_SAMPLES
  /\ Z.of_nat (length (raw_samples (handle_all full_buffer [(5, [x00])])))
     <= MAX_RAW_SAMPLES.
Proof.
  assert (Hcap : Z.of_nat (length (raw_samples full_buffer)) <= MAX_RAW_SAMPLES).
  { cbn [raw_samples full_buffer]. rewrite repeat_length. unfold MAX_RAW_SAMPLES. lia. }
  split; [exact Hcap|].
  exact (proj1 (proj2 (@raw_buffer_capped float _ full_buffer [(5, [x00])] Hcap))).
Defined.

(** The chip that reports zero on every axis: with the default budget,
    three retries and then an abort, the probe left uncalibrated. *)
Lemma calibration_witness :
  timers power_on = []
  /\ 0 <= 3
  /\ reports (trace (snd (calibration (env := all_zero) false None 4 power_on)))
     = [Retrying 2; Retrying 1; Retrying 0; Aborting]
  /\ attempts (trace (snd (calibration (env := all_zero) false None 4 power_on))) = 4%nat
  /\ calibrated (endstop (snd (calibration (env := all_zero) false None 4 power_on)))
     = false.
Proof.
  assert (Hidle : timers power_on = []) by reflexivity.
  assert (Hbudget : 0 <= 3) by lia.
  split; [exact Hidle|]. split; [exact Hbudget|].
  destruct (@calibration_retries_bounded float _ _ all_zero power_on false None
              Hidle Hbudget) as [[added [Htrace [_ Hok]]] _].
  change (S (Z.to_nat 3)) with 4%nat in Htrace, Hok.
  assert (Hadded : added = trace (snd (calibration (env := all_zero) false None 4 power_on)))
    by (rewrite Htrace; reflexivity).
  subst added.
  assert (Hran : fst (calibration (env := all_zero) false None 4 power_on) = Ok tt)
    by (vm_compute; reflexivity).
  assert (Hseen : reports (trace (snd (calibration (env := all_zero) false None 4 power_on)))
                  = [Retrying 2; Retrying 1; Retrying 0; Aborting])
    by (vm_compute; reflexivity).
  destruct (Hok Hran) as [_ [_ [Hfailed _]]].
  assert (Hnone : ~ In Succeeded
                      (reports (trace (snd (calibration (env := all_zero) false None 4
                                              power_on))))).
  { rewrite Hseen. cbn [In]. intros [Hin | [Hin | [Hin | [Hin | []]]]]; discriminate Hin. }
  destruct (Hfailed Hnone) as [Hreports [Hattempts Hflag]].
  split; [exact Hreports|]. split; [exact Hattempts|]. exact Hflag.
Defined.

(** The chip at rest: the first attempt succeeds. *)
Example calibration_at_rest :
  reports (trace (snd (calibration (env := at_rest) false None 4 power_on))) = [Succeeded]
  /\ attempts (trace (snd (calibration (env := at_rest) false None 4 power_on))) = 1%nat
  /\ calibrated (endstop (snd (calibration (env := at_rest) false None 4 power_on))) = true.
Proof. vm_compute. repeat split. Qed.

(** C6, as the specification states it, fails on the chip at rest: the
    mean of the third axis is one g, the rounded offset is -64, and the
    byte written to [REG_OFSZ] is 192. *)
Lemma offset_register_counterexample :
  tolerance_check (tap_thresh (endstop power_on)) rest_samples
  = Ok (Within (of_Q 0) (of_Q 0) rest_mean_z)
  /\ fst (process_samples (env := at_rest) false 3 rest_samples power_on) = Ok tt
  /\ offset_rounding rest_mean_z (snd (axes_entry default_axes Pos2)) = Ok (-64)
  /\ register_writes (trace (snd (process_samples (env := at_rest) false 3
                                    rest_samples power_on)))
     = [(REG_OFSX, 0); (REG_OFSY, 0); (REG_OFSZ, 192)]
  /\ 192 <> -64.
Proof. vm_compute. repeat split; discriminate. Qed.

(** The same session under the statement the code satisfies. *)
Lemma offset_registers_witness :
  tolerance_check (tap_thresh (endstop power_on)) rest_samples
  = Ok (Within (of_Q 0) (of_Q 0) rest_mean_z)
  /\ fst (process_samples (env := at_rest) false 3 rest_samples power_on) = Ok tt
  /\ calibrated (endstop (snd (process_samples (env := at_rest) false 3
                                  rest_samples power_on))) = true.
Proof.
  assert (Hcheck : tolerance_check (tap_thresh (endstop power_on)) rest_samples
                   = Ok (Within (of_Q 0) (of_Q 0) rest_mean_z))
    by (vm_compute; reflexivity).
  assert (Hok : fst (process_samples (env := at_rest) false 3 rest_samples power_on)
                = Ok tt)
    by (vm_compute; reflexivity).
  split; [exact Hcheck|]. split; [exact Hok|].
  destruct (@offset_registers_written float _ _ at_rest false 3 rest_samples power_on
              (of_Q 0) (of_Q 0) rest_mean_z Hcheck Hok)
    as [_ [_ [_ [rx [ry [rz [added [_ [_ [_ [_ [_ [_ Hflag]]]]]]]]]]]]].
  exact Hflag.
Defined.

(** Start while measuring, finish while idle. *)
Lemma start_finish_witness :
  is_measuring (adxl345 measuring) = true
  /\ is_measuring (adxl345 power_on) = false
  /\ start_measurements (env := at_rest) (Some 1600) measuring = (Ok tt, measuring)
  /\ finish_measurements (env := at_rest) power_on = (Ok ADXL345Results_init, power_on).
Proof.
  assert (Hbusy : is_measuring (adxl345 measuring) = true) by (vm_compute; reflexivity).
  assert (Hidle : is_measuring (adxl345 power_on) = false) by reflexivity.
  split; [exact Hbusy|]. split; [exact Hidle|]. split.
  - exact (proj1 (@start_finish_guards float _ at_rest measuring) Hbusy (Some 1600)).
  - exact (proj1 (proj2 (@start_finish_guards float _ at_rest power_on) Hidle)).
Defined.

(** The session at rest decodes to its 128 samples. *)
Lemma decode_samples_witness :
  received_count (numbered (repeat (full_block (x00, x00) (x00, x00) (x00, x01)) 16)) <= 128
  /\ Z.of_nat (length rest_samples) = 128
  /\ ~ In None rest_samples.
Proof.
  set (raw := numbered (repeat (full_block (x00, x00) (x00, x00) (x00, x01)) 16)).
  assert (Hfit : received_count raw <= 128) by (vm_compute; discriminate).
  split; [exact Hfit|].
  destruct (@decode_samples_in_bounds float _ rest_results raw default_axes 128
              (of_Q 10.1001)
              (PrimFloat.mul (PrimFloat.div (PrimFloat.sub (of_Q 10.1801) (of_Q 10.1001))
                                            (of_Q 128)) (of_Q 8))
              ltac:(vm_compute; reflexivity) ltac:(discriminate)
              ltac:(vm_compute; reflexivity) ltac:(vm_compute; reflexivity)
              ltac:(vm_compute; reflexivity) ltac:(vm_compute; reflexivity))
    as [Hdecode _].
  destruct (Hdecode Hfit) as [Hres [_ [Hlen Hnone]]].
  unfold rest_samples. rewrite Hres. split; [|exact Hnone].
  rewrite Hlen. vm_compute. reflexivity.
Defined.

(** The end-to-end scenario on binary64: eighty samples, none missing,
    timestamps strictly increasing, the ramp recovered on the first axis. *)
Example end_to_end_binary64 :
  (exists l, end_to_end = Ok (map Some l) /\ length l = 80%nat)
  /\ increasingb (map (@time float) end_to_end_samples) = true
  /\ map (@accel_x float) end_to_end_samples
     = map (fun v => PrimFloat.mul (of_Q (inject_Z (Z.of_nat v))) SCALE) (seq 0 80).
Proof.
  split; [exists end_to_end_samples|]; vm_compute; repeat split.
Qed.

(** A message five blocks past the 16-bit boundary, eleven blocks ahead of
    the last one seen. *)
Lemma message_seq_witness :
  65530 - 32768 <= 65541 < 65530 + 32768
  /\ LIS2DW.message_seq 65530 (65541 mod 65536) = 65541.
Proof.
  assert (Hnear : 65530 - 32768 <= 65541 < 65530 + 32768) by lia.
  split; [exact Hnear|].
  exact (proj2 message_seq_recovers_sequence 65530 65541 Hnear).
Defined.

(** One message of nine groups overruns the eight preallocated entries. *)
Lemma index_error_witness :
  Z.of_nat (length nine_groups) * LIS2DW.SAMPLES_PER_BLOCK < received_count nine_groups
  /\ LIS2DW.extract_samples unit_axes 0 fit_1600 nine_groups = Raise IndexError.
Proof.
  assert (Hover : Z.of_nat (length nine_groups) * LIS2DW.SAMPLES_PER_BLOCK
                  < received_count nine_groups) by reflexivity.
  split; [exact Hover|].
  exact (proj2 (@LIS2DWBatchProofs.extract_samples_index_error float _ unit_axes 0 fit_1600
                  nine_groups) Hover).
Defined.

(** The short session as a batch: three samples, the counts beside them. *)
Lemma process_batch_witness :
  LIS2DWBatch.process_batch unit_axes 0 fit_1600 0 0 short_session = Ok short_batch
  /\ match fst short_batch with
     | None => short_session = [] /\ snd short_batch = None
     | Some b =>
         LIS2DWBatch.batch_data b
         = map Some (LIS2DW.published unit_axes fit_1600 0 short_session)
         /\ 0 < received_count short_session
         /\ Z.of_nat (length (LIS2DWBatch.batch_data b)) = received_count short_session
         /\ LIS2DWBatch.batch_errors b = 0
         /\ LIS2DWBatch.batch_overflows b = 0
     end.
Proof.
  assert (Hrun : LIS2DWBatch.process_batch unit_axes 0 fit_1600 0 0 short_session
                 = Ok short_batch) by (vm_compute; reflexivity).
  split; [exact Hrun|].
  exact (@LIS2DWBatchProofs.process_batch_never_empty_data float _ unit_axes 0 fit_1600 0 0
           short_session short_batch Hrun).
Defined.

(** The last message of the short session has one complete group: the chip
    clock is that of its group 0. *)
Lemma chip_clock_witness :
  LIS2DW.extract_samples unit_axes 0 fit_1600
    ([(0, [x01; x00; x02; x00; x03; x00; x04; x00; x05; x00; x06; x00])]
     ++ [(2, [x01; x00; x02; x00; x03; x00; xff])])
  = Ok (fst short_extract, snd short_extract)
  /\ 0 < sample_count [x01; x00; x02; x00; x03; x00; xff]
  /\ snd short_extract = LIS2DW.message_seq 0 2 * LIS2DW.SAMPLES_PER_BLOCK
                         + (sample_count [x01; x00; x02; x00; x03; x00; xff] - 1).
Proof.
  assert (Hrun : LIS2DW.extract_samples unit_axes 0 fit_1600
                   ([(0, [x01; x00; x02; x00; x03; x00; x04; x00; x05; x00; x06; x00])]
                    ++ [(2, [x01; x00; x02; x00; x03; x00; xff])])
                 = Ok (fst short_extract, snd short_extract))
    by (vm_compute; reflexivity).
  assert (Hgroup : 0 < sample_count [x01; x00; x02; x00; x03; x00; xff]) by reflexivity.
  split; [exact Hrun|]. split; [exact Hgroup|].
  exact (proj1 (@LIS2DWBatchProofs.extract_samples_chip_clock float _ unit_axes 0 fit_1600
                  _ 2 _ _ _ Hrun) Hgroup).
Defined.

(** The session at rest decoded twice. *)
Lemma decode_repeatable_witness :
  decode_samples rest_results = (Ok rest_samples, snd (decode_samples rest_results))
  /\ decode_samples (snd (decode_samples rest_results))
     = (Ok rest_samples, snd (decode_samples rest_results)).
Proof.
  assert (Hrun : decode_samples rest_results
                 = (Ok rest_samples, snd (decode_samples rest_results)))
    by (vm_compute; reflexivity).
  split; [exact Hrun|].
  exact (proj2 (@decode_samples_repeatable float _ rest_results _ rest_samples Hrun)).
Defined.

(** The session that lost block 1: three blocks received, four sent. *)
Lemma missing_blocks_witness :
  gapped_session <> []
  /\ expected_count gapped_session 4 <> 0
  /\ Forall (fun blk : RawBlock => sample_count (snd blk) = 8) (removelast gapped_session)
  /\ drops (snd (setup_data default_axes gapped_session 4 0
                   (of_Q 10) (of_Q 10) (of_Q 11) (of_Q 11) ADXL345Results_init))
     = 8 * (4 - Z.of_nat (length gapped_session)).
Proof.
  assert (Hne : gapped_session <> []) by discriminate.
  assert (Hend : 4 <> 0) by lia.
  assert (Htotal : expected_count gapped_session 4 <> 0) by (vm_compute; discriminate).
  assert (Hfull : Forall (fun blk : RawBlock => sample_count (snd blk) = 8)
                         (removelast gapped_session))
    by (repeat constructor).
  split; [exact Hne|]. split; [exact Htotal|]. split; [exact Hfull|].
  exact (@drops_counts_missing_blocks float _ default_axes gapped_session 4 0
           (of_Q 10) (of_Q 10) (of_Q 11) (of_Q 11) ADXL345Results_init
           Hne Hend Htotal Hfull).
Defined.

(** A session stopped before any block arrived: the driver is idle
    again. *)
Lemma finish_stops_witness :
  is_measuring (adxl345 measuring) = true
  /\ is_measuring (adxl345 (snd (finish_measurements (env := at_rest) measuring))) = false.
Proof.
  assert (Hbusy : is_measuring (adxl345 measuring) = true) by (vm_compute; reflexivity).
  split; [exact Hbusy|].
  exact (proj1 (proj2 (@finish_measurements_stops_session float _ at_rest measuring Hbusy))).
Defined.

(** The same stop raises [AttributeError]. *)
Lemma finish_outcome_witness :
  is_measuring (adxl345 measuring) = true
  /\ raw_samples (adxl345 measuring) = []
  /\ fst (finish_measurements (env := at_rest) measuring) = Raise AttributeError.
Proof.
  assert (Hbusy : is_measuring (adxl345 measuring) = true) by (vm_compute; reflexivity).
  assert (Hempty : raw_samples (adxl345 measuring) = []) by (vm_compute; reflexivity).
  split; [exact Hbusy|]. split; [exact Hempty|].
  exact (proj1 (@finish_measurements_outcome float _ at_rest measuring Hbusy)
           (or_introl Hempty)).
Defined.

(** A session started at power-up: the probe object is not touched. *)
Lemma start_session_witness :
  is_measuring (adxl345 power_on) = false
  /\ endstop (snd (start_measurements (env := at_rest) (Some 1600) power_on))
     = endstop power_on.
Proof.
  assert (Hidle : is_measuring (adxl345 power_on) = false) by reflexivity.
  split; [exact Hidle|].
  exact (proj1 (@start_measurements_all_or_nothing float _ at_rest power_on (Some 1600)
                  Hidle)).
Defined.

(** The value 300 on a chip that stores the byte it is sent: 44 is read
    back and [set_reg] raises. *)
Lemma set_reg_witness :
  (forall b, getitem (spi_transfer_response (Collaborators := at_rest)
                        (trace power_on ++ [SpiSend [REG_OFSX; Z.land 300 0xFF] 0])
                        [Z.lor REG_OFSX REG_MOD_READ; 0x00]) 1 = Ok b ->
             0 <= b < 256)
  /\ ~ 0 <= 300 < 256
  /\ exists e, fst (set_reg (env := at_rest) REG_OFSX 300 0 power_on) = Raise e.
Proof.
  assert (Hread : getitem (spi_transfer_response (Collaborators := at_rest)
                             (trace power_on ++ [SpiSend [REG_OFSX; Z.land 300 0xFF] 0])
                             [Z.lor REG_OFSX REG_MOD_READ; 0x00]) 1 = Ok 44)
    by (vm_compute; reflexivity).
  assert (Hbyte : forall b,
             getitem (spi_transfer_response (Collaborators := at_rest)
                        (trace power_on ++ [SpiSend [REG_OFSX; Z.land 300 0xFF] 0])
                        [Z.lor REG_OFSX REG_MOD_READ; 0x00]) 1 = Ok b ->
             0 <= b < 256).
  { intros b Hb. rewrite Hread in Hb. injection Hb as <-. lia. }
  assert (Hwide : ~ 0 <= 300 < 256) by lia.
  split; [exact Hbyte|]. split; [exact Hwide|].
  exact (proj2 (proj2 (@set_reg_checks_read_back float at_rest REG_OFSX 300 0 power_on))
           Hbyte Hwide).
Defined.

(** A calibrated probe on the chip at rest is armed. *)
Lemma probe_prepare_witness :
  fst (probe_prepare (env := at_rest) calibrated_printer) = Ok tt
  /\ calibrated (endstop (system calibrated_printer)) = true
  /\ host_calls (snd (probe_prepare (env := at_rest) calibrated_printer))
     = host_calls calibrated_printer
       ++ [(length (trace (system calibrated_printer)), FlushStepGeneration)].
Proof.
  assert (Hran : fst (probe_prepare (env := at_rest) calibrated_printer) = Ok tt)
    by (vm_compute; reflexivity).
  split; [exact Hran|].
  destruct (@probe_prepare_arms_tap_interrupt float _ at_rest calibrated_printer Hran)
    as [Hflag [_ [Hcalls _]]].
  split; [exact Hflag | exact Hcalls].
Defined.

(** The probe move finished on the chip at rest. *)
Lemma probe_finish_witness :
  fst (probe_finish (env := at_rest) (printer power_on)) = Ok tt
  /\ host_calls (snd (probe_finish (env := at_rest) (printer power_on)))
     = host_calls (printer power_on)
       ++ [(length (trace power_on), Dwell ADXL345_REST_TIME)].
Proof.
  assert (Hran : fst (probe_finish (env := at_rest) (printer power_on)) = Ok tt)
    by (vm_compute; reflexivity).
  split; [exact Hran|].
  exact (proj1 (proj2 (@probe_finish_disarms_tap_interrupt float _ at_rest
                         (printer power_on) Hran))).
Defined.

(** The chip that reports zero on every axis: the calibration aborts and
    the probe refuses to probe. *)
Lemma uncalibrated_probe_witness :
  timers (system (printer power_on)) = []
  /\ 0 <= 3
  /\ calibrated (endstop (system (printer power_on))) = false
  /\ fst (run (calibration (env := all_zero) false None (S (Z.to_nat 3))) (printer power_on))
     = Ok tt
  /\ ~ In Succeeded
         (reports (skipn (length (trace (system (printer power_on))))
                         (trace (system (snd (run (calibration (env := all_zero) false None
                                                     (S (Z.to_nat 3)))
                                                  (printer power_on)))))))
  /\ probe_prepare (env := all_zero)
       (snd (run (calibration (env := all_zero) false None (S (Z.to_nat 3)))
                 (printer power_on)))
     = (Raise (CommandError
                 "ADXL345 probe failed calibration, retry with ACCEL_PROBE_CALIBRATE command"),
        snd (run (calibration (env := all_zero) false None (S (Z.to_nat 3)))
                 (printer power_on))).
Proof.
  assert (Hidle : timers (system (printer power_on)) = []) by reflexivity.
  assert (Hbudget : 0 <= 3) by lia.
  assert (Hflag : calibrated (endstop (system (printer power_on))) = false) by reflexivity.
  assert (Hran : fst (run (calibration (env := all_zero) false None (S (Z.to_nat 3)))
                          (printer power_on)) = Ok tt)
    by (vm_compute; reflexivity).
  assert (Hseen : reports (skipn (length (trace (system (printer power_on))))
                             (trace (system (snd (run (calibration (env := all_zero) false
                                                         None (S (Z.to_nat 3)))
                                                      (printer power_on))))))
                  = [Retrying 2; Retrying 1; Retrying 0; Aborting])
    by (vm_compute; reflexivity).
  assert (Hnone : ~ In Succeeded
                      (reports (skipn (length (trace (system (printer power_on))))
                                  (trace (system (snd (run (calibration (env := all_zero)
                                                              false None (S (Z.to_nat 3)))
                                                           (printer power_on)))))))).
  { rewrite Hseen. cbn [In]. intros [Hin | [Hin | [Hin | [Hin | []]]]]; discriminate Hin. }
  split; [exact Hidle|]. split; [exact Hbudget|]. split; [exact Hflag|].
  split; [exact Hran|]. split; [exact Hnone|].
  exact (proj2 (@probe_prepare_requires_calibration float _ _ all_zero)
           (printer power_on) false None Hidle Hbudget Hflag Hran Hnone).
Defined.

(** [ACCELEROMETER_MEASURE] at power-up starts the session. *)
Lemma measure_toggle_witness :
  fst (cmd_ACCELEROMETER_MEASURE (env := at_rest) (host := silent_host) no_params
         (printer power_on)) = Ok tt
  /\ is_measuring (adxl345 (system (snd (cmd_ACCELEROMETER_MEASURE (env := at_rest)
                                           (host := silent_host) no_params
                                           (printer power_on)))))
     = negb (is_measuring (adxl345 (system (printer power_on)))).
Proof.
  assert (Hran : fst (cmd_ACCELEROMETER_MEASURE (env := at_rest) (host := silent_host)
                        no_params (printer power_on)) = Ok tt)
    by (vm_compute; reflexivity).
  split; [exact Hran|].
  exact (proj1 (@measure_command_toggles float _ at_rest silent_host (printer power_on)
                  no_params Hran)).
Defined.

(** [ACCELEROMETER_MEASURE RATE=1234] is refused. *)
Lemma measure_rate_witness :
  is_measuring (adxl345 (system (printer power_on))) = false
  /\ param_RATE rate_1234 = Some (Ok 1234)
  /\ cmd_ACCELEROMETER_MEASURE (env := at_rest) (host := silent_host) rate_1234
       (printer power_on)
     = (Raise (CommandError "Not a valid adxl345 query rate: 1234"), printer power_on).
Proof.
  assert (Hidle : is_measuring (adxl345 (system (printer power_on))) = false)
    by reflexivity.
  assert (Hrate : param_RATE rate_1234 = Some (Ok 1234)) by reflexivity.
  split; [exact Hidle|]. split; [exact Hrate|].
  exact (@measure_command_checks_rate float _ at_rest silent_host (printer power_on)
           rate_1234 1234 Hidle (eq_refl (Ok 1234))).
Defined.

(** [ACCELEROMETER_MEASURE NAME=run-1_a] during a session: the name is
    accepted. *)
Lemma measure_name_witness :
  is_measuring (adxl345 (system (printer measuring))) = true
  /\ isalnum (host := silent_host) (remove_char "_" (remove_char "-" "run-1_a")) = true
  /\ ~ In "/"%char (list_ascii_of_string "run-1_a").
Proof.
  assert (Hbusy : is_measuring (adxl345 (system (printer measuring))) = true)
    by (vm_compute; reflexivity).
  assert (Hname : isalnum (host := silent_host)
                    (remove_char "_" (remove_char "-" "run-1_a")) = true)
    by reflexivity.
  split; [exact Hbusy|]. split; [exact Hname|].
  pose proof (@measure_command_file_name float _ at_rest silent_host (printer measuring)
                named_run Hbusy) as Hcmd.
  cbv zeta in Hcmd. change (param_NAME named_run) with (Some "run-1_a"%string) in Hcmd.
  cbv iota in Hcmd. rewrite Hname in Hcmd.
  exact (proj1 (proj2 (proj2 Hcmd)) eq_refl).
Defined.

(** [ACCELEROMETER_QUERY] when no message arrives and the first pause
    returns after the three seconds. *)
Lemma query_silent_witness :
  is_measuring (adxl345 (system (printer power_on))) = false
  /\ (forall tr hc, forallb (fun m => negb (is_data m))
                      (pause_arrivals (Host := silent_host) tr hc) = true)
  /\ fst (start_measurements (env := at_rest) None (system (printer power_on))) = Ok tt
  /\ fst (cmd_ACCELEROMETER_QUERY (env := at_rest) (host := silent_host) 1
            (printer power_on))
     = Raise AttributeError.
Proof.
  assert (Hidle : is_measuring (adxl345 (system (printer power_on))) = false)
    by reflexivity.
  assert (Hsilent : forall tr hc,
             forallb (fun m => negb (is_data m))
               (pause_arrivals (Host := silent_host) tr hc) = true)
    by (intros tr hc; reflexivity).
  assert (Hstarted : fst (start_measurements (env := at_rest) None
                            (system (printer power_on))) = Ok tt)
    by (vm_compute; reflexivity).
  split; [exact Hidle|]. split; [exact Hsilent|]. split; [exact Hstarted|].
  pose proof (@query_command_without_data float _ _ at_rest silent_host 1%nat
                (printer power_on) Hidle Hsilent) as Hcmd.
  cbv zeta in Hcmd. rewrite Hstarted in Hcmd.
  refine (proj2 Hcmd 0%nat (le_n 1) (Nat.le_0_l _) _).
  intros tr hc _. vm_compute. reflexivity.
Defined.

(** [ACCELEROMETER_QUERY] on the chip at rest replies and leaves the
    driver idle. *)
Lemma query_idle_witness :
  is_measuring (adxl345 (system (printer power_on))) = false
  /\ fst (cmd_ACCELEROMETER_QUERY (env := at_rest) (host := prompt_host) 5
            (printer power_on)) = Ok Replied
  /\ is_measuring (adxl345 (system (snd (cmd_ACCELEROMETER_QUERY (env := at_rest)
                                           (host := prompt_host) 5 (printer power_on)))))
     = false.
Proof.
  assert (Hidle : is_measuring (adxl345 (system (printer power_on))) = false)
    by reflexivity.
  assert (Hreply : fst (cmd_ACCELEROMETER_QUERY (env := at_rest) (host := prompt_host) 5
                          (printer power_on)) = Ok Replied)
    by (vm_compute; reflexivity).
  assert (Hended : fst (cmd_ACCELEROMETER_QUERY (env := at_rest) (host := prompt_host) 5
                          (printer power_on)) <> Ok StillWaiting)
    by (rewrite Hreply; discriminate).
  split; [exact Hidle|]. split; [exact Hreply|].
  exact (proj1 (@query_command_leaves_driver_idle float _ _ at_rest prompt_host 5%nat
                  (printer power_on) Hidle Hended)).
Defined.

(** [ADXL345_DEBUG_WRITE REG=0x2d VAL=8] during a session is refused. *)
Lemma debug_refused_witness :
  is_measuring (adxl345 (system (printer measuring))) = true
  /\ cmd_ADXL345_DEBUG_WRITE (env := at_rest) write_power_ctl (printer measuring)
     = (Raise (CommandError "adxl345 measurements in progress"), printer measuring).
Proof.
  assert (Hbusy : is_measuring (adxl345 (system (printer measuring))) = true)
    by (vm_compute; reflexivity).
  split; [exact Hbusy|].
  exact (proj2 (proj1 (@debug_commands_bus_traffic float at_rest (printer measuring)
                         write_power_ctl) Hbusy)).
Defined.

(** C4. A self-calibration that fails on a probe calibrated before does
    not leave the probe uncalibrated.  The probe calibrated on the chip at
    rest holds 192 in [REG_OFSZ]; [ACCEL_PROBE_CALIBRATE] on a chip that
    then reports zero on every axis retries three times and aborts, the
    three offset registers written back to zero, but [calibrated] is still
    [True] and [probe_prepare] does not refuse the probe move. *)
Theorem failed_recalibration_stays_calibrated :
  let before := system calibrated_printer in
  let out := calibration (env := all_zero) true None 4 before in
  let added := skipn (length (trace before)) (trace (snd out)) in
  calibrated (endstop before) = true
  /\ register_value REG_OFSZ (rev (trace before)) = 192
  /\ fst out = Ok tt
  /\ reports added = [Retrying 2; Retrying 1; Retrying 0; Aborting]
  /\ map (fun reg => register_value reg (rev (trace (snd out))))
         [REG_OFSX; REG_OFSY; REG_OFSZ] = [0; 0; 0]
  /\ calibrated (endstop (snd out)) = true
  /\ fst (probe_prepare (env := all_zero) (printer (snd out))) = Ok tt.
Proof. vm_compute. repeat split. Qed.



(** C7, as the specification states it, fails on binary64: with the
    time base [100 + 1/128], the chip base [8 - 2**-49] and 2048 Hz, the
    formula gives tick 8 the timestamp [100.0078125 + 2**-60], which is
    100.007813 to six places; the sum is rounded to the float 100.0078125,
    halfway between two decimals, and 100.007812 is published. *)
Lemma regression_timestamp_counterexample :
  has_value (LIS2DW.time_base fit_tie) (12801 # 128)
  /\ has_value (LIS2DW.chip_base fit_tie) (inject_Z 8 - (1 # 562949953421312))
  /\ has_value (LIS2DW.inv_freq fit_tie) (1 # 2048)
  /\ LIS2DW.message_seq 0 1 * LIS2DW.SAMPLES_PER_BLOCK + 0 = 8
  /\ LIS2DW.extract_samples default_axes 0 fit_tie tick_8
     = Ok ([Some (of_Q (100007812 # 1000000), of_Q 0, of_Q 0, of_Q 0)], 8)
  /\ (round_digits (exact_tick_time (12801 # 128) (inject_Z 8 - (1 # 562949953421312))
                      (1 # 2048) 8) 6
      == 100007813 # 1000000)%Q
  /\ of_Q (100007812 # 1000000) <> of_Q (100007813 # 1000000)
  /\ ~ has_value (of_Q (100007812 # 1000000)) (100007812 # 1000000).
Proof.
  split; [vm_compute; reflexivity|].
  split; [vm_compute; reflexivity|].
  split; [vm_compute; reflexivity|].
  split; [reflexivity|].
  split; [vm_compute; reflexivity|].
  split; [vm_compute; reflexivity|].
  split.
  - intro Heq.
    assert (Hv : value (of_Q (100007812 # 1000000)) = value (of_Q (100007813 # 1000000)))
      by (rewrite Heq; reflexivity).
    vm_compute in Hv. discriminate Hv.
  - vm_compute. discriminate.
Qed.

(** A batch with a trailing partial group. *)
Lemma regression_samples_witness :
  Forall (fun params : Z * list byte => sample_count (snd params) <= LIS2DW.SAMPLES_PER_BLOCK)
         short_session
  /\ Exists (fun params : Z * list byte => 0 < sample_count (snd params)) short_session
  /\ exists clock : Z,
       LIS2DW.extract_samples unit_axes 0 fit_1600 short_session
       = Ok (map Some (LIS2DW.published unit_axes fit_1600 0 short_session), clock).
Proof.
  assert (Hcap : Forall (fun params : Z * list byte =>
                           sample_count (snd params) <= LIS2DW.SAMPLES_PER_BLOCK)
                        short_session).
  { repeat constructor; vm_compute; discriminate. }
  assert (Hsome : Exists (fun params : Z * list byte => 0 < sample_count (snd params))
                         short_session).
  { apply Exists_cons_hd. reflexivity. }
  split; [exact Hcap|]. split; [exact Hsome|].
  exact (proj1 (@Binary64Proofs.regression_samples_binary64 unit_axes 0 fit_1600
                  short_session Hcap Hsome)).
Defined.

End Runs.
